(** * Enterprise-BRD: record schemas, SQLite persistence, Excel export, gateway

    A shallow embedding of
      - [models/brd_models.py]   the pydantic record schemas,
      - [utils/database.py]      the one-table SQLite store,
      - [utils/excel_export.py]  the workbook builder,
      - [utils/llm_integration.py]  the streaming call to Ollama,
      - [app.py]                 the forms that create a project, edit its
                                 overview and add an API specification,
    and the properties the specification states about them, followed by
    further properties of the same code.

    The libraries the code calls are modelled by what the code relies
    on.  pydantic: every field of a class is validated, the errors of all
    fields are collected into one [ValidationError], unknown keys are
    ignored, defaults are not validated, assignment to a field is not
    validated.  [json]: [loads] gives back what [dumps] wrote.  sqlite3:
    one table, whose columns are looked up by name and whose rows are
    read by position.  openpyxl: a workbook is a list of sheets.  What
    these libraries do beyond that (lax conversions of pydantic, the JSON
    decoder on arbitrary text, the wording of a [TypeError]) is a
    parameter of the development, and every theorem holds for all values
    of the parameters.  A Python [str] is a [string], one character per
    code point; a Python [float] is a binary64 [float], compared as IEEE
    754 compares.  Connecting to the database file and writing the
    workbook are taken to succeed. *)

From Stdlib Require Import String Ascii List ZArith Bool Arith Lia Floats.
From Stdlib Require Import Sorted Permutation.
Import ListNotations.
Open Scope string_scope.
Open Scope list_scope.

Set Warnings "-register-all,-inexact-float".

(** ** Python values *)

(** What [json.loads] can return and what a keyword argument of a model
    constructor can hold.  A [dict] keeps its items in insertion order. *)
Inductive pyval : Type :=
| PNone
| PBool (b : bool)
| PInt (z : Z)
| PFloat (f : float)
| PStr (s : string)
| PList (l : list pyval)
| PDict (d : list (string * pyval)).

Definition dict := list (string * pyval).

(** [d.get(key)] *)
Fixpoint get (d : dict) (key : string) : option pyval :=
  match d with
  | [] => None
  | (k, v) :: d' => if String.eqb k key then Some v else get d' key
  end.

(** ** Validation results

    pydantic validates every field of a model and raises one
    [ValidationError] that carries the errors of all of them. *)

Inductive error_type :=
| missing
| string_type
| string_too_short
| string_too_long
| float_type
| float_parsing
| greater_than_equal
| less_than_equal
| bool_type
| bool_parsing.

Record error := Error { loc : string; type : error_type }.

Inductive validation (A : Type) : Type :=
| Valid (a : A)
| Invalid (errs : list error).
Arguments Valid {A} a.
Arguments Invalid {A} errs.

Definition errors {A} (v : validation A) : list error :=
  match v with Valid _ => [] | Invalid e => e end.

Definition is_valid {A} (v : validation A) : bool :=
  match v with Valid _ => true | Invalid _ => false end.

Definition fmap {A B} (f : A -> B) (v : validation A) : validation B :=
  match v with Valid a => Valid (f a) | Invalid e => Invalid e end.

(** Two results side by side: the errors of both are kept. *)
Definition both {A B} (x : validation A) (y : validation B) : validation (A * B) :=
  match x, y with
  | Valid a, Valid b => Valid (a, b)
  | Valid _, Invalid e => Invalid e
  | Invalid e, Valid _ => Invalid e
  | Invalid e1, Invalid e2 => Invalid (e1 ++ e2)
  end.

(** ** Field declarations *)

(** The annotations and [Field(...)] constraints that occur in
    [brd_models.py]: [str] with [min_length]/[max_length], [Optional[str]],
    [float] with [ge]/[le], [bool]. *)
Inductive ftype :=
| Str (min_length : nat) (max_length : option nat)
| OptStr
| Float (ge le : float)
| Bool.

Definition sem (t : ftype) : Type :=
  match t with
  | Str _ _ => string
  | OptStr => option string
  | Float _ _ => float
  | Bool => bool
  end.

(** [default = None] is the required field, [Field(...)]. *)
Record field := Field { name : string; ty : ftype; default : option (sem ty) }.

Definition required_field (n : string) (t : ftype) : field := Field n t None.
Definition default_field (n : string) (t : ftype) (d : sem t) : field := Field n t (Some d).

Definition to_py (t : ftype) : sem t -> pyval :=
  match t with
  | Str _ _ => PStr
  | OptStr => fun o => match o with Some s => PStr s | None => PNone end
  | Float _ _ => PFloat
  | Bool => PBool
  end.

(** The constraint of a field on a value of its type. *)
Definition within (t : ftype) : sem t -> bool :=
  match t with
  | Str lo hi => fun s =>
      Nat.leb lo (String.length s) &&
      match hi with Some h => Nat.leb (String.length s) h | None => true end
  | OptStr => fun _ => true
  | Float lo hi => fun x => PrimFloat.leb x hi && PrimFloat.leb lo x
  | Bool => fun _ => true
  end.

Fixpoint tuple (fs : list field) : Type :=
  match fs with
  | [] => unit
  | f :: fs' => (sem (ty f) * tuple fs')%type
  end.

Fixpoint dump (fs : list field) : tuple fs -> dict :=
  match fs with
  | [] => fun _ => []
  | f :: fs' => fun t => (name f, to_py (ty f) (fst t)) :: dump fs' (snd t)
  end.

Fixpoint all_within (fs : list field) : tuple fs -> bool :=
  match fs with
  | [] => fun _ => true
  | f :: fs' => fun t => within (ty f) (fst t) && all_within fs' (snd t)
  end.

(** A model class: its field declarations and the record they build. *)
Record model := Model {
  record : Type;
  fields : list field;
  make : tuple fields -> record;
  unmake : record -> tuple fields
}.

(** [r.model_dump()] *)
Definition model_dump (m : model) (r : record m) : dict :=
  dump (fields m) (unmake m r).

(** The record satisfies the constraints of its class.  Assignment to a
    field is not validated, so a record in use need not. *)
Definition satisfies (m : model) (r : record m) : bool :=
  all_within (fields m) (unmake m r).


(** ** The record schemas of [models/brd_models.py]

    One module per class, holding the record; the value of the same name
    is the class: its [Field] declarations, in the order written, and the
    passage between the record and the tuple of its fields. *)

Module OverviewModel.
Record t := mk {
  project_name : string;
  project_description : string;
  business_goal : string;
  document_version : string;
  prepared_by : string;
  approved_by : string;
  target_release_date : option string
}.
End OverviewModel.

(** Overview and document control (lines 10-18). *)
Definition OverviewModel_fields : list field :=
  [ required_field "project_name" (Str 1 (Some 255));
    required_field "project_description" (Str 10 (Some 2000));
    required_field "business_goal" (Str 10 (Some 2000));
    default_field "document_version" (Str 0 None) "1.0";
    default_field "prepared_by" (Str 0 (Some 255)) "";
    default_field "approved_by" (Str 0 (Some 255)) "";
    default_field "target_release_date" OptStr None ].

Definition OverviewModel : model :=
  @Model OverviewModel.t OverviewModel_fields
    (fun '(x0, (x1, (x2, (x3, (x4, (x5, (x6, tt))))))) =>
       OverviewModel.mk x0 x1 x2 x3 x4 x5 x6)
    (fun '(OverviewModel.mk x0 x1 x2 x3 x4 x5 x6) =>
       (x0, (x1, (x2, (x3, (x4, (x5, (x6, tt)))))))).

Module UISpecificationModel.
Record t := mk {
  requirement_id : string;
  feature_module : string;
  screen_component : string;
  requirement_description : string;
  validation_rule : string;
  business_rule : string;
  master_detail : string;
  priority : string
}.
End UISpecificationModel.

(** UI specification requirement (lines 34-43). *)
Definition UISpecificationModel_fields : list field :=
  [ default_field "requirement_id" (Str 0 (Some 50)) "";
    default_field "feature_module" (Str 0 (Some 255)) "";
    required_field "screen_component" (Str 1 (Some 255));
    required_field "requirement_description" (Str 10 (Some 2000));
    default_field "validation_rule" (Str 0 (Some 1000)) "";
    default_field "business_rule" (Str 0 (Some 1000)) "";
    default_field "master_detail" (Str 0 None) "N/A";
    default_field "priority" (Str 0 None) "Should" ].

Definition UISpecificationModel : model :=
  @Model UISpecificationModel.t UISpecificationModel_fields
    (fun '(x0, (x1, (x2, (x3, (x4, (x5, (x6, (x7, tt)))))))) =>
       UISpecificationModel.mk x0 x1 x2 x3 x4 x5 x6 x7)
    (fun '(UISpecificationModel.mk x0 x1 x2 x3 x4 x5 x6 x7) =>
       (x0, (x1, (x2, (x3, (x4, (x5, (x6, (x7, tt))))))))).

Module APISpecificationModel.
Record t := mk {
  api_id : string;
  api_name : string;
  method : string;
  endpoint : string;
  request_payload : string;
  response_payload : string;
  business_rule : string;
  api_type : string
}.
End APISpecificationModel.

(** API specification (lines 60-69). *)
Definition APISpecificationModel_fields : list field :=
  [ required_field "api_id" (Str 1 (Some 50));
    required_field "api_name" (Str 1 (Some 255));
    required_field "method" (Str 0 None);
    required_field "endpoint" (Str 1 (Some 255));
    default_field "request_payload" (Str 0 (Some 2000)) "";
    default_field "response_payload" (Str 0 (Some 2000)) "";
    default_field "business_rule" (Str 0 (Some 1000)) "";
    default_field "api_type" (Str 0 None) "Internal" ].

Definition APISpecificationModel : model :=
  @Model APISpecificationModel.t APISpecificationModel_fields
    (fun '(x0, (x1, (x2, (x3, (x4, (x5, (x6, (x7, tt)))))))) =>
       APISpecificationModel.mk x0 x1 x2 x3 x4 x5 x6 x7)
    (fun '(APISpecificationModel.mk x0 x1 x2 x3 x4 x5 x6 x7) =>
       (x0, (x1, (x2, (x3, (x4, (x5, (x6, (x7, tt))))))))).

Module LLMPromptModel.
Record t := mk {
  prompt_id : string;
  use_case : string;
  prompt_template : string;
  input_variables : string;
  expected_output : string;
  model_name : string;
  temperature : float
}.
End LLMPromptModel.

(** LLM prompt configuration (lines 86-94). *)
Definition LLMPromptModel_fields : list field :=
  [ required_field "prompt_id" (Str 1 (Some 50));
    required_field "use_case" (Str 1 (Some 255));
    required_field "prompt_template" (Str 10 (Some 5000));
    default_field "input_variables" (Str 0 (Some 1000)) "";
    default_field "expected_output" (Str 0 (Some 1000)) "";
    default_field "model_name" (Str 0 None) "llama3.2";
    default_field "temperature" (Float 0 2) 0.7%float ].

Definition LLMPromptModel : model :=
  @Model LLMPromptModel.t LLMPromptModel_fields
    (fun '(x0, (x1, (x2, (x3, (x4, (x5, (x6, tt))))))) =>
       LLMPromptModel.mk x0 x1 x2 x3 x4 x5 x6)
    (fun '(LLMPromptModel.mk x0 x1 x2 x3 x4 x5 x6) =>
       (x0, (x1, (x2, (x3, (x4, (x5, (x6, tt)))))))).

Module DatabaseSchemaModel.
Record t := mk {
  table_name : string;
  field_name : string;
  data_type : string;
  constraints : string;
  relationship : string;
  description : string
}.
End DatabaseSchemaModel.

(** Database schema definition (lines 110-117). *)
Definition DatabaseSchemaModel_fields : list field :=
  [ required_field "table_name" (Str 1 (Some 255));
    required_field "field_name" (Str 1 (Some 255));
    required_field "data_type" (Str 1 (Some 100));
    default_field "constraints" (Str 0 (Some 500)) "";
    default_field "relationship" (Str 0 None) "N/A";
    default_field "description" (Str 0 (Some 1000)) "" ].

Definition DatabaseSchemaModel : model :=
  @Model DatabaseSchemaModel.t DatabaseSchemaModel_fields
    (fun '(x0, (x1, (x2, (x3, (x4, (x5, tt)))))) =>
       DatabaseSchemaModel.mk x0 x1 x2 x3 x4 x5)
    (fun '(DatabaseSchemaModel.mk x0 x1 x2 x3 x4 x5) =>
       (x0, (x1, (x2, (x3, (x4, (x5, tt))))))).

Module TechStackModel.
Record t := mk {
  category : string;
  technology_tool : string;
  version : string;
  rationale : string;
  repository_url : string
}.
End TechStackModel.

(** Technology stack and version control (lines 132-138). *)
Definition TechStackModel_fields : list field :=
  [ required_field "category" (Str 1 (Some 255));
    required_field "technology_tool" (Str 1 (Some 255));
    default_field "version" (Str 0 (Some 100)) "";
    default_field "rationale" (Str 0 (Some 1000)) "";
    default_field "repository_url" (Str 0 (Some 500)) "" ].

Definition TechStackModel : model :=
  @Model TechStackModel.t TechStackModel_fields
    (fun '(x0, (x1, (x2, (x3, (x4, tt))))) =>
       TechStackModel.mk x0 x1 x2 x3 x4)
    (fun '(TechStackModel.mk x0 x1 x2 x3 x4) =>
       (x0, (x1, (x2, (x3, (x4, tt)))))).

Module TraceabilityModel.
Record t := mk {
  business_requirement_id : string;
  business_requirement : string;
  linked_ui_id : string;
  linked_api_id : string;
  linked_llm_id : string;
  status : string
}.
End TraceabilityModel.

(** Traceability matrix link (lines 152-159). *)
Definition TraceabilityModel_fields : list field :=
  [ required_field "business_requirement_id" (Str 1 (Some 50));
    required_field "business_requirement" (Str 10 (Some 2000));
    default_field "linked_ui_id" (Str 0 (Some 500)) "";
    default_field "linked_api_id" (Str 0 (Some 500)) "";
    default_field "linked_llm_id" (Str 0 (Some 500)) "";
    default_field "status" (Str 0 None) "Proposed" ].

Definition TraceabilityModel : model :=
  @Model TraceabilityModel.t TraceabilityModel_fields
    (fun '(x0, (x1, (x2, (x3, (x4, (x5, tt)))))) =>
       TraceabilityModel.mk x0 x1 x2 x3 x4 x5)
    (fun '(TraceabilityModel.mk x0 x1 x2 x3 x4 x5) =>
       (x0, (x1, (x2, (x3, (x4, (x5, tt))))))).

Module AgentArchitectureModel.
Record t := mk {
  agent_id : string;
  agent_name : string;
  agent_type : string;
  primary_role : string;
  capabilities : string;
  dependencies : string;
  communication_protocol : string;
  description : string
}.
End AgentArchitectureModel.

(** Agent architecture (lines 162-171). *)
Definition AgentArchitectureModel_fields : list field :=
  [ required_field "agent_id" (Str 1 (Some 50));
    required_field "agent_name" (Str 1 (Some 255));
    required_field "agent_type" (Str 0 None);
    required_field "primary_role" (Str 1 (Some 255));
    default_field "capabilities" (Str 0 (Some 2000)) "";
    default_field "dependencies" (Str 0 (Some 500)) "";
    default_field "communication_protocol" (Str 0 None) "REST";
    default_field "description" (Str 0 (Some 1000)) "" ].

Definition AgentArchitectureModel : model :=
  @Model AgentArchitectureModel.t AgentArchitectureModel_fields
    (fun '(x0, (x1, (x2, (x3, (x4, (x5, (x6, (x7, tt)))))))) =>
       AgentArchitectureModel.mk x0 x1 x2 x3 x4 x5 x6 x7)
    (fun '(AgentArchitectureModel.mk x0 x1 x2 x3 x4 x5 x6 x7) =>
       (x0, (x1, (x2, (x3, (x4, (x5, (x6, (x7, tt))))))))).

Module AgentConfigurationModel.
Record t := mk {
  config_id : string;
  agent_id : string;
  parameter_name : string;
  parameter_value : string;
  parameter_type : string;
  description : string;
  required : bool
}.
End AgentConfigurationModel.

(** Agent configuration and parameters (lines 188-196). *)
Definition AgentConfigurationModel_fields : list field :=
  [ required_field "config_id" (Str 1 (Some 50));
    required_field "agent_id" (Str 1 (Some 50));
    required_field "parameter_name" (Str 1 (Some 255));
    required_field "parameter_value" (Str 1 (Some 1000));
    default_field "parameter_type" (Str 0 None) "string";
    default_field "description" (Str 0 (Some 500)) "";
    default_field "required" Bool true ].

Definition AgentConfigurationModel : model :=
  @Model AgentConfigurationModel.t AgentConfigurationModel_fields
    (fun '(x0, (x1, (x2, (x3, (x4, (x5, (x6, tt))))))) =>
       AgentConfigurationModel.mk x0 x1 x2 x3 x4 x5 x6)
    (fun '(AgentConfigurationModel.mk x0 x1 x2 x3 x4 x5 x6) =>
       (x0, (x1, (x2, (x3, (x4, (x5, (x6, tt)))))))).

Module AgentTaskModel.
Record t := mk {
  task_id : string;
  agent_id : string;
  task_name : string;
  task_type : string;
  input_data : string;
  output_data : string;
  success_criteria : string;
  error_handling : string;
  description : string
}.
End AgentTaskModel.

(** Agent task and workflow definition (lines 212-222). *)
Definition AgentTaskModel_fields : list field :=
  [ required_field "task_id" (Str 1 (Some 50));
    required_field "agent_id" (Str 1 (Some 50));
    required_field "task_name" (Str 1 (Some 255));
    required_field "task_type" (Str 0 None);
    default_field "input_data" (Str 0 (Some 1000)) "";
    default_field "output_data" (Str 0 (Some 1000)) "";
    default_field "success_criteria" (Str 0 (Some 1000)) "";
    default_field "error_handling" (Str 0 (Some 500)) "";
    default_field "description" (Str 0 (Some 1000)) "" ].

Definition AgentTaskModel : model :=
  @Model AgentTaskModel.t AgentTaskModel_fields
    (fun '(x0, (x1, (x2, (x3, (x4, (x5, (x6, (x7, (x8, tt))))))))) =>
       AgentTaskModel.mk x0 x1 x2 x3 x4 x5 x6 x7 x8)
    (fun '(AgentTaskModel.mk x0 x1 x2 x3 x4 x5 x6 x7 x8) =>
       (x0, (x1, (x2, (x3, (x4, (x5, (x6, (x7, (x8, tt)))))))))).

(** The aggregate, [BRDProjectModel] (lines 240-255).  [created_at] and
    [updated_at] are filled by [datetime.now] when the object is built;
    nothing below reads them (the store keeps timestamps of its own), so
    they are left out. *)
Module BRDProjectModel.
Record t := mk {
  project_id : option string;
  template_type : string;
  overview : OverviewModel.t;
  ui_specifications : list UISpecificationModel.t;
  api_specifications : list APISpecificationModel.t;
  llm_prompts : list LLMPromptModel.t;
  database_schema : list DatabaseSchemaModel.t;
  tech_stack : list TechStackModel.t;
  traceability_matrix : list TraceabilityModel.t;
  agent_architectures : list AgentArchitectureModel.t;
  agent_configurations : list AgentConfigurationModel.t;
  agent_tasks : list AgentTaskModel.t
}.
End BRDProjectModel.

(** The nine record collections of the aggregate. *)
Inductive kind :=
| ui_specs | api_specs | llm_prompts | db_schema | tech_stack | traceability
| agent_architectures | agent_configurations | agent_tasks.

Definition kinds : list kind :=
  [ui_specs; api_specs; llm_prompts; db_schema; tech_stack; traceability;
   agent_architectures; agent_configurations; agent_tasks].

Definition model_of (k : kind) : model :=
  match k with
  | ui_specs => UISpecificationModel
  | api_specs => APISpecificationModel
  | llm_prompts => LLMPromptModel
  | db_schema => DatabaseSchemaModel
  | tech_stack => TechStackModel
  | traceability => TraceabilityModel
  | agent_architectures => AgentArchitectureModel
  | agent_configurations => AgentConfigurationModel
  | agent_tasks => AgentTaskModel
  end.

(** The column of the [projects] table that holds the collection. *)
Definition column_of (k : kind) : string :=
  match k with
  | ui_specs => "ui_specs_json"
  | api_specs => "api_specs_json"
  | llm_prompts => "llm_prompts_json"
  | db_schema => "db_schema_json"
  | tech_stack => "tech_stack_json"
  | traceability => "traceability_json"
  | agent_architectures => "agent_architectures_json"
  | agent_configurations => "agent_configurations_json"
  | agent_tasks => "agent_tasks_json"
  end.

Definition collection (k : kind) (p : BRDProjectModel.t) : list (record (model_of k)) :=
  match k return list (record (model_of k)) with
  | ui_specs => BRDProjectModel.ui_specifications p
  | api_specs => BRDProjectModel.api_specifications p
  | llm_prompts => BRDProjectModel.llm_prompts p
  | db_schema => BRDProjectModel.database_schema p
  | tech_stack => BRDProjectModel.tech_stack p
  | traceability => BRDProjectModel.traceability_matrix p
  | agent_architectures => BRDProjectModel.agent_architectures p
  | agent_configurations => BRDProjectModel.agent_configurations p
  | agent_tasks => BRDProjectModel.agent_tasks p
  end.

(** ** Exceptions *)

Inductive exn :=
| ValidationError (errs : list error)
| TypeError
| JSONDecodeError
| IndexError
| OperationalError
| IntegrityError.

Inductive result (A : Type) : Type :=
| Ok (a : A)
| Raise (e : exn).
Arguments Ok {A} a.
Arguments Raise {A} e.

Definition bind {A B} (r : result A) (k : A -> result B) : result B :=
  match r with Ok a => k a | Raise e => Raise e end.

Notation "x <- r ;; k" := (bind r (fun x => k))
  (at level 61, r at next level, right associativity).

(** [[f(x) for x in xs]]: the first exception ends the comprehension. *)
Fixpoint comprehension {A B} (f : A -> result B) (xs : list A) : result (list B) :=
  match xs with
  | [] => Ok []
  | x :: xs' => y <- f x ;; ys <- comprehension f xs' ;; Ok (y :: ys)
  end.

(** ** The SQLite file

    Every column of [projects] is declared [TEXT], and the code binds
    only [str] parameters, so a cell is NULL or a text.  The code reads a
    text in three ways: as a [str], by its truth value, and through
    [json.loads].  A text that [json.dumps] wrote is held as the value
    dumped ([Dumped]), any other by its characters ([Chars]). *)

Inductive text :=
| Chars (s : string)
| Dumped (v : pyval).

Inductive cell :=
| Null
| Text (x : text).

(** The literal ['[]'], which is what [json.dumps([])] writes. *)
Definition empty_array : cell := Text (Dumped (PList [])).

(** A column with its [DEFAULT]. *)
Record column := Column { col_name : string; col_default : cell }.

(** The table [projects]: its columns in [PRAGMA table_info] order and
    its rows, each with one cell per column as [SELECT *] returns them. *)
Record table := Table { columns : list column; rows : list (list cell) }.

(** The file [data/brd_projects.db]; [None] while it has no [projects]
    table. *)
Definition database := option table.

Fixpoint index_of (name : string) (names : list string) : option nat :=
  match names with
  | [] => None
  | n :: names' =>
      if String.eqb n name then Some 0
      else option_map S (index_of name names')
  end.

Fixpoint assoc {A} (name : string) (l : list (string * A)) : option A :=
  match l with
  | [] => None
  | (n, a) :: l' => if String.eqb n name then Some a else assoc name l'
  end.

(** [bool(row[i])] *)
Definition truthy (c : cell) : bool :=
  match c with
  | Null => false
  | Text (Chars "") => false
  | Text _ => true
  end.

Section Store.

Set Default Proof Using "Type".

(** pydantic's lax mode converts some inputs that are not of the field's
    type ([1] or ["0.5"] for a [float], ["yes"] or [1] for a [bool]); the
    conversions are parameters here. *)
Variable lax_float : pyval -> option float.
Variable lax_bool : pyval -> option bool.

Definition validate_str (lo : nat) (hi : option nat) (v : pyval) : string + error_type :=
  match v with
  | PStr s =>
      if Nat.ltb (String.length s) lo then inr string_too_short
      else match hi with
           | Some h => if Nat.ltb h (String.length s) then inr string_too_long else inl s
           | None => inl s
           end
  | _ => inr string_type
  end.

(** [ge] and [le] compare as IEEE 754 does, so a NaN is within no bound. *)
Definition validate_float (lo hi : float) (v : pyval) : float + error_type :=
  let checked (x : float) :=
    if negb (PrimFloat.leb x hi) then inr less_than_equal
    else if negb (PrimFloat.leb lo x) then inr greater_than_equal
    else inl x in
  match v with
  | PFloat x => checked x
  | _ => match lax_float v with
         | Some x => checked x
         | None => inr (match v with PStr _ => float_parsing | _ => float_type end)
         end
  end.

Definition validate_bool (v : pyval) : bool + error_type :=
  match v with
  | PBool b => inl b
  | _ => match lax_bool v with
         | Some b => inl b
         | None => inr (match v with
                        | PStr _ | PInt _ | PFloat _ => bool_parsing
                        | _ => bool_type
                        end)
         end
  end.

Definition validate_value (t : ftype) : pyval -> sem t + error_type :=
  match t with
  | Str lo hi => validate_str lo hi
  | OptStr => fun v =>
      match v with
      | PNone => inl None
      | PStr s => inl (Some s)
      | _ => inr string_type
      end
  | Float lo hi => validate_float lo hi
  | Bool => validate_bool
  end.

(** One field of a constructor call: an absent key takes the default,
    which is not validated, or is reported [missing]. *)
Definition validate_field (kw : dict) (f : field) : validation (sem (ty f)) :=
  match get kw (name f) with
  | None =>
      match default f with
      | Some d => Valid d
      | None => Invalid [Error (name f) missing]
      end
  | Some v =>
      match validate_value (ty f) v with
      | inl a => Valid a
      | inr e => Invalid [Error (name f) e]
      end
  end.

Fixpoint validate (fs : list field) (kw : dict) : validation (tuple fs) :=
  match fs with
  | [] => Valid tt
  | f :: fs' => both (validate_field kw f) (validate fs' kw)
  end.

(** The constructor call of a model on the keyword arguments [kw]. *)
Definition construct (m : model) (kw : dict) : validation (record m) :=
  fmap (make m) (validate (fields m) kw).


(** ** [json] *)

(** [json.loads] on characters that [json.dumps] did not write (the
    decoder proper), and the characters [json.dumps] writes, are
    parameters as well. *)
Variable json_parse : string -> option pyval.
Variable json_print : pyval -> string.

(** The [str] a text cell is read as. *)
Definition str (x : text) : string :=
  match x with
  | Chars s => s
  | Dumped v => json_print v
  end.

(** [json.loads(c)] *)
Definition json_loads (c : cell) : result pyval :=
  match c with
  | Null => Raise TypeError
  | Text (Dumped v) => Ok v
  | Text (Chars s) =>
      match json_parse s with
      | Some v => Ok v
      | None => Raise JSONDecodeError
      end
  end.

(** [json.dumps([r.model_dump() for r in rs])] *)
Definition json_dumps_all (m : model) (rs : list (record m)) : cell :=
  Text (Dumped (PList (map (fun r => PDict (model_dump m r)) rs))).

(** [r.model_dump_json()] *)
Definition model_dump_json (m : model) (r : record m) : cell :=
  Text (Dumped (PDict (model_dump m r))).

(** [for x in v]: a list gives its items, a dict its keys, a str its
    characters; the rest is not iterable. *)
Definition iterate (v : pyval) : result (list pyval) :=
  match v with
  | PList l => Ok l
  | PDict d => Ok (map (fun kv => PStr (fst kv)) d)
  | PStr s => Ok (map (fun a => PStr (String a "")) (list_ascii_of_string s))
  | _ => Raise TypeError
  end.

(** The call of a model on an unpacked dict; what follows the two stars
    must be a mapping. *)
Definition call (m : model) (v : pyval) : result (record m) :=
  match v with
  | PDict d =>
      match construct m d with
      | Valid r => Ok r
      | Invalid errs => Raise (ValidationError errs)
      end
  | _ => Raise TypeError
  end.

(** ** SQL statements on [projects] *)

Definition names (t : table) : list string := map col_name (columns t).

Definition has_column (t : table) (name : string) : bool :=
  existsb (String.eqb name) (names t).

(** [ALTER TABLE projects ADD COLUMN ...]: the rows already there read
    the default in the new column. *)
Definition add_column (t : table) (c : column) : result table :=
  if has_column t (col_name c) then Raise OperationalError
  else Ok (Table (columns t ++ [c]) (map (fun r => r ++ [col_default c]) (rows t))).

(** [WHERE project_id = ?] on a row, [pid] being the position of the
    column. *)
Definition matches (pid : nat) (project_id : string) (row : list cell) : bool :=
  match nth_error row pid with
  | Some (Text x) => String.eqb (str x) project_id
  | _ => false
  end.

(** [SELECT * FROM projects WHERE project_id = ?] and [fetchone()] *)
Definition select_by_id (t : table) (project_id : string) : result (option (list cell)) :=
  match index_of "project_id" (names t) with
  | None => Raise OperationalError
  | Some pid => Ok (find (matches pid project_id) (rows t))
  end.

Definition new_row (cols : list column) (values : list (string * cell)) : list cell :=
  map (fun c => match assoc (col_name c) values with
                | Some v => v
                | None => col_default c
                end) cols.

Definition primary_key_taken (t : table) (values : list (string * cell)) : bool :=
  match index_of "project_id" (names t), assoc "project_id" values with
  | Some pid, Some (Text x) => existsb (matches pid (str x)) (rows t)
  | _, _ => false
  end.

(** [INSERT INTO projects (...) VALUES (...)]: a column the table lacks
    is an [OperationalError], a [project_id] already there an
    [IntegrityError]. *)
Definition insert (t : table) (values : list (string * cell)) : result table :=
  if negb (forallb (fun nv => has_column t (fst nv)) values) then Raise OperationalError
  else if primary_key_taken t values then Raise IntegrityError
  else Ok (Table (columns t) (rows t ++ [new_row (columns t) values])).

Fixpoint assign (cols : list column) (row : list cell) (values : list (string * cell)) : list cell :=
  match cols, row with
  | c :: cols', x :: row' =>
      match assoc (col_name c) values with
      | Some v => v
      | None => x
      end :: assign cols' row' values
  | _, _ => row
  end.

(** [UPDATE projects SET ... WHERE project_id = ?]; an id that is [None]
    is bound as NULL and equals no row's. *)
Definition update (t : table) (values : list (string * cell)) (project_id : option string) : result table :=
  if negb (forallb (fun nv => has_column t (fst nv)) values) then Raise OperationalError
  else
    match index_of "project_id" (names t), project_id with
    | None, _ => Raise OperationalError
    | Some _, None => Ok t
    | Some pid, Some id =>
        Ok (Table (columns t)
              (map (fun r => if matches pid id r then assign (columns t) r values else r)
                   (rows t)))
    end.

(** ** [utils/database.py] *)

(** The [CREATE TABLE projects] of [init_database]. *)
Definition projects_columns : list column :=
  [ Column "project_id" Null;
    Column "project_name" Null;
    Column "template_type" (Text (Chars "Normal"));
    Column "overview_json" Null;
    Column "ui_specs_json" empty_array;
    Column "api_specs_json" empty_array;
    Column "llm_prompts_json" empty_array;
    Column "db_schema_json" empty_array;
    Column "tech_stack_json" empty_array;
    Column "traceability_json" empty_array;
    Column "agent_architectures_json" empty_array;
    Column "agent_configurations_json" empty_array;
    Column "agent_tasks_json" empty_array;
    Column "created_at" Null;
    Column "updated_at" Null ].

(** The columns the migration adds, in the order of the dict. *)
Definition required_columns : list column :=
  [ Column "template_type" (Text (Chars "Normal"));
    Column "agent_architectures_json" empty_array;
    Column "agent_configurations_json" empty_array;
    Column "agent_tasks_json" empty_array ].

(** One turn of the migration loop: a column that is not among the
    existing ones is added, and an [OperationalError] of the [ALTER TABLE]
    is swallowed. *)
Definition migrate_step (existing_columns : list string) (t : table) (c : column) : table :=
  if negb (existsb (String.eqb (col_name c)) existing_columns) then
    match add_column t c with
    | Ok t' => t'
    | Raise _ => t
    end
  else t.

(** [init_database()]: returns the table as committed. *)
Definition init_database (db : database) : table :=
  match db with
  | None => Table projects_columns []
  | Some t =>
      let existing_columns := names t in
      fold_left (migrate_step existing_columns) required_columns t
  end.

(** The thirteen values both [INSERT] and [UPDATE] write. *)
Definition content_values (brd_project : BRDProjectModel.t) (now : string)
    : list (string * cell) :=
  [ ("project_name", Text (Chars (OverviewModel.project_name (BRDProjectModel.overview brd_project))));
    ("template_type", Text (Chars (BRDProjectModel.template_type brd_project)));
    ("overview_json",
     model_dump_json OverviewModel (BRDProjectModel.overview brd_project));
    ("ui_specs_json",
     json_dumps_all UISpecificationModel (BRDProjectModel.ui_specifications brd_project));
    ("api_specs_json",
     json_dumps_all APISpecificationModel (BRDProjectModel.api_specifications brd_project));
    ("llm_prompts_json",
     json_dumps_all LLMPromptModel (BRDProjectModel.llm_prompts brd_project));
    ("db_schema_json",
     json_dumps_all DatabaseSchemaModel (BRDProjectModel.database_schema brd_project));
    ("tech_stack_json",
     json_dumps_all TechStackModel (BRDProjectModel.tech_stack brd_project));
    ("traceability_json",
     json_dumps_all TraceabilityModel (BRDProjectModel.traceability_matrix brd_project));
    ("agent_architectures_json",
     json_dumps_all AgentArchitectureModel (BRDProjectModel.agent_architectures brd_project));
    ("agent_configurations_json",
     json_dumps_all AgentConfigurationModel (BRDProjectModel.agent_configurations brd_project));
    ("agent_tasks_json",
     json_dumps_all AgentTaskModel (BRDProjectModel.agent_tasks brd_project));
    ("updated_at", Text (Chars now)) ].

(** [create_project(brd_project)]: [stamp] is
    [datetime.now().strftime('%Y%m%d%H%M%S')] and [now] is
    [datetime.now().isoformat()].  The id the aggregate carries is not
    used. *)
Definition create_project (brd_project : BRDProjectModel.t) (stamp now : string)
    (db : database) : result string * database :=
  let t := init_database db in
  let project_id := ("proj-" ++ stamp)%string in
  match insert t (("project_id", Text (Chars project_id))
                  :: content_values brd_project now
                  ++ [("created_at", Text (Chars now))]) with
  | Ok t' => (Ok project_id, Some t')
  | Raise e => (Raise e, Some t)
  end.

(** The body of the [try] of a block: [json.loads] of the cell, then the
    comprehension that calls the class on every item. *)
Definition decode_records (m : model) (c : cell) : result (list (record m)) :=
  specs <- json_loads c ;;
  items <- iterate specs ;;
  comprehension (call m) items.

(** One of the nine blocks of [get_project]: the column is looked up by
    name, an absent, NULL or empty cell is skipped, and any exception of
    the decoding is logged and leaves the collection empty. *)
Definition load_collection (m : model) (cols : list string) (row : list cell)
    (name : string) : list (record m) :=
  match index_of name cols with
  | Some idx =>
      match nth_error row idx with
      | Some c =>
          if truthy c then
            match decode_records m c with
            | Ok rs => rs
            | Raise _ => []
            end
          else []
      | None => []
      end
  | None => []
  end.

(** [row[i]] *)
Definition item (row : list cell) (i : nat) : result cell :=
  match nth_error row i with
  | Some c => Ok c
  | None => Raise IndexError
  end.

Definition or_default (o : option nat) (d : nat) : nat :=
  match o with Some i => i | None => d end.

(** The part of [get_project] that rebuilds the aggregate from the row
    fetched; [cols] is the name-to-position dict made from
    [PRAGMA table_info]. *)
Definition rebuild (cols : list string) (row : list cell) : result BRDProjectModel.t :=
  overview_cell <- item row (or_default (index_of "overview_json" cols) 3) ;;
  overview_dict <- json_loads overview_cell ;;
  overview <- call OverviewModel overview_dict ;;
  let template_type_idx := or_default (index_of "template_type" cols) 2 in
  let template_type :=
    match nth_error row template_type_idx with
    | Some (Text x) => if truthy (Text x) then str x else "Normal"
    | _ => "Normal"
    end in
  row0 <- item row 0 ;;
  Ok (BRDProjectModel.mk
        (match row0 with Null => None | Text x => Some (str x) end)
        template_type
        overview
        (load_collection UISpecificationModel cols row "ui_specs_json")
        (load_collection APISpecificationModel cols row "api_specs_json")
        (load_collection LLMPromptModel cols row "llm_prompts_json")
        (load_collection DatabaseSchemaModel cols row "db_schema_json")
        (load_collection TechStackModel cols row "tech_stack_json")
        (load_collection TraceabilityModel cols row "traceability_json")
        (load_collection AgentArchitectureModel cols row "agent_architectures_json")
        (load_collection AgentConfigurationModel cols row "agent_configurations_json")
        (load_collection AgentTaskModel cols row "agent_tasks_json")).

(** [get_project(project_id)]: [Ok None] is the [return None] of a
    project that is not found. *)
Definition get_project (project_id : string) (db : database)
    : result (option BRDProjectModel.t) * database :=
  let t := init_database db in
  (found <- select_by_id t project_id ;;
   match found with
   | None | Some [] => Ok None
   | Some row => brd_project <- rebuild (names t) row ;; Ok (Some brd_project)
   end,
   Some t).

(** [update_project(brd_project)] *)
Definition update_project (brd_project : BRDProjectModel.t) (now : string)
    (db : database) : result bool * database :=
  let t := init_database db in
  match update t (content_values brd_project now) (BRDProjectModel.project_id brd_project) with
  | Ok t' => (Ok true, Some t')
  | Raise e => (Raise e, Some t)
  end.

(** The field fails for the keyword arguments [kw] when looked at alone. *)
Definition violated (kw : dict) (f : field) : bool :=
  negb (is_valid (validate_field kw f)).

(** A class is well formed when its field names are distinct and its
    record is the tuple of its fields. *)
Record model_ok (m : model) : Prop := {
  names_distinct : NoDup (map name (fields m));
  make_unmake : forall r, make m (unmake m r) = r;
  unmake_make : forall t, unmake m (make m t) = t
}.

Fixpoint distinct (l : list string) : bool :=
  match l with
  | [] => true
  | x :: l' => negb (existsb (String.eqb x) l') && distinct l'
  end.

(** The cell of a row under a column name. *)
Definition cell_at (cols : list string) (row : list cell) (name : string) : option cell :=
  match index_of name cols with
  | Some i => nth_error row i
  | None => None
  end.

(** What [get_project] makes of the overview cell. *)
Definition decode_overview (c : cell) : result OverviewModel.t :=
  overview_dict <- json_loads c ;;
  call OverviewModel overview_dict.

(** Every row has one cell per column. *)
Definition rows_aligned (t : table) : Prop :=
  Forall (fun r => length r = length (columns t)) (rows t).

(** The aggregate holds only content that satisfies its constraints. *)
Definition content_ok (p : BRDProjectModel.t) : Prop :=
  satisfies OverviewModel (BRDProjectModel.overview p) = true
  /\ forall k, forallb (satisfies (model_of k)) (collection k p) = true.

(** What [get_project] reads back for a template type that was stored. *)
Definition template_type_read (s : string) : string :=
  if String.eqb s "" then "Normal" else s.

(** ** [utils/excel_export.py]

    A workbook is the list of its sheets; a sheet has a title and its
    rows of cell values, the header being row 1.  Fills, fonts, borders
    and column widths are left out. *)

Inductive value :=
| VStr (s : string)
| VNum (x : float).

Record sheet := Sheet { title : string; cells : list (list value) }.

Definition workbook := list sheet.

(** [list.insert(index, x)]: an index past the end appends. *)
Fixpoint list_insert {A} (index : nat) (x : A) (l : list A) : list A :=
  match index, l with
  | 0, _ => x :: l
  | S _, [] => [x]
  | S i, y :: l' => y :: list_insert i x l'
  end.

(** [wb.create_sheet(title, index)], the sheet being filled at once. *)
Definition create_sheet (wb : workbook) (title : string) (index : nat)
    (rows : list (list value)) : workbook :=
  list_insert index (Sheet title rows) wb.

(** [s or d] on a [str], an [Optional[str]] and a [float]. *)
Definition str_or (s d : string) : string :=
  if String.eqb s "" then d else s.

Definition opt_or (o : option string) (d : string) : string :=
  match o with
  | Some s => str_or s d
  | None => d
  end.

Definition float_or (x d : float) : float :=
  if PrimFloat.eqb x 0 then d else x.

(** [now] is [str(datetime.now())]. *)
Definition create_overview_sheet (wb : workbook) (brd_project : BRDProjectModel.t)
    (now : string) : workbook :=
  let headers := [VStr "Field"; VStr "Value"] in
  let overview := BRDProjectModel.overview brd_project in
  let data :=
    [ [VStr "Project Name"; VStr (str_or (OverviewModel.project_name overview) "")];
      [VStr "Project Description"; VStr (str_or (OverviewModel.project_description overview) "")];
      [VStr "Business Goal"; VStr (str_or (OverviewModel.business_goal overview) "")];
      [VStr "Document Version"; VStr (str_or (OverviewModel.document_version overview) "")];
      [VStr "Prepared By"; VStr (str_or (OverviewModel.prepared_by overview) "")];
      [VStr "Approved By"; VStr (str_or (OverviewModel.approved_by overview) "")];
      [VStr "Target Release Date"; VStr (opt_or (OverviewModel.target_release_date overview) "")];
      [VStr "Created At"; VStr now] ] in
  create_sheet wb "1. Overview" 0 (headers :: data).

Definition create_ui_spec_sheet (wb : workbook) (brd_project : BRDProjectModel.t) : workbook :=
  let headers :=
    [VStr "Screen/Component"; VStr "Requirement Description"; VStr "Business Rule"; VStr "Requirement ID"; VStr "Feature/Module"] in
  let data :=
    map (fun r =>
             [ VStr (str_or (UISpecificationModel.screen_component r) "");
               VStr (str_or (UISpecificationModel.requirement_description r) "");
               VStr (str_or (UISpecificationModel.business_rule r) "");
               VStr (str_or (UISpecificationModel.requirement_id r) "");
               VStr (str_or (UISpecificationModel.feature_module r) "") ])
        (BRDProjectModel.ui_specifications brd_project) in
  create_sheet wb "2. UI Specification" 1 (headers :: data).

Definition create_api_spec_sheet (wb : workbook) (brd_project : BRDProjectModel.t) : workbook :=
  let headers :=
    [VStr "API ID"; VStr "API Name"; VStr "Method"; VStr "Endpoint"; VStr "Request Payload"; VStr "Response Payload"; VStr "Business Rule"; VStr "API Type"] in
  let data :=
    map (fun r =>
             [ VStr (str_or (APISpecificationModel.api_id r) "");
               VStr (str_or (APISpecificationModel.api_name r) "");
               VStr (str_or (APISpecificationModel.method r) "POST");
               VStr (str_or (APISpecificationModel.endpoint r) "");
               VStr (str_or (APISpecificationModel.request_payload r) "");
               VStr (str_or (APISpecificationModel.response_payload r) "");
               VStr (str_or (APISpecificationModel.business_rule r) "");
               VStr (str_or (APISpecificationModel.api_type r) "") ])
        (BRDProjectModel.api_specifications brd_project) in
  create_sheet wb "3. API Specification" 2 (headers :: data).

Definition create_llm_prompt_sheet (wb : workbook) (brd_project : BRDProjectModel.t) : workbook :=
  let headers :=
    [VStr "Prompt ID"; VStr "Use Case"; VStr "Model"; VStr "Temperature"; VStr "Input Variables"; VStr "Prompt Template"; VStr "Expected Output"] in
  let data :=
    map (fun r =>
             [ VStr (str_or (LLMPromptModel.prompt_id r) "");
               VStr (str_or (LLMPromptModel.use_case r) "");
               VStr (str_or (LLMPromptModel.model_name r) "llama3.2");
               VNum (float_or (LLMPromptModel.temperature r) 0.7);
               VStr (str_or (LLMPromptModel.input_variables r) "");
               VStr (str_or (LLMPromptModel.prompt_template r) "");
               VStr (str_or (LLMPromptModel.expected_output r) "") ])
        (BRDProjectModel.llm_prompts brd_project) in
  create_sheet wb "4. LLM Prompts" 3 (headers :: data).

Definition create_database_schema_sheet (wb : workbook) (brd_project : BRDProjectModel.t) : workbook :=
  let headers :=
    [VStr "Table Name"; VStr "Field Name"; VStr "Data Type"; VStr "Constraints"; VStr "Relationship"; VStr "Description"] in
  let data :=
    map (fun r =>
             [ VStr (str_or (DatabaseSchemaModel.table_name r) "");
               VStr (str_or (DatabaseSchemaModel.field_name r) "");
               VStr (str_or (DatabaseSchemaModel.data_type r) "VARCHAR");
               VStr (str_or (DatabaseSchemaModel.constraints r) "");
               VStr (str_or (DatabaseSchemaModel.relationship r) "N/A");
               VStr (str_or (DatabaseSchemaModel.description r) "") ])
        (BRDProjectModel.database_schema brd_project) in
  create_sheet wb "5. Database Schema" 4 (headers :: data).

Definition create_tech_stack_sheet (wb : workbook) (brd_project : BRDProjectModel.t) : workbook :=
  let headers :=
    [VStr "Category"; VStr "Technology/Tool"; VStr "Version"; VStr "Rationale"; VStr "Repository URL"] in
  let data :=
    map (fun r =>
             [ VStr (str_or (TechStackModel.category r) "");
               VStr (str_or (TechStackModel.technology_tool r) "");
               VStr (str_or (TechStackModel.version r) "");
               VStr (str_or (TechStackModel.rationale r) "");
               VStr (str_or (TechStackModel.repository_url r) "") ])
        (BRDProjectModel.tech_stack brd_project) in
  create_sheet wb "6. Tech Stack & VC" 5 (headers :: data).

Definition create_traceability_sheet (wb : workbook) (brd_project : BRDProjectModel.t) : workbook :=
  let headers :=
    [VStr "Requirement ID"; VStr "Business Requirement"; VStr "Linked UI IDs"; VStr "Linked API IDs"; VStr "Linked LLM IDs"; VStr "Status"] in
  let data :=
    map (fun r =>
             [ VStr (str_or (TraceabilityModel.business_requirement_id r) "");
               VStr (str_or (TraceabilityModel.business_requirement r) "");
               VStr (str_or (TraceabilityModel.linked_ui_id r) "");
               VStr (str_or (TraceabilityModel.linked_api_id r) "");
               VStr (str_or (TraceabilityModel.linked_llm_id r) "");
               VStr (str_or (TraceabilityModel.status r) "Proposed") ])
        (BRDProjectModel.traceability_matrix brd_project) in
  create_sheet wb "7. Traceability Matrix" 6 (headers :: data).

Definition create_agent_architecture_sheet (wb : workbook) (brd_project : BRDProjectModel.t) : workbook :=
  let headers :=
    [VStr "Agent ID"; VStr "Agent Name"; VStr "Agent Type"; VStr "Primary Role"; VStr "Capabilities"; VStr "Dependencies"; VStr "Communication Protocol"; VStr "Description"] in
  let data :=
    map (fun r =>
             [ VStr (str_or (AgentArchitectureModel.agent_id r) "");
               VStr (str_or (AgentArchitectureModel.agent_name r) "");
               VStr (str_or (AgentArchitectureModel.agent_type r) "");
               VStr (str_or (AgentArchitectureModel.primary_role r) "");
               VStr (str_or (AgentArchitectureModel.capabilities r) "");
               VStr (str_or (AgentArchitectureModel.dependencies r) "");
               VStr (str_or (AgentArchitectureModel.communication_protocol r) "REST");
               VStr (str_or (AgentArchitectureModel.description r) "") ])
        (BRDProjectModel.agent_architectures brd_project) in
  create_sheet wb "8. Agent Architecture" 7 (headers :: data).

Definition create_agent_configuration_sheet (wb : workbook) (brd_project : BRDProjectModel.t) : workbook :=
  let headers :=
    [VStr "Config ID"; VStr "Agent ID"; VStr "Parameter Name"; VStr "Parameter Value"; VStr "Parameter Type"; VStr "Description"; VStr "Required"] in
  let data :=
    map (fun r =>
             [ VStr (str_or (AgentConfigurationModel.config_id r) "");
               VStr (str_or (AgentConfigurationModel.agent_id r) "");
               VStr (str_or (AgentConfigurationModel.parameter_name r) "");
               VStr (str_or (AgentConfigurationModel.parameter_value r) "");
               VStr (str_or (AgentConfigurationModel.parameter_type r) "string");
               VStr (str_or (AgentConfigurationModel.description r) "");
               VStr (if AgentConfigurationModel.required r then "Yes" else "No") ])
        (BRDProjectModel.agent_configurations brd_project) in
  create_sheet wb "9. Agent Configuration" 8 (headers :: data).

Definition create_agent_task_sheet (wb : workbook) (brd_project : BRDProjectModel.t) : workbook :=
  let headers :=
    [VStr "Task ID"; VStr "Agent ID"; VStr "Task Name"; VStr "Task Type"; VStr "Input Data"; VStr "Output Data"; VStr "Success Criteria"; VStr "Error Handling"; VStr "Description"] in
  let data :=
    map (fun r =>
             [ VStr (str_or (AgentTaskModel.task_id r) "");
               VStr (str_or (AgentTaskModel.agent_id r) "");
               VStr (str_or (AgentTaskModel.task_name r) "");
               VStr (str_or (AgentTaskModel.task_type r) "");
               VStr (str_or (AgentTaskModel.input_data r) "");
               VStr (str_or (AgentTaskModel.output_data r) "");
               VStr (str_or (AgentTaskModel.success_criteria r) "");
               VStr (str_or (AgentTaskModel.error_handling r) "");
               VStr (str_or (AgentTaskModel.description r) "") ])
        (BRDProjectModel.agent_tasks brd_project) in
  create_sheet wb "10. Agent Tasks" 9 (headers :: data).

(** [s.replace(' ', '_')] *)
Fixpoint replace_spaces (s : string) : string :=
  match s with
  | EmptyString => EmptyString
  | String a s' =>
      String (if Ascii.eqb a " "%char then "_"%char else a) (replace_spaces s')
  end.

(** [export_to_excel(brd_project)]: the file name returned and the
    workbook saved under it.  [now] is [str(datetime.now())] and [stamp]
    is [datetime.now().strftime('%Y%m%d_%H%M%S')]. *)
Definition export_to_excel (brd_project : BRDProjectModel.t) (now stamp : string)
    : string * workbook :=
  let wb : workbook := [] in
  let wb := create_overview_sheet wb brd_project now in
  let wb := create_ui_spec_sheet wb brd_project in
  let wb := create_api_spec_sheet wb brd_project in
  let wb := create_llm_prompt_sheet wb brd_project in
  let wb := create_database_schema_sheet wb brd_project in
  let wb := create_tech_stack_sheet wb brd_project in
  let wb := create_traceability_sheet wb brd_project in
  let wb :=
    match BRDProjectModel.agent_architectures brd_project with
    | [] => wb
    | _ :: _ => create_agent_architecture_sheet wb brd_project
    end in
  let wb :=
    match BRDProjectModel.agent_configurations brd_project with
    | [] => wb
    | _ :: _ => create_agent_configuration_sheet wb brd_project
    end in
  let wb :=
    match BRDProjectModel.agent_tasks brd_project with
    | [] => wb
    | _ :: _ => create_agent_task_sheet wb brd_project
    end in
  let filename :=
    ("exports/BRD_"
     ++ replace_spaces (OverviewModel.project_name (BRDProjectModel.overview brd_project))
     ++ "_" ++ stamp ++ ".xlsx")%string in
  (filename, wb).

(** ** [utils/llm_integration.py] *)


Definition AVAILABLE_MODELS : list string :=
  ["llama3.2"; "mistral"; "deepseek-r1"; "phi4-mini"].

(** An exception inside [_stream_ollama_response], by the [except]
    clause that takes it: [requests.exceptions.ConnectionError] with its
    subclasses ([ConnectTimeout] is one), a [Timeout] that is no
    [ConnectionError], and any other [Exception] with its [str(e)]. *)
Inductive failure :=
| ConnectionError
| Timeout
| OtherException (message : string).

(** What the service does with one POST: [requests.post] raises, or a
    response arrives.  [http_error] is the message of the [HTTPError]
    that [raise_for_status] raises, if the status calls for one; [lines]
    are the lines [iter_lines] delivers and [broken] the exception that
    ends the iteration early, if any. *)
Inductive reply :=
| Failed (e : failure)
| Replied (http_error : option string) (lines : list text) (broken : option failure).



Section Gateway.

(** [str(e)] of the [TypeError] that [["response" in data]] or
    [[data["response"]]] raises on a [data] that is not a dict. *)
Variable type_error_message : pyval -> string.

Inductive line_result :=
| Skip
| Yield (v : pyval)
| Throw (e : failure).

Definition is_response (v : pyval) : bool :=
  match v with
  | PStr s => String.eqb s "response"
  | _ => false
  end.

(** The body of the [for] loop on one line. *)
Definition on_line (line : text) : line_result :=
  if truthy (Text line) then
    match json_loads (Text line) with
    | Raise _ => Skip
    | Ok data =>
        match data with
        | PDict d =>
            match get d "response" with
            | Some v => Yield v
            | None => Skip
            end
        | PList l =>
            if existsb is_response l
            then Throw (OtherException (type_error_message data))
            else Skip
        | PStr s =>
            match String.index 0 "response" s with
            | Some _ => Throw (OtherException (type_error_message data))
            | None => Skip
            end
        | _ => Throw (OtherException (type_error_message data))
        end
    end
  else Skip.

(** The [for] loop: the items yielded and the exception that ended it. *)
Fixpoint iter_lines (lines : list text) (broken : option failure)
    : list pyval * option failure :=
  match lines with
  | [] => ([], broken)
  | line :: rest =>
      match on_line line with
      | Skip => iter_lines rest broken
      | Yield v => let (ys, e) := iter_lines rest broken in (v :: ys, e)
      | Throw e => ([], Some e)
      end
  end.

(** The text the [except] clause yields. *)
Definition error_text (e : failure) : string :=
  match e with
  | ConnectionError =>
      "Error: Could not connect to Ollama. Make sure Ollama is running on http://localhost:11434"
  | Timeout =>
      "Error: Request timed out. Ollama is taking too long to respond."
  | OtherException message => ("Error: " ++ message)%string
  end.

(** The items the generator yields for a reply. *)
Definition respond (r : reply) : list pyval :=
  let (ys, e) :=
    match r with
    | Failed e => ([], Some e)
    | Replied (Some message) _ _ => ([], Some (OtherException message))
    | Replied None lines broken => iter_lines lines broken
    end in
  ys ++ match e with
        | Some e => [PStr (error_text e)]
        | None => []
        end.


End Gateway.


(** The defaults of the class are within its constraints. *)
Definition defaults_within (fs : list field) : bool :=
  forallb (fun f => match default f with
                    | Some d => within (ty f) d
                    | None => true
                    end) fs.

(** ** The rest of [utils/database.py] *)

(** [DELETE FROM projects WHERE project_id = ?] *)
Definition delete (t : table) (project_id : string) : result table :=
  match index_of "project_id" (names t) with
  | None => Raise OperationalError
  | Some pid =>
      Ok (Table (columns t) (filter (fun r => negb (matches pid project_id r)) (rows t)))
  end.

(** [delete_project(project_id)] *)
Definition delete_project (project_id : string) (db : database)
    : result bool * database :=
  let t := init_database db in
  match delete t project_id with
  | Ok t' => (Ok true, Some t')
  | Raise e => (Raise e, Some t)
  end.

(** The Python value sqlite3 hands out for a cell. *)
Definition py_of_cell (c : cell) : pyval :=
  match c with
  | Null => PNone
  | Text x => PStr (str x)
  end.

(** The order of [ORDER BY] on cells: NULL comes before every text, and
    texts compare character by character. *)
Definition sql_le (a b : cell) : bool :=
  match a, b with
  | Null, _ => true
  | Text _, Null => false
  | Text x, Text y => String.leb (str x) (str y)
  end.

(** [ORDER BY key DESC], by insertion.  SQL leaves the order of rows
    with equal keys open; here they keep the order of the table. *)
Fixpoint insert_desc (key : list cell -> cell) (r : list cell) (l : list (list cell))
    : list (list cell) :=
  match l with
  | [] => [r]
  | r' :: l' =>
      if sql_le (key r') (key r) then r :: l
      else r' :: insert_desc key r l'
  end.

Definition order_by_desc (key : list cell -> cell) (rows : list (list cell))
    : list (list cell) :=
  fold_right (insert_desc key) [] rows.

(** [SELECT project_id, project_name, template_type, created_at,
    updated_at FROM projects ORDER BY updated_at DESC]: the rows of five
    cells. *)
Definition select_summaries (t : table) : result (list (list cell)) :=
  let position name := index_of name (names t) in
  match position "project_id", position "project_name", position "template_type",
        position "created_at", position "updated_at" with
  | Some a, Some b, Some c, Some d, Some e =>
      Ok (map (fun r => [nth a r Null; nth b r Null; nth c r Null;
                         nth d r Null; nth e r Null])
              (order_by_desc (fun r => nth e r Null) (rows t)))
  | _, _, _, _, _ => Raise OperationalError
  end.

(** The dict [list_projects] makes of a row of the query. *)
Definition project_summary (row : list cell) : dict :=
  [ ("project_id", py_of_cell (nth 0 row Null));
    ("project_name", py_of_cell (nth 1 row Null));
    ("template_type",
     if Nat.ltb 2 (length row) then py_of_cell (nth 2 row Null) else PStr "Normal");
    ("created_at",
     if Nat.ltb 3 (length row) then py_of_cell (nth 3 row Null) else PStr "");
    ("updated_at",
     if Nat.ltb 4 (length row) then py_of_cell (nth 4 row Null) else PStr "") ].

(** [list_projects()]: any exception is logged and an empty list is
    returned. *)
Definition list_projects (db : database) : list dict * database :=
  let t := init_database db in
  (match select_summaries t with
   | Ok rows => map project_summary rows
   | Raise _ => []
   end,
   Some t).

(** [get_project_count()]: [SELECT COUNT( * )]. *)
Definition get_project_count (db : database) : nat * database :=
  let t := init_database db in
  (length (rows t), Some t).

(** [[r.model_dump() for r in rs]] *)
Definition dump_all (m : model) (rs : list (record m)) : pyval :=
  PList (map (fun r => PDict (model_dump m r)) rs).

(** [export_project_data(project_id)]: [Ok None] when the project is
    not found. *)
Definition export_project_data (project_id : string) (db : database)
    : result (option dict) * database :=
  match get_project project_id db with
  | (Raise e, db') => (Raise e, db')
  | (Ok None, db') => (Ok None, db')
  | (Ok (Some project), db') =>
      (Ok (Some
         [ ("project_id",
            match BRDProjectModel.project_id project with
            | Some id => PStr id
            | None => PNone
            end);
           ("template_type", PStr (BRDProjectModel.template_type project));
           ("overview", PDict (model_dump OverviewModel (BRDProjectModel.overview project)));
           ("ui_specifications",
            dump_all UISpecificationModel (BRDProjectModel.ui_specifications project));
           ("api_specifications",
            dump_all APISpecificationModel (BRDProjectModel.api_specifications project));
           ("llm_prompts", dump_all LLMPromptModel (BRDProjectModel.llm_prompts project));
           ("database_schema",
            dump_all DatabaseSchemaModel (BRDProjectModel.database_schema project));
           ("tech_stack", dump_all TechStackModel (BRDProjectModel.tech_stack project));
           ("traceability_matrix",
            dump_all TraceabilityModel (BRDProjectModel.traceability_matrix project));
           ("agent_architectures",
            dump_all AgentArchitectureModel (BRDProjectModel.agent_architectures project));
           ("agent_configurations",
            dump_all AgentConfigurationModel (BRDProjectModel.agent_configurations project));
           ("agent_tasks", dump_all AgentTaskModel (BRDProjectModel.agent_tasks project)) ]),
       db')
  end.

(** Exceptions of the code below that the store itself does not raise:
    the [KeyError] of a subscript and the [ValueError] of a form. *)
Inductive exception :=
| KeyError (key : string)
| ValueError (message : string)
| Raised (e : exn).

(** [[M( ** x) for x in data.get(key, [])]] *)
Definition records_at (m : model) (data : dict) (key : string) : result (list (record m)) :=
  items <- iterate (match get data key with Some v => v | None => PList [] end) ;;
  comprehension (call m) items.

(** The aggregate [import_project_data] builds from the dict, before it
    is stored.  Nothing is caught: the first exception ends the import. *)
Definition imported (data : dict) : BRDProjectModel.t + exception :=
  match get data "overview" with
  | None => inr (KeyError "overview")
  | Some o =>
      match (overview <- call OverviewModel o ;;
             ui_specifications <- records_at UISpecificationModel data "ui_specifications" ;;
             api_specifications <- records_at APISpecificationModel data "api_specifications" ;;
             llm_prompts <- records_at LLMPromptModel data "llm_prompts" ;;
             database_schema <- records_at DatabaseSchemaModel data "database_schema" ;;
             tech_stack <- records_at TechStackModel data "tech_stack" ;;
             traceability_matrix <- records_at TraceabilityModel data "traceability_matrix" ;;
             agent_architectures <- records_at AgentArchitectureModel data "agent_architectures" ;;
             agent_configurations <- records_at AgentConfigurationModel data "agent_configurations" ;;
             agent_tasks <- records_at AgentTaskModel data "agent_tasks" ;;
             template_type <-
               match get data "template_type" with
               | None => Ok "Normal"
               | Some (PStr s) => Ok s
               | Some _ => Raise (ValidationError [Error "template_type" string_type])
               end ;;
             Ok (BRDProjectModel.mk None template_type overview
                   ui_specifications api_specifications llm_prompts database_schema
                   tech_stack traceability_matrix
                   agent_architectures agent_configurations agent_tasks)) with
      | Ok brd_project => inl brd_project
      | Raise e => inr (Raised e)
      end
  end.

(** [import_project_data(data)] *)
Definition import_project_data (data : dict) (stamp now : string) (db : database)
    : (string + exception) * database :=
  match imported data with
  | inr e => (inr e, db)
  | inl brd_project =>
      match create_project brd_project stamp now db with
      | (Ok project_id, db') => (inl project_id, db')
      | (Raise e, db') => (inr (Raised e), db')
      end
  end.

(** ** [app.py]: the forms that call the store *)

(** The white space of [str.strip] among the characters below 256. *)
Definition isspace (a : ascii) : bool :=
  let n := nat_of_ascii a in
  (Nat.leb 9 n && Nat.leb n 13) || (Nat.leb 28 n && Nat.leb n 32)
  || Nat.eqb n 133 || Nat.eqb n 160.

Fixpoint lstrip (s : string) : string :=
  match s with
  | EmptyString => EmptyString
  | String a s' => if isspace a then lstrip s' else s
  end.

Fixpoint rstrip (s : string) : string :=
  match s with
  | EmptyString => EmptyString
  | String a s' =>
      match rstrip s' with
      | EmptyString => if isspace a then EmptyString else String a EmptyString
      | r => String a r
      end
  end.

(** [s.strip()] *)
Definition strip (s : string) : string := rstrip (lstrip s).

(** [validate_required_field(value, field_name)], on the [str] of a
    text input. *)
Definition validate_required_field (value field_name : string) : string + exception :=
  if (String.eqb value "" || String.eqb (strip value) "")%bool
  then inr (ValueError (field_name ++ " is required")%string)
  else inl (strip value).

(** [x.strip() if x else d] *)
Definition strip_or (x d : string) : string :=
  if String.eqb x "" then d else strip x.

(** The Create Project button of [show_create_project] (lines 322-358),
    on the values of the widgets; [target_release_date] is the
    [isoformat()] of the date chosen.  The result is the id shown, or
    the exception the [except] clauses take. *)
Definition show_create_project
    (template_type project_name project_description business_goal
     document_version prepared_by approved_by : string)
    (target_release_date : option string) (stamp now : string) (db : database)
    : (string + exception) * database :=
  match validate_required_field project_name "Project Name" with
  | inr e => (inr e, db)
  | inl project_name =>
  match validate_required_field project_description "Project Description" with
  | inr e => (inr e, db)
  | inl project_description =>
  match validate_required_field business_goal "Business Goal" with
  | inr e => (inr e, db)
  | inl business_goal =>
      match construct OverviewModel
              [ ("project_name", PStr project_name);
                ("project_description", PStr project_description);
                ("business_goal", PStr business_goal);
                ("document_version", PStr (strip_or document_version "1.0"));
                ("prepared_by", PStr (strip_or prepared_by "Local AI"));
                ("approved_by", PStr (strip_or approved_by ""));
                ("target_release_date",
                 match target_release_date with
                 | Some d => PStr d
                 | None => PNone
                 end) ] with
      | Invalid errs => (inr (Raised (ValidationError errs)), db)
      | Valid overview =>
          let brd_project :=
            BRDProjectModel.mk None template_type overview [] [] [] [] [] [] [] [] [] in
          match create_project brd_project stamp now db with
          | (Ok project_id, db') => (inl project_id, db')
          | (Raise e, db') => (inr (Raised e), db')
          end
      end
  end end end.




(** ** Notions used in the further properties *)

(** The cell of a row under a column name, as the cursor hands it out. *)
Definition cell_or_null (cols : list string) (row : list cell) (name : string) : cell :=
  match cell_at cols row name with
  | Some c => c
  | None => Null
  end.

(** The summary [list_projects] gives of a row of the table. *)
Definition summary_of (cols : list string) (row : list cell) : dict :=
  [ ("project_id", py_of_cell (cell_or_null cols row "project_id"));
    ("project_name", py_of_cell (cell_or_null cols row "project_name"));
    ("template_type", py_of_cell (cell_or_null cols row "template_type"));
    ("created_at", py_of_cell (cell_or_null cols row "created_at"));
    ("updated_at", py_of_cell (cell_or_null cols row "updated_at")) ].

(** Later rows are not newer: the order of [ORDER BY updated_at DESC]. *)
Definition not_newer (cols : list string) (row row' : list cell) : Prop :=
  sql_le (cell_or_null cols row' "updated_at") (cell_or_null cols row "updated_at") = true.

(** The attribute of the aggregate, and the key of the exported dict,
    that holds a collection. *)
Definition attribute_of (k : kind) : string :=
  match k with
  | ui_specs => "ui_specifications"
  | api_specs => "api_specifications"
  | llm_prompts => "llm_prompts"
  | db_schema => "database_schema"
  | tech_stack => "tech_stack"
  | traceability => "traceability_matrix"
  | agent_architectures => "agent_architectures"
  | agent_configurations => "agent_configurations"
  | agent_tasks => "agent_tasks"
  end.

(** The columns of the migration that a table lacks. *)
Definition missing_columns (t : table) : list column :=
  filter (fun c => negb (has_column t (col_name c))) required_columns.


(** ** Concrete projects and tables, for the examples at the end *)

Definition order_tracker_overview : OverviewModel.t :=
  OverviewModel.mk "Order Tracker" "Tracks customer orders end to end"
    "Reduce order-status inquiries by 40%" "1.0" "" "" None.

Definition order_list : UISpecificationModel.t :=
  UISpecificationModel.mk "UI-001" "Orders" "Order List"
    "Paginated list of orders with status filter" "" "" "N/A" "Must".

Definition order_tracker : BRDProjectModel.t :=
  BRDProjectModel.mk None "Normal" order_tracker_overview
    [order_list] [] [] [] [] [] [] [] [].

(** The same project after an edit that added a second screen; it
    carries the id under which it was stored. *)
Definition order_detail : UISpecificationModel.t :=
  UISpecificationModel.mk "UI-002" "Orders" "Order Detail"
    "All fields of one order with its status history" "" "" "Detail" "Should".

Definition order_tracker_edited : BRDProjectModel.t :=
  BRDProjectModel.mk (Some "proj-20250101120000") "Normal" order_tracker_overview
    [order_list; order_detail] [] [] [] [] [] [] [] [].

(** An overview whose project name was cleared after construction, as
    the overview form of the application does by plain assignment. *)
Definition cleared_overview : OverviewModel.t :=
  OverviewModel.mk "" "Tracks customer orders end to end"
    "Reduce order-status inquiries by 40%" "1.0" "" "" None.


(** A UI block holding one record without its description. *)
Definition ui_block_without_description : cell :=
  Text (Dumped (PList [PDict [("screen_component", PStr "Order List")]])).

Definition submit_feedback : APISpecificationModel.t :=
  APISpecificationModel.mk "API-001" "Submit New Feedback" "POST" "/api/v1/feedback"
    "" "" "Validate user_id against User table." "Internal".

(** A row of the current table with one corrupt collection block. *)
Definition row_with_corrupt_ui_block (overview : OverviewModel.t) : list cell :=
  [ Text (Chars "proj-1"); Text (Chars "Order Tracker"); Text (Chars "Normal");
    Text (Dumped (PDict (model_dump OverviewModel overview)));
    ui_block_without_description;
    Text (Dumped (PList [PDict (model_dump APISpecificationModel submit_feedback)]));
    empty_array; empty_array; empty_array; empty_array;
    empty_array; empty_array; empty_array;
    Text (Chars "2025-01-01T12:00:00"); Text (Chars "2025-01-01T12:00:00") ].

Definition table_with_corrupt_ui_block (overview : OverviewModel.t) : table :=
  Table projects_columns [row_with_corrupt_ui_block overview].

(** A table from before [template_type] and the agent columns. *)
Definition legacy_columns : list column :=
  [ Column "project_id" Null;
    Column "project_name" Null;
    Column "overview_json" Null;
    Column "ui_specs_json" empty_array;
    Column "api_specs_json" empty_array;
    Column "llm_prompts_json" empty_array;
    Column "db_schema_json" empty_array;
    Column "tech_stack_json" empty_array;
    Column "traceability_json" empty_array;
    Column "created_at" Null;
    Column "updated_at" Null ].

Definition legacy_row (overview : OverviewModel.t) : list cell :=
  [ Text (Chars "proj-0"); Text (Chars "Order Tracker");
    Text (Dumped (PDict (model_dump OverviewModel overview)));
    Text (Dumped (PList [PDict (model_dump UISpecificationModel order_list)]));
    empty_array; empty_array; empty_array; empty_array; empty_array;
    Text (Chars "2024-06-01T09:00:00"); Text (Chars "2024-06-01T09:00:00") ].

Definition legacy_table (overview : OverviewModel.t) : table :=
  Table legacy_columns [legacy_row overview].



(** Keyword arguments for the constructor examples. *)
Definition bad_prompt_kwargs : dict :=
  [ ("prompt_id", PStr "LLM-001");
    ("use_case", PStr "");
    ("prompt_template", PStr "Analyze sentiment of: [FEEDBACK_TEXT]");
    ("temperature", PFloat 3) ].

Definition gpt4_prompt_kwargs : dict :=
  [ ("prompt_id", PStr "LLM-001");
    ("use_case", PStr "Customer Sentiment Analysis");
    ("prompt_template", PStr "Analyze sentiment of: [FEEDBACK_TEXT]");
    ("model_name", PStr "gpt-4");
    ("temperature", PFloat 0.2) ].

Definition gpt4_prompt : LLMPromptModel.t :=
  LLMPromptModel.mk "LLM-001" "Customer Sentiment Analysis"
    "Analyze sentiment of: [FEEDBACK_TEXT]" "" "" "gpt-4" 0.2.

Definition fetch_api_kwargs : dict :=
  [ ("api_id", PStr "API-001");
    ("api_name", PStr "Submit New Feedback");
    ("method", PStr "FETCH");
    ("endpoint", PStr "/api/v1/feedback");
    ("request_payload", PStr "");
    ("response_payload", PStr "") ].

Definition nameless_api_kwargs : dict :=
  [ ("api_id", PStr "API-001");
    ("method", PStr "POST");
    ("endpoint", PStr "/api/v1/feedback") ].

Definition fetch_api : APISpecificationModel.t :=
  APISpecificationModel.mk "API-001" "Submit New Feedback" "FETCH" "/api/v1/feedback"
    "" "" "" "Internal".


(** The Order Tracker project as it is read back after it was created
    at 2025-01-01 12:00:00. *)
Definition order_tracker_stored : BRDProjectModel.t :=
  BRDProjectModel.mk (Some "proj-20250101120000") "Normal" order_tracker_overview
    [order_list] [] [] [] [] [] [] [] [].

(** A project that holds a screen whose component was cleared by an
    edit, beside an API that is in order. *)
Definition untitled_screen : UISpecificationModel.t :=
  UISpecificationModel.mk "UI-003" "Orders" ""
    "Paginated list of orders with status filter" "" "" "N/A" "Must".

Definition project_with_untitled_screen : BRDProjectModel.t :=
  BRDProjectModel.mk None "Normal" order_tracker_overview
    [order_list; untitled_screen] [submit_feedback] [] [] [] [] [] [] [].

(** A project with a prompt that is to be answered deterministically. *)
Definition order_summary_prompt : LLMPromptModel.t :=
  LLMPromptModel.mk "LLM-002" "Order Summary" "Summarize the order: [ORDER]"
    "ORDER" "text" "mistral" 0.

Definition order_tracker_with_prompt : BRDProjectModel.t :=
  BRDProjectModel.mk None "Normal" order_tracker_overview
    [order_list] [] [order_summary_prompt] [] [] [] [] [] [].

(** The dict [export_project_data] returns for the Order Tracker. *)
Definition order_tracker_data : dict :=
  [ ("project_id", PStr "proj-20250101120000");
    ("template_type", PStr "Normal");
    ("overview", PDict (model_dump OverviewModel order_tracker_overview));
    ("ui_specifications", PList [PDict (model_dump UISpecificationModel order_list)]);
    ("api_specifications", PList []);
    ("llm_prompts", PList []);
    ("database_schema", PList []);
    ("tech_stack", PList []);
    ("traceability_matrix", PList []);
    ("agent_architectures", PList []);
    ("agent_configurations", PList []);
    ("agent_tasks", PList []) ].

(** The store after the Order Tracker was created at 2025-01-01
    12:00:00, and after it was created once more a second later. *)
Definition order_tracker_once : database :=
  snd (create_project order_tracker "20250101120000" "2025-01-01T12:00:00" None).

Definition order_tracker_twice : database :=
  snd (create_project order_tracker "20250101120001" "2025-01-01T12:00:01"
         order_tracker_once).

(** A line of the stream that holds a number, and one that holds an
    object without a response. *)
Definition number_line : text := Dumped (PInt 42).


(** A table made by an earlier version of the application, without the
    two dates. *)
Definition undated_table : table :=
  Table [ Column "project_id" Null; Column "project_name" Null;
          Column "overview_json" Null ]
        [ [ Text (Chars "proj-1"); Text (Chars "Order Tracker");
            Text (Dumped (PDict (model_dump OverviewModel order_tracker_overview))) ] ].


(** ** Properties of validation *)


Lemma errors_both {A B} (x : validation A) (y : validation B) :
  errors (both x y) = errors x ++ errors y.
Proof.
  destruct x, y; simpl; auto using app_nil_r.
Qed.

Lemma is_valid_both {A B} (x : validation A) (y : validation B) :
  is_valid (both x y) = is_valid x && is_valid y.
Proof.
  destruct x, y; reflexivity.
Qed.

Lemma errors_fmap {A B} (f : A -> B) (v : validation A) :
  errors (fmap f v) = errors v.
Proof.
  destruct v; reflexivity.
Qed.

Lemma is_valid_fmap {A B} (f : A -> B) (v : validation A) :
  is_valid (fmap f v) = is_valid v.
Proof.
  destruct v; reflexivity.
Qed.

Lemma loc_errors_validate_field kw f :
  map loc (errors (validate_field kw f)) = if violated kw f then [name f] else [].
Proof.
  unfold violated, validate_field.
  destruct (get kw (name f)) as [v|].
  - destruct (validate_value (ty f) v); reflexivity.
  - destruct (default f); reflexivity.
Qed.

Lemma loc_errors_validate fs kw :
  map loc (errors (validate fs kw)) = map name (filter (violated kw) fs).
Proof.
  induction fs as [|f fs IH]; simpl; [reflexivity|].
  rewrite errors_both, map_app, IH, loc_errors_validate_field.
  destruct (violated kw f); reflexivity.
Qed.

Lemma is_valid_validate fs kw :
  is_valid (validate fs kw) = forallb (fun f => negb (violated kw f)) fs.
Proof.
  induction fs as [|f fs IH]; simpl; [reflexivity|].
  rewrite is_valid_both, IH. unfold violated. now rewrite negb_involutive.
Qed.

(** A value of the field's type goes through validation unchanged when
    it is within the constraint, and is refused when it is not. *)
Lemma validate_value_to_py t (a : sem t) :
  validate_value t (to_py t a) = inl a /\ within t a = true
  \/ (exists e, validate_value t (to_py t a) = inr e) /\ within t a = false.
Proof.
  destruct t as [lo hi| |lo hi|]; simpl in *.
  - rewrite Nat.ltb_antisym.
    destruct (Nat.leb lo (String.length a)); simpl; [|right; eauto].
    destruct hi as [h|]; [|left; auto].
    rewrite Nat.ltb_antisym.
    destruct (Nat.leb (String.length a) h); simpl; [left; auto|right; eauto].
  - destruct a; left; auto.
  - destruct (PrimFloat.leb a hi); simpl; [|right; eauto].
    destruct (PrimFloat.leb lo a); simpl; [left; auto|right; eauto].
  - left; auto.
Qed.

Lemma get_app_fresh (pre d : dict) key :
  ~ In key (map fst pre) -> get (pre ++ d) key = get d key.
Proof.
  induction pre as [|[k v] pre IH]; simpl; intros H; [reflexivity|].
  destruct (String.eqb_spec k key) as [->|_]; [exfalso; apply H; now left|].
  apply IH. intros Hin. apply H. now right.
Qed.

Lemma validate_dump_after (fs : list field) (t : tuple fs) (pre : dict) :
  NoDup (map fst pre ++ map name fs) ->
  is_valid (validate fs (pre ++ dump fs t)) = all_within fs t
  /\ (all_within fs t = true -> validate fs (pre ++ dump fs t) = Valid t).
Proof.
  revert pre. induction fs as [|f fs IH]; intros pre ND.
  - destruct t. simpl. auto.
  - destruct t as [a t]. simpl.
    assert (Hget : get (pre ++ (name f, to_py (ty f) a) :: dump fs t) (name f)
                   = Some (to_py (ty f) a)).
    { rewrite get_app_fresh.
      - simpl. now rewrite String.eqb_refl.
      - intros Hin. apply NoDup_remove_2 in ND. apply ND.
        apply in_or_app. now left. }
    assert (ND' : NoDup (map fst (pre ++ [(name f, to_py (ty f) a)]) ++ map name fs)).
    { rewrite map_app. simpl. rewrite <- app_assoc. exact ND. }
    specialize (IH t _ ND'). rewrite <- app_assoc in IH. simpl in IH.
    destruct IH as [IHv IHe].
    rewrite is_valid_both, IHv.
    unfold validate_field. rewrite Hget.
    destruct (validate_value_to_py (ty f) a) as [[-> ->]|[[e ->] ->]]; simpl.
    + split; [reflexivity|]. intros H. now rewrite (IHe H).
    + split; [reflexivity|discriminate].
Qed.


Lemma construct_model_dump m (r : record m) :
  model_ok m -> satisfies m r = true -> construct m (model_dump m r) = Valid r.
Proof.
  intros [ND MU _] H. unfold construct, model_dump.
  destruct (validate_dump_after (fields m) (unmake m r) []) as [_ E]; [exact ND|].
  simpl in E. rewrite (E H). simpl. now rewrite MU.
Qed.

Lemma is_valid_construct_model_dump m (r : record m) :
  model_ok m -> is_valid (construct m (model_dump m r)) = satisfies m r.
Proof.
  intros [ND _ _]. unfold construct, model_dump. rewrite is_valid_fmap.
  now destruct (validate_dump_after (fields m) (unmake m r) []) as [E _].
Qed.

(** What validation lets through is within the constraints. *)
Lemma validate_value_within t v (a : sem t) :
  validate_value t v = inl a -> within t a = true.
Proof.
  destruct t as [lo hi| |lo hi|]; simpl.
  - unfold validate_str. destruct v; try discriminate.
    rewrite Nat.ltb_antisym.
    destruct (Nat.leb lo (String.length s)) eqn:E1; simpl; [|discriminate].
    destruct hi as [h|].
    + rewrite Nat.ltb_antisym.
      destruct (Nat.leb (String.length s) h) eqn:E2; simpl; [|discriminate].
      intros [= <-]. now rewrite E1, E2.
    + intros [= <-]. now rewrite E1.
  - reflexivity.
  - assert (C : forall x, (if negb (PrimFloat.leb x hi) then inr less_than_equal
                           else if negb (PrimFloat.leb lo x) then inr greater_than_equal
                           else inl x) = inl a ->
                          PrimFloat.leb a hi && PrimFloat.leb lo a = true).
    { intros x. destruct (PrimFloat.leb x hi) eqn:E1; simpl; [|discriminate].
      destruct (PrimFloat.leb lo x) eqn:E2; simpl; [|discriminate].
      intros [= <-]. now rewrite E1, E2. }
    unfold validate_float.
    destruct v; try apply C; destruct (lax_float _); try apply C; discriminate.
  - reflexivity.
Qed.

Lemma distinct_NoDup l : distinct l = true -> NoDup l.
Proof.
  induction l as [|x l IH]; simpl; intros H; constructor;
    apply andb_true_iff in H; destruct H as [H1 H2]; auto.
  intros Hin. apply negb_true_iff in H1.
  assert (E : existsb (String.eqb x) l = true).
  { apply existsb_exists. exists x. split; [exact Hin|apply String.eqb_refl]. }
  congruence.
Qed.

Lemma OverviewModel_ok : model_ok OverviewModel.
Proof.
  split; [apply distinct_NoDup; reflexivity|intros []; reflexivity|].
  intros t. simpl in t.
  repeat match goal with x : (_ * _)%type |- _ => destruct x end.
  match goal with u : unit |- _ => destruct u end. reflexivity.
Qed.

Lemma model_of_ok (k : kind) : model_ok (model_of k).
Proof.
  destruct k;
    (split; [apply distinct_NoDup; reflexivity|intros []; reflexivity|]);
    intros t; simpl in t;
    repeat match goal with x : (_ * _)%type |- _ => destruct x end;
    match goal with u : unit |- _ => destruct u end; reflexivity.
Qed.

(** ** Properties of lists, rows and columns *)

Lemma index_of_nth name l i :
  index_of name l = Some i -> nth_error l i = Some name.
Proof.
  revert i. induction l as [|a l IH]; simpl; intros i H; [discriminate|].
  destruct (String.eqb_spec a name) as [->|_].
  - injection H as <-. reflexivity.
  - destruct (index_of name l) as [j|]; [|discriminate].
    injection H as <-. simpl. now apply IH.
Qed.

Lemma index_of_lt name l i : index_of name l = Some i -> i < length l.
Proof.
  intros H. apply nth_error_Some. now rewrite (index_of_nth _ _ _ H).
Qed.

Lemma index_of_found name l :
  existsb (String.eqb name) l = true -> exists i, index_of name l = Some i.
Proof.
  induction l as [|a l IH]; simpl; [discriminate|].
  rewrite (String.eqb_sym name a).
  destruct (String.eqb a name); simpl; [eauto|].
  intros H. destruct (IH H) as [i ->]. simpl. eauto.
Qed.

Lemma index_of_absent name l :
  existsb (String.eqb name) l = false -> index_of name l = None.
Proof.
  induction l as [|a l IH]; simpl; [reflexivity|].
  rewrite (String.eqb_sym name a).
  destruct (String.eqb a name); simpl; [discriminate|].
  intros H. now rewrite (IH H).
Qed.

Lemma index_of_app name l l' :
  index_of name (l ++ l') =
  match index_of name l with
  | Some i => Some i
  | None => option_map (fun j => length l + j) (index_of name l')
  end.
Proof.
  induction l as [|a l IH]; simpl.
  - now destruct (index_of name l').
  - destruct (String.eqb a name); [reflexivity|].
    rewrite IH. destruct (index_of name l); [reflexivity|].
    now destruct (index_of name l').
Qed.

Lemma find_app_last {A} (f : A -> bool) l x :
  existsb f l = false -> f x = true -> find f (l ++ [x]) = Some x.
Proof.
  induction l as [|a l IH]; simpl; intros H Hx.
  - now rewrite Hx.
  - apply orb_false_iff in H. destruct H as [-> H]. auto.
Qed.

Lemma find_none_existsb {A} (f : A -> bool) l :
  find f l = None -> existsb f l = false.
Proof.
  induction l as [|a l IH]; simpl; [reflexivity|].
  destruct (f a); [discriminate|]. auto.
Qed.

Lemma find_map_same {A} (f : A -> bool) (g : A -> A) l :
  (forall x, f (g x) = f x) -> find f (map g l) = option_map g (find f l).
Proof.
  intros H. induction l as [|a l IH]; simpl; [reflexivity|].
  rewrite H. now destruct (f a).
Qed.

Lemma find_holds {A} (f : A -> bool) l x : find f l = Some x -> f x = true.
Proof.
  intros H. now apply find_some in H.
Qed.

Lemma nth_new_row cols values n i v :
  index_of n (map col_name cols) = Some i ->
  assoc n values = Some v ->
  nth_error (new_row cols values) i = Some v.
Proof.
  revert i. induction cols as [|c cols IH]; simpl; intros i H Hv; [discriminate|].
  destruct (String.eqb_spec (col_name c) n) as [->|_].
  - injection H as <-. simpl. now rewrite Hv.
  - destruct (index_of n (map col_name cols)) as [j|]; [|discriminate].
    injection H as <-. simpl. now apply IH.
Qed.

Lemma nth_assign_set cols row values n i v :
  index_of n (map col_name cols) = Some i ->
  i < length row ->
  assoc n values = Some v ->
  nth_error (assign cols row values) i = Some v.
Proof.
  revert row i. induction cols as [|c cols IH]; simpl; intros row i H Hlt Hv; [discriminate|].
  destruct row as [|x row]; [simpl in Hlt; lia|].
  destruct (String.eqb_spec (col_name c) n) as [->|_].
  - injection H as <-. simpl. now rewrite Hv.
  - destruct (index_of n (map col_name cols)) as [j|]; [|discriminate].
    injection H as <-. simpl in *. apply IH; auto. lia.
Qed.

Lemma nth_assign_kept cols row values n i :
  index_of n (map col_name cols) = Some i ->
  assoc n values = None ->
  nth_error (assign cols row values) i = nth_error row i.
Proof.
  revert row i. induction cols as [|c cols IH]; simpl; intros row i H Hv; [discriminate|].
  destruct row as [|x row]; [reflexivity|].
  destruct (String.eqb_spec (col_name c) n) as [->|_].
  - injection H as <-. simpl. now rewrite Hv.
  - destruct (index_of n (map col_name cols)) as [j|]; [|discriminate].
    injection H as <-. simpl. now apply IH.
Qed.

Lemma length_assign cols row values : length (assign cols row values) = length row.
Proof.
  revert row. induction cols as [|c cols IH]; intros [|x row]; simpl; auto.
Qed.

(** ** Properties of [init_database] *)


Lemma init_database_some t :
  init_database (Some t) = fold_left (migrate_step (names t)) required_columns t.
Proof. reflexivity. Qed.

Lemma has_column_add t c n :
  has_column (Table (columns t ++ [c]) (map (fun r => r ++ [col_default c]) (rows t))) n
  = has_column t n || String.eqb n (col_name c).
Proof.
  unfold has_column, names. simpl. rewrite map_app, existsb_app. simpl.
  now rewrite orb_false_r.
Qed.

Lemma migrate_step_grows existing t c n :
  has_column t n = true -> has_column (migrate_step existing t c) n = true.
Proof.
  intros H. unfold migrate_step, add_column.
  destruct (negb _); [|exact H].
  destruct (has_column t (col_name c)); [exact H|].
  rewrite has_column_add, H. reflexivity.
Qed.

Lemma migrate_step_has existing t c :
  (forall n, existsb (String.eqb n) existing = true -> has_column t n = true) ->
  has_column (migrate_step existing t c) (col_name c) = true.
Proof.
  intros H. unfold migrate_step, add_column.
  destruct (existsb (String.eqb (col_name c)) existing) eqn:E; simpl; [auto|].
  destruct (has_column t (col_name c)) eqn:E'; [exact E'|].
  rewrite has_column_add, String.eqb_refl. apply orb_true_r.
Qed.

Lemma fold_migrate_grows existing cs t n :
  has_column t n = true -> has_column (fold_left (migrate_step existing) cs t) n = true.
Proof.
  revert t. induction cs as [|c cs IH]; simpl; intros t H; [exact H|].
  apply IH. now apply migrate_step_grows.
Qed.

Lemma fold_migrate_has existing cs t c :
  (forall n, existsb (String.eqb n) existing = true -> has_column t n = true) ->
  In c cs -> has_column (fold_left (migrate_step existing) cs t) (col_name c) = true.
Proof.
  revert t. induction cs as [|c' cs IH]; simpl; intros t H Hin; [contradiction|].
  destruct Hin as [->|Hin].
  - apply fold_migrate_grows. now apply migrate_step_has.
  - apply IH; [|exact Hin]. intros n Hn. apply migrate_step_grows. auto.
Qed.

Lemma fold_migrate_fixed cs t :
  (forall c, In c cs -> has_column t (col_name c) = true) ->
  fold_left (migrate_step (names t)) cs t = t.
Proof.
  induction cs as [|c cs IH]; simpl; intros H; [reflexivity|].
  assert (E : migrate_step (names t) t c = t).
  { unfold migrate_step. specialize (H c (or_introl eq_refl)).
    unfold has_column in H. now rewrite H. }
  rewrite E. apply IH. auto.
Qed.

Lemma init_database_has_required db c :
  In c required_columns -> has_column (init_database db) (col_name c) = true.
Proof.
  destruct db as [t|].
  - rewrite init_database_some. apply fold_migrate_has. auto.
  - simpl. intros [<-|[<-|[<-|[<-|[]]]]]; reflexivity.
Qed.

Lemma init_database_fixed t :
  (forall c, In c required_columns -> has_column t (col_name c) = true) ->
  init_database (Some t) = t.
Proof.
  intros H. rewrite init_database_some. now apply fold_migrate_fixed.
Qed.

Lemma init_database_twice db :
  init_database (Some (init_database db)) = init_database db.
Proof.
  apply init_database_fixed. intros c. apply init_database_has_required.
Qed.

(** ** Properties of decoding *)

Lemma comprehension_call_dumps m (rs : list (record m)) :
  model_ok m ->
  forallb (satisfies m) rs = true ->
  comprehension (call m) (map (fun r => PDict (model_dump m r)) rs) = Ok rs.
Proof.
  intros OK. induction rs as [|r rs IH]; simpl; intros H; [reflexivity|].
  apply andb_true_iff in H. destruct H as [Hr Hrs].
  rewrite (construct_model_dump m r OK Hr). simpl.
  now rewrite (IH Hrs).
Qed.

Lemma decode_records_dumps m (rs : list (record m)) :
  model_ok m ->
  forallb (satisfies m) rs = true ->
  decode_records m (json_dumps_all m rs) = Ok rs.
Proof.
  intros OK H. unfold decode_records. simpl. now apply comprehension_call_dumps.
Qed.

Lemma decode_overview_dump ov :
  satisfies OverviewModel ov = true ->
  decode_overview (model_dump_json OverviewModel ov) = Ok ov.
Proof.
  intros H. unfold decode_overview. simpl.
  now rewrite (construct_model_dump OverviewModel ov OverviewModel_ok H).
Qed.

Lemma load_collection_at m cols row n c :
  cell_at cols row n = Some c ->
  load_collection m cols row n =
  if truthy c then
    match decode_records m c with Ok rs => rs | Raise _ => [] end
  else [].
Proof.
  unfold cell_at, load_collection.
  destruct (index_of n cols); [|discriminate]. now intros ->.
Qed.

Lemma load_collection_empty_array m cols row n :
  cell_at cols row n = Some empty_array -> load_collection m cols row n = [].
Proof.
  intros H. now rewrite (load_collection_at m _ _ _ _ H).
Qed.

Lemma load_collection_dumps m cols row n (rs : list (record m)) :
  model_ok m ->
  forallb (satisfies m) rs = true ->
  cell_at cols row n = Some (json_dumps_all m rs) ->
  load_collection m cols row n = rs.
Proof.
  intros OK H Hc. rewrite (load_collection_at m _ _ _ _ Hc). simpl.
  now rewrite decode_records_dumps.
Qed.

(** ** Properties of [get_project] *)

Lemma rebuild_raises cols row c e :
  cell_at cols row "overview_json" = Some c ->
  decode_overview c = Raise e ->
  rebuild cols row = Raise e.
Proof.
  unfold cell_at, rebuild, decode_overview, item.
  destruct (index_of "overview_json" cols) as [i|]; [|discriminate].
  simpl. intros ->. simpl.
  destruct (json_loads c) as [d|e']; simpl; [|congruence].
  destruct (call OverviewModel d); simpl; congruence.
Qed.

Lemma rebuild_ok cols row c ov :
  cell_at cols row "overview_json" = Some c ->
  decode_overview c = Ok ov ->
  exists p,
    rebuild cols row = Ok p
    /\ BRDProjectModel.overview p = ov
    /\ (forall k, collection k p = load_collection (model_of k) cols row (column_of k))
    /\ (forall x, cell_at cols row "template_type" = Some (Text x) ->
          BRDProjectModel.template_type p = if truthy (Text x) then str x else "Normal")
    /\ (forall x, nth_error row 0 = Some (Text x) ->
          BRDProjectModel.project_id p = Some (str x)).
Proof.
  unfold cell_at, rebuild, decode_overview, item.
  destruct (index_of "overview_json" cols) as [i|]; [|discriminate].
  simpl. intros Hc. rewrite Hc. simpl.
  destruct (json_loads c) as [d|e']; simpl; [|discriminate].
  destruct (call OverviewModel d) as [ov'|]; simpl; [|discriminate].
  intros [= ->].
  destruct row as [|c0 row]; [destruct i; discriminate|]. simpl.
  eexists. split; [reflexivity|]. simpl.
  split; [reflexivity|]. split; [intros k; destruct k; reflexivity|]. split.
  - intros x. destruct (index_of "template_type" cols) as [j|]; [|discriminate].
    simpl. now intros ->.
  - now intros x [= ->].
Qed.

Lemma matches_nonempty pid id row : matches pid id row = true -> row <> [].
Proof.
  unfold matches. destruct row; [destruct pid; discriminate|discriminate].
Qed.

Lemma get_project_found id db row :
  select_by_id (init_database db) id = Ok (Some row) ->
  fst (get_project id db)
  = (brd_project <- rebuild (names (init_database db)) row ;; Ok (Some brd_project)).
Proof.
  intros H. unfold get_project. simpl. rewrite H. simpl.
  destruct row; [|reflexivity].
  unfold select_by_id in H.
  destruct (index_of "project_id" (names (init_database db))); [|discriminate].
  injection H as H. apply find_holds in H. now apply matches_nonempty in H.
Qed.

Lemma get_project_found_pair id db row :
  select_by_id (init_database db) id = Ok (Some row) ->
  get_project id db
  = (brd_project <- rebuild (names (init_database db)) row ;; Ok (Some brd_project),
     Some (init_database db)).
Proof.
  intros H. rewrite <- (get_project_found id db row H). reflexivity.
Qed.


Lemma get_project_store id db : snd (get_project id db) = Some (init_database db).
Proof. reflexivity. Qed.

(** ** A row that was written is read back *)

Lemma assoc_has_column t (values : list (string * cell)) n v :
  forallb (fun nv => has_column t (fst nv)) values = true ->
  assoc n values = Some v ->
  has_column t n = true.
Proof.
  induction values as [|[n' v'] values IH]; simpl; [discriminate|].
  intros H. apply andb_true_iff in H. destruct H as [H1 H2].
  destruct (String.eqb_spec n' n) as [<-|_]; auto.
Qed.

Lemma cell_at_inserted t values n v :
  forallb (fun nv => has_column t (fst nv)) values = true ->
  assoc n values = Some v ->
  cell_at (names t) (new_row (columns t) values) n = Some v.
Proof.
  intros H Hv. unfold cell_at.
  destruct (index_of_found n (names t)) as [i Hi].
  { exact (assoc_has_column t values n v H Hv). }
  rewrite Hi. now apply nth_new_row with (n := n).
Qed.

Lemma cell_at_assigned t row values n v :
  forallb (fun nv => has_column t (fst nv)) values = true ->
  length row = length (columns t) ->
  assoc n values = Some v ->
  cell_at (names t) (assign (columns t) row values) n = Some v.
Proof.
  intros H Hl Hv. unfold cell_at.
  destruct (index_of_found n (names t)) as [i Hi].
  { exact (assoc_has_column t values n v H Hv). }
  rewrite Hi. apply nth_assign_set with (n := n); auto.
  apply index_of_lt in Hi. unfold names in Hi. rewrite length_map in Hi. lia.
Qed.

Lemma cell_at_assign_kept t row values n :
  assoc n values = None ->
  cell_at (names t) (assign (columns t) row values) n = cell_at (names t) row n.
Proof.
  intros Hv. unfold cell_at.
  destruct (index_of n (names t)) as [i|] eqn:Hi; [|reflexivity].
  now apply nth_assign_kept with (n := n).
Qed.

Lemma rebuild_content cols row (p : BRDProjectModel.t) :
  content_ok p ->
  cell_at cols row "overview_json"
    = Some (model_dump_json OverviewModel (BRDProjectModel.overview p)) ->
  cell_at cols row "template_type"
    = Some (Text (Chars (BRDProjectModel.template_type p))) ->
  (forall k, cell_at cols row (column_of k)
             = Some (json_dumps_all (model_of k) (collection k p))) ->
  exists p',
    rebuild cols row = Ok p'
    /\ BRDProjectModel.overview p' = BRDProjectModel.overview p
    /\ (forall k, collection k p' = collection k p)
    /\ BRDProjectModel.template_type p'
       = template_type_read (BRDProjectModel.template_type p).
Proof.
  intros [Hov Hrs] Co Ct Ck.
  destruct (rebuild_ok cols row _ _ Co (decode_overview_dump _ Hov))
    as (p' & E & Eo & Ec & Et & _).
  exists p'. split; [exact E|]. split; [exact Eo|]. split.
  - intros k. rewrite Ec.
    apply load_collection_dumps; auto using model_of_ok.
  - rewrite (Et _ Ct). unfold template_type_read. simpl.
    now destruct (BRDProjectModel.template_type p).
Qed.

Lemma create_project_then_get brd_project stamp now db id db' :
  create_project brd_project stamp now db = (Ok id, db') ->
  content_ok brd_project ->
  id = ("proj-" ++ stamp)%string
  /\ exists p',
       get_project id db' = (Ok (Some p'), db')
       /\ BRDProjectModel.overview p' = BRDProjectModel.overview brd_project
       /\ (forall k, collection k p' = collection k brd_project)
       /\ BRDProjectModel.template_type p'
          = template_type_read (BRDProjectModel.template_type brd_project).
Proof.
  unfold create_project. set (t := init_database db).
  set (values := _ :: _ ++ _).
  destruct (insert t values) as [t'|e] eqn:Hi; [|discriminate].
  intros [= <- <-] OK. split; [reflexivity|].
  unfold insert in Hi.
  destruct (forallb _ values) eqn:Hcols; simpl in Hi; [|discriminate].
  destruct (primary_key_taken t values) eqn:Hpk; [discriminate|].
  injection Hi as <-.
  set (row := new_row (columns t) values).
  set (t' := Table (columns t) (rows t ++ [row])).
  assert (Hinit : init_database (Some t') = t').
  { apply init_database_fixed. intros c Hc.
    exact (init_database_has_required db c Hc). }
  assert (Hpid : cell_at (names t) row "project_id"
                 = Some (Text (Chars ("proj-" ++ stamp)))).
  { apply cell_at_inserted; [exact Hcols|reflexivity]. }
  assert (Hsel : select_by_id t' ("proj-" ++ stamp) = Ok (Some row)).
  { unfold select_by_id, cell_at in *. change (names t') with (names t).
    unfold primary_key_taken in Hpk.
    destruct (index_of "project_id" (names t)) as [pid|]; [|discriminate].
    simpl in Hpk. simpl. f_equal. apply find_app_last; [exact Hpk|].
    unfold matches. rewrite Hpid. simpl. apply String.eqb_refl. }
  destruct (rebuild_content (names t) row brd_project OK) as (p' & E & Rest).
  - apply cell_at_inserted; [exact Hcols|reflexivity].
  - apply cell_at_inserted; [exact Hcols|reflexivity].
  - intros k. apply cell_at_inserted; [exact Hcols|]. destruct k; reflexivity.
  - exists p'. split; [|exact Rest].
    rewrite (get_project_found_pair _ (Some t') row); rewrite Hinit; [|exact Hsel].
    change (names t') with (names t). now rewrite E.
Qed.

Lemma matches_assign t pid id row now brd_project :
  index_of "project_id" (names t) = Some pid ->
  matches pid id (assign (columns t) row (content_values brd_project now))
  = matches pid id row.
Proof.
  intros Hp. unfold matches.
  now rewrite (nth_assign_kept (columns t) row (content_values brd_project now)
                 "project_id" pid Hp eq_refl).
Qed.

Lemma update_project_then_get brd_project now db id row db' :
  BRDProjectModel.project_id brd_project = Some id ->
  select_by_id (init_database db) id = Ok (Some row) ->
  length row = length (columns (init_database db)) ->
  update_project brd_project now db = (Ok true, db') ->
  content_ok brd_project ->
  exists row' p',
    select_by_id (init_database db') id = Ok (Some row')
    /\ (forall n v, assoc n (content_values brd_project now) = Some v ->
                    cell_at (names (init_database db)) row' n = Some v)
    /\ (forall n, assoc n (content_values brd_project now) = None ->
                  cell_at (names (init_database db)) row' n
                  = cell_at (names (init_database db)) row n)
    /\ get_project id db' = (Ok (Some p'), db')
    /\ BRDProjectModel.overview p' = BRDProjectModel.overview brd_project
    /\ (forall k, collection k p' = collection k brd_project)
    /\ BRDProjectModel.template_type p'
       = template_type_read (BRDProjectModel.template_type brd_project).
Proof.
  unfold update_project. set (t := init_database db).
  set (values := content_values brd_project now).
  intros Hid Hsel Hlen Hup OK. rewrite Hid in Hup.
  unfold update in Hup.
  destruct (forallb _ values) eqn:Hcols; simpl in Hup; [|discriminate].
  unfold select_by_id in Hsel.
  destruct (index_of "project_id" (names t)) as [pid|] eqn:Hp; [|discriminate].
  injection Hsel as Hfind. injection Hup as <-.
  set (g := fun r => if matches pid id r then assign (columns t) r values else r).
  set (t' := Table (columns t) (map g (rows t))).
  assert (Hinit : init_database (Some t') = t').
  { apply init_database_fixed. intros c Hc.
    exact (init_database_has_required db c Hc). }
  assert (Hg : forall x, matches pid id (g x) = matches pid id x).
  { intros x. unfold g. destruct (matches pid id x) eqn:E; [|exact E].
    unfold values. now rewrite (matches_assign t pid id x now brd_project Hp). }
  assert (Hsel' : select_by_id t' id = Ok (Some (assign (columns t) row values))).
  { unfold select_by_id. change (names t') with (names t). rewrite Hp.
    simpl. rewrite (find_map_same _ g _ Hg), Hfind. simpl. unfold g.
    now rewrite (find_holds _ _ _ Hfind). }
  destruct (rebuild_content (names t) (assign (columns t) row values) brd_project OK)
    as (p' & E & Rest).
  - apply cell_at_assigned; [exact Hcols|exact Hlen|reflexivity].
  - apply cell_at_assigned; [exact Hcols|exact Hlen|reflexivity].
  - intros k. apply cell_at_assigned; [exact Hcols|exact Hlen|].
    destruct k; reflexivity.
  - exists (assign (columns t) row values), p'.
    split; [rewrite Hinit; exact Hsel'|].
    split; [intros n v Hv; now apply cell_at_assigned|].
    split; [intros n Hv; now apply cell_at_assign_kept|].
    split; [|exact Rest].
    rewrite (get_project_found_pair _ (Some t') (assign (columns t) row values));
      rewrite Hinit; [|exact Hsel'].
    change (names t') with (names t). now rewrite E.
Qed.


(** ** A table from before the migration *)

Lemma migrate_step_adds existing t c :
  existsb (String.eqb (col_name c)) existing = false ->
  has_column t (col_name c) = false ->
  migrate_step existing t c
  = Table (columns t ++ [c]) (map (fun r => r ++ [col_default c]) (rows t)).
Proof.
  intros H1 H2. unfold migrate_step, add_column. now rewrite H1, H2.
Qed.

Lemma fold_migrate_adds existing cs t :
  (forall c, In c cs -> existsb (String.eqb (col_name c)) existing = false) ->
  (forall c, In c cs -> has_column t (col_name c) = false) ->
  distinct (map col_name cs) = true ->
  fold_left (migrate_step existing) cs t
  = Table (columns t ++ cs) (map (fun r => r ++ map col_default cs) (rows t)).
Proof.
  revert t. induction cs as [|c cs IH]; intros t He Ht Hd; simpl.
  - rewrite app_nil_r. destruct t as [cols rws]. simpl. f_equal.
    rewrite <- (map_id rws) at 1. apply map_ext. intros r. now rewrite app_nil_r.
  - simpl in Hd. apply andb_true_iff in Hd. destruct Hd as [Hc Hd].
    apply negb_true_iff in Hc.
    rewrite migrate_step_adds; auto using in_eq.
    rewrite IH; auto using in_cons.
    + simpl. rewrite <- app_assoc. simpl. f_equal.
      rewrite map_map. apply map_ext. intros r. now rewrite <- app_assoc.
    + intros c' Hc'. rewrite has_column_add, (Ht c' (in_cons _ _ _ Hc')). simpl.
      destruct (String.eqb_spec (col_name c') (col_name c)) as [E|_]; [|reflexivity].
      rewrite <- E in Hc. rewrite <- Hc. symmetry. apply existsb_exists.
      exists (col_name c'). split; [now apply in_map|apply String.eqb_refl].
Qed.

Lemma legacy_columns_absent t c :
  forallb (fun c => negb (has_column t (col_name c))) required_columns = true ->
  In c required_columns -> has_column t (col_name c) = false.
Proof.
  intros H Hc. rewrite forallb_forall in H. apply negb_true_iff. auto.
Qed.

Lemma init_database_legacy t :
  forallb (fun c => negb (has_column t (col_name c))) required_columns = true ->
  init_database (Some t)
  = Table (columns t ++ required_columns)
          (map (fun r => r ++ map col_default required_columns) (rows t)).
Proof.
  intros H. rewrite init_database_some.
  apply fold_migrate_adds; [| |reflexivity]; intros c Hc;
    exact (legacy_columns_absent t c H Hc).
Qed.

Lemma find_map_same_in {A} (f : A -> bool) (g : A -> A) l :
  (forall x, In x l -> f (g x) = f x) -> find f (map g l) = option_map g (find f l).
Proof.
  induction l as [|a l IH]; simpl; intros H; [reflexivity|].
  rewrite (H a (or_introl eq_refl)). destruct (f a); auto.
Qed.

Lemma cell_at_kept cols row extra_cols extra n c :
  cell_at cols row n = Some c ->
  cell_at (cols ++ extra_cols) (row ++ extra) n = Some c.
Proof.
  unfold cell_at. rewrite index_of_app.
  destruct (index_of n cols) as [i|]; [|discriminate].
  intros H. rewrite nth_error_app1; [exact H|].
  apply nth_error_Some. congruence.
Qed.

Lemma cell_at_appended cols row extra_cols extra n j :
  index_of n cols = None ->
  index_of n extra_cols = Some j ->
  length row = length cols ->
  cell_at (cols ++ extra_cols) (row ++ extra) n = nth_error extra j.
Proof.
  intros H1 H2 Hl. unfold cell_at. rewrite index_of_app, H1, H2. simpl.
  rewrite nth_error_app2; [|lia]. f_equal. lia.
Qed.

Lemma get_project_legacy t id row c ov :
  forallb (fun c => negb (has_column t (col_name c))) required_columns = true ->
  rows_aligned t ->
  select_by_id t id = Ok (Some row) ->
  cell_at (names t) row "overview_json" = Some c ->
  decode_overview c = Ok ov ->
  exists p,
    fst (get_project id (Some t)) = Ok (Some p)
    /\ BRDProjectModel.overview p = ov
    /\ BRDProjectModel.template_type p = "Normal"
    /\ BRDProjectModel.agent_architectures p = []
    /\ BRDProjectModel.agent_configurations p = []
    /\ BRDProjectModel.agent_tasks p = [].
Proof.
  intros Hleg Hal Hsel Hc Hov.
  pose proof (init_database_legacy t Hleg) as Hinit.
  set (extra := map col_default required_columns) in *.
  set (ext := fun r : list cell => r ++ extra) in *.
  unfold select_by_id in Hsel.
  destruct (index_of "project_id" (names t)) as [pid|] eqn:Hp; [|discriminate].
  injection Hsel as Hfind.
  assert (Hrow : length row = length (names t)).
  { apply find_some in Hfind. destruct Hfind as [Hin _].
    unfold rows_aligned in Hal. rewrite Forall_forall in Hal.
    unfold names. rewrite length_map. auto. }
  assert (Hnames : names (init_database (Some t))
                   = names t ++ map col_name required_columns).
  { rewrite Hinit. unfold names. simpl. now rewrite map_app. }
  assert (Hsel' : select_by_id (init_database (Some t)) id = Ok (Some (ext row))).
  { unfold select_by_id. rewrite Hnames, index_of_app, Hp. rewrite Hinit. simpl.
    rewrite find_map_same_in.
    - now rewrite Hfind.
    - intros x Hx. unfold matches, ext. rewrite nth_error_app1; [reflexivity|].
      unfold rows_aligned in Hal. rewrite Forall_forall in Hal.
      rewrite (Hal x Hx). apply index_of_lt in Hp. unfold names in Hp.
      now rewrite length_map in Hp. }
  assert (Hleg' : forall n, In n (map col_name required_columns) ->
                            index_of n (names t) = None).
  { intros n Hn. apply index_of_absent. apply in_map_iff in Hn.
    destruct Hn as (c' & <- & Hc'). exact (legacy_columns_absent t c' Hleg Hc'). }
  destruct (rebuild_ok (names (init_database (Some t))) (ext row) c ov)
    as (p & E & Eo & Ec & Et & _).
  - rewrite Hnames. now apply cell_at_kept.
  - exact Hov.
  - exists p. split.
    + rewrite (get_project_found _ _ _ Hsel'). now rewrite E.
    + split; [exact Eo|]. rewrite Hnames in Ec, Et.
      assert (Hat : forall n j, In n (map col_name required_columns) ->
                index_of n (map col_name required_columns) = Some j ->
                cell_at (names t ++ map col_name required_columns) (ext row) n
                = nth_error extra j).
      { intros n j Hn Hj. apply cell_at_appended; auto. }
      split.
      { rewrite (Et (Chars "Normal")); [reflexivity|].
        rewrite (Hat "template_type" 0); [reflexivity|simpl; tauto|reflexivity]. }
      pose proof (Ec agent_architectures) as E1.
      pose proof (Ec agent_configurations) as E2.
      pose proof (Ec agent_tasks) as E3.
      cbn [collection model_of column_of] in E1, E2, E3. rewrite E1, E2, E3.
      split; [|split].
      * apply (load_collection_empty_array AgentArchitectureModel).
        rewrite (Hat "agent_architectures_json" 1);
          [reflexivity|simpl; tauto|reflexivity].
      * apply (load_collection_empty_array AgentConfigurationModel).
        rewrite (Hat "agent_configurations_json" 2);
          [reflexivity|simpl; tauto|reflexivity].
      * apply (load_collection_empty_array AgentTaskModel).
        rewrite (Hat "agent_tasks_json" 3); [reflexivity|simpl; tauto|reflexivity].
Qed.

(** ** What a constructor lets through *)

Lemma validate_all_within fs kw (t : tuple fs) :
  defaults_within fs = true ->
  validate fs kw = Valid t ->
  all_within fs t = true.
Proof.
  induction fs as [|f fs IH]; simpl; intros Hd H; [reflexivity|].
  apply andb_true_iff in Hd. destruct Hd as [Hf Hd].
  destruct t as [a t]. simpl.
  unfold validate_field in H.
  destruct (validate fs kw) as [t'|] eqn:Ev.
  - assert (Ha : within (ty f) a = true /\ t' = t).
    { destruct (get kw (name f)) as [v|].
      - destruct (validate_value (ty f) v) as [a'|] eqn:Ea; simpl in H; [|discriminate].
        injection H as -> ->. split; [|reflexivity].
        exact (validate_value_within _ _ _ Ea).
      - destruct (default f) as [d|]; simpl in H; [|discriminate].
        injection H as -> ->. auto. }
    destruct Ha as [-> ->]. simpl. now apply IH.
  - destruct (get kw (name f)) as [v|].
    + destruct (validate_value (ty f) v); discriminate.
    + destruct (default f); discriminate.
Qed.

Lemma construct_satisfies m kw (r : record m) :
  model_ok m ->
  defaults_within (fields m) = true ->
  construct m kw = Valid r ->
  satisfies m r = true.
Proof.
  intros [_ _ UM] Hd. unfold construct, satisfies.
  destruct (validate (fields m) kw) as [t|] eqn:E; simpl; [|discriminate].
  intros [= <-]. rewrite UM. exact (validate_all_within _ _ _ Hd E).
Qed.

Lemma validate_missing fs kw f :
  In f fs -> get kw (name f) = None -> default f = None ->
  is_valid (validate fs kw) = false.
Proof.
  intros Hin Hg Hd. rewrite is_valid_validate.
  apply not_true_is_false. rewrite forallb_forall. intros H.
  specialize (H f Hin). unfold violated, validate_field in H.
  rewrite Hg, Hd in H. discriminate.
Qed.

(** ** The claims about the record schemas *)

(** C4.  Whatever the class and the keyword arguments, the errors of the
    [ValidationError] are those of the fields that fail, one for each and
    in the order of declaration: construction succeeds exactly when no
    field fails, and the error names every field that does, not only the
    first. *)
Theorem validation_error_names_every_violated_field (m : model) (kw : dict) :
  is_valid (construct m kw) = forallb (fun f => negb (violated kw f)) (fields m)
  /\ map loc (errors (construct m kw)) = map name (filter (violated kw) (fields m))
  /\ (is_valid (construct m kw) = false ->
      exists errs, call m (PDict kw) = Raise (ValidationError errs)
                   /\ map loc errs = map name (filter (violated kw) (fields m))).
Proof.
  unfold construct. rewrite is_valid_fmap, errors_fmap.
  split; [apply is_valid_validate|]. split; [apply loc_errors_validate|].
  intros H. unfold call, construct.
  pose proof (loc_errors_validate (fields m) kw) as L.
  destruct (validate (fields m) kw) as [t|errs]; simpl in *; [discriminate|].
  eauto.
Qed.

(** C8, as the code has it.  An API specification needs [api_id],
    [api_name], [method] and [endpoint]; the id, the name and the
    endpoint must be non-empty (and within their maximum lengths), the
    method may be any string, and the request and response payloads are
    optional, default to the empty string, and may be empty. *)
Theorem api_specification_constraints :
  (forall r : APISpecificationModel.t,
     is_valid (construct APISpecificationModel
                 (model_dump APISpecificationModel r)) = true
     <-> (1 <= String.length (APISpecificationModel.api_id r) <= 50
          /\ 1 <= String.length (APISpecificationModel.api_name r) <= 255
          /\ 1 <= String.length (APISpecificationModel.endpoint r) <= 255
          /\ String.length (APISpecificationModel.request_payload r) <= 2000
          /\ String.length (APISpecificationModel.response_payload r) <= 2000
          /\ String.length (APISpecificationModel.business_rule r) <= 1000))
  /\ (forall kw key,
        In key ["api_id"; "api_name"; "method"; "endpoint"] ->
        get kw key = None ->
        is_valid (construct APISpecificationModel kw) = false)
  /\ (forall api_id api_name method endpoint,
        construct APISpecificationModel
          [("api_id", PStr api_id); ("api_name", PStr api_name);
           ("method", PStr method); ("endpoint", PStr endpoint)]
        = construct APISpecificationModel
            (model_dump APISpecificationModel
               (APISpecificationModel.mk api_id api_name method endpoint
                  "" "" "" "Internal"))).
Proof.
  clear json_parse json_print.
  split; [|split].
  - intros r.
    rewrite (is_valid_construct_model_dump APISpecificationModel r (model_of_ok api_specs)).
    destruct r as [i n m e rq rs b t]. unfold satisfies. cbn -[Nat.leb].
    rewrite !andb_true_r, !andb_true_iff, !Nat.leb_le. intuition lia.
  - intros kw key Hkey Hget. unfold construct. rewrite is_valid_fmap.
    simpl in Hkey.
    destruct Hkey as [<-|[<-|[<-|[<-|[]]]]].
    + apply (validate_missing _ kw (required_field "api_id" (Str 1 (Some 50))));
        [simpl; auto 10|exact Hget|reflexivity].
    + apply (validate_missing _ kw (required_field "api_name" (Str 1 (Some 255))));
        [simpl; auto 10|exact Hget|reflexivity].
    + apply (validate_missing _ kw (required_field "method" (Str 0 None)));
        [simpl; auto 10|exact Hget|reflexivity].
    + apply (validate_missing _ kw (required_field "endpoint" (Str 1 (Some 255))));
        [simpl; auto 10|exact Hget|reflexivity].
  - intros api_id api_name method endpoint. reflexivity.
Qed.

(** C9, as the code has it.  An LLM prompt is constructed only with a
    temperature between 0.0 and 2.0, both included, and a temperature
    outside fails validation; the model name is a free string on which
    the constructor puts no condition. *)
Theorem llm_prompt_constraints :
  (forall kw r,
     construct LLMPromptModel kw = Valid r ->
     PrimFloat.leb 0 (LLMPromptModel.temperature r) = true
     /\ PrimFloat.leb (LLMPromptModel.temperature r) 2 = true)
  /\ (forall r : LLMPromptModel.t,
        is_valid (construct LLMPromptModel (model_dump LLMPromptModel r)) = true
        <-> (1 <= String.length (LLMPromptModel.prompt_id r) <= 50
             /\ 1 <= String.length (LLMPromptModel.use_case r) <= 255
             /\ 10 <= String.length (LLMPromptModel.prompt_template r) <= 5000
             /\ String.length (LLMPromptModel.input_variables r) <= 1000
             /\ String.length (LLMPromptModel.expected_output r) <= 1000
             /\ PrimFloat.leb 0 (LLMPromptModel.temperature r) = true
             /\ PrimFloat.leb (LLMPromptModel.temperature r) 2 = true)).
Proof.
  clear json_parse json_print.
  split.
  - intros kw r H.
    apply (construct_satisfies LLMPromptModel _ _ (model_of_ok llm_prompts) eq_refl) in H.
    destruct r as [i u p v o n t]. unfold satisfies in H.
    cbn -[Nat.leb PrimFloat.leb] in H.
    rewrite !andb_true_r, !andb_true_iff in H. cbn. tauto.
  - intros r.
    rewrite (is_valid_construct_model_dump LLMPromptModel r (model_of_ok llm_prompts)).
    destruct r as [i u p v o n t]. unfold satisfies. cbn -[Nat.leb PrimFloat.leb].
    rewrite !andb_true_r, !andb_true_iff, !Nat.leb_le. intuition lia.
Qed.

(** [create_project] succeeds on a store that has the fifteen columns
    and no row under the id the clock gives. *)
Lemma create_project_succeeds brd_project stamp now db :
  forallb (has_column (init_database db)) (map col_name projects_columns) = true ->
  select_by_id (init_database db) ("proj-" ++ stamp) = Ok None ->
  fst (create_project brd_project stamp now db) = Ok ("proj-" ++ stamp)%string.
Proof.
  intros Hcols Hsel. unfold create_project, insert.
  set (t := init_database db) in *.
  assert (H1 : forallb (fun nv : string * cell => has_column t (fst nv))
                 (("project_id", Text (Chars ("proj-" ++ stamp)))
                  :: content_values brd_project now
                  ++ [("created_at", Text (Chars now))]) = true).
  { rewrite forallb_forall in Hcols. apply forallb_forall. intros [n v] Hin.
    apply Hcols. simpl in Hin. simpl.
    repeat (destruct Hin as [Hin|Hin]; [injection Hin as <- _; auto 20|]).
    contradiction. }
  rewrite H1. simpl negb. cbv iota.
  assert (H2 : primary_key_taken t
                 (("project_id", Text (Chars ("proj-" ++ stamp)))
                  :: content_values brd_project now
                  ++ [("created_at", Text (Chars now))]) = false).
  { unfold primary_key_taken, select_by_id in *.
    destruct (index_of "project_id" (names t)) as [pid|]; [|reflexivity].
    simpl. injection Hsel as Hfind. now apply find_none_existsb. }
  now rewrite H2.
Qed.

(** ** The claims about the store *)


(** C2, as the code has it.  For a stored row whose overview block
    decodes, [get_project] does not raise, and each collection depends on
    its own block alone: it is empty when the block is malformed JSON or
    holds a record the class refuses, and it holds exactly the records of
    the block when the block decodes.  So with exactly one corrupt block
    exactly that collection is empty and the others are intact. *)
Theorem get_project_isolates_collection_blocks
    (db : database) (id : string) (row : list cell) (c : cell) (ov : OverviewModel.t) :
  select_by_id (init_database db) id = Ok (Some row) ->
  cell_at (names (init_database db)) row "overview_json" = Some c ->
  decode_overview c = Ok ov ->
  exists p,
    fst (get_project id db) = Ok (Some p)
    /\ BRDProjectModel.overview p = ov
    /\ forall k b,
         cell_at (names (init_database db)) row (column_of k) = Some b ->
         (forall e, decode_records (model_of k) b = Raise e -> collection k p = [])
         /\ (forall rs, truthy b = true ->
                        decode_records (model_of k) b = Ok rs -> collection k p = rs)
         /\ (forall rs, forallb (satisfies (model_of k)) rs = true ->
                        b = json_dumps_all (model_of k) rs -> collection k p = rs).
Proof.
  intros Hsel Hc Hov.
  destruct (rebuild_ok _ _ _ _ Hc Hov) as (p & E & Eo & Ec & _).
  exists p. split; [|split; [exact Eo|]].
  - rewrite (get_project_found _ _ _ Hsel). now rewrite E.
  - intros k b Hb. rewrite Ec, (load_collection_at _ _ _ _ _ Hb).
    split; [|split].
    + intros e ->. now destruct (truthy b).
    + now intros rs -> ->.
    + intros rs Hrs ->. simpl.
      now rewrite (decode_records_dumps _ _ (model_of_ok k) Hrs).
Qed.

(** C3, as the code has it.  Running the migration on a table that has
    the four columns, and so on any store that has been initialised,
    changes nothing.  And in a table that lacks
    [template_type] and the three agent columns, a row whose overview
    block decodes is loaded, after the migration that [get_project]
    starts with, as an aggregate of template type "Normal" with empty
    agent collections. *)
Theorem legacy_rows_load_with_defaults :
  (forall t,
     (forall c, In c required_columns -> has_column t (col_name c) = true) ->
     init_database (Some t) = t)
  /\ (forall db, init_database (Some (init_database db)) = init_database db)
  /\ (forall t id row c ov,
        forallb (fun c => negb (has_column t (col_name c))) required_columns = true ->
        rows_aligned t ->
        select_by_id t id = Ok (Some row) ->
        cell_at (names t) row "overview_json" = Some c ->
        decode_overview c = Ok ov ->
        exists p,
          fst (get_project id (Some t)) = Ok (Some p)
          /\ BRDProjectModel.template_type p = "Normal"
          /\ BRDProjectModel.agent_architectures p = []
          /\ BRDProjectModel.agent_configurations p = []
          /\ BRDProjectModel.agent_tasks p = []).
Proof.
  split; [exact init_database_fixed|]. split; [exact init_database_twice|].
  intros t id row c ov Hleg Hal Hsel Hc Hov.
  destruct (get_project_legacy t id row c ov Hleg Hal Hsel Hc Hov)
    as (p & G & _ & Rest).
  exists p. auto.
Qed.


(** C10.  The overview block is not covered by the tolerance of the
    collection blocks: when it is malformed JSON, is no object, or is an
    object the overview class refuses, [get_project] raises that
    exception and returns no aggregate. *)
Theorem get_project_raises_on_corrupt_overview
    (db : database) (id : string) (row : list cell) (c : cell) (e : exn) :
  select_by_id (init_database db) id = Ok (Some row) ->
  cell_at (names (init_database db)) row "overview_json" = Some c ->
  decode_overview c = Raise e ->
  fst (get_project id db) = Raise e.
Proof.
  intros Hsel Hc He.
  rewrite (get_project_found _ _ _ Hsel).
  now rewrite (rebuild_raises _ _ _ _ Hc He).
Qed.

(** ** The claim about the export *)


(** ** The claim about the gateway *)

Lemma iter_lines_responses (type_error_message : pyval -> string)
    (vs : list pyval) (broken : option failure) :
  iter_lines type_error_message (map (fun v => Dumped (PDict [("response", v)])) vs) broken = (vs, broken).
Proof.
  induction vs as [|v vs IH]; simpl; [reflexivity|]. now rewrite IH.
Qed.


(** * Further properties of the code *)

(** ** Deleting, listing and counting *)

Lemma matches_same_id (pid : nat) (a b : string) (row : list cell) :
  matches pid a row = true -> matches pid b row = true -> a = b.
Proof.
  unfold matches. destruct (nth_error row pid) as [[|x]|]; try discriminate.
  intros Ha Hb. apply String.eqb_eq in Ha, Hb. congruence.
Qed.

Lemma find_filter_same {A} (f : A -> bool) (l : list A) :
  find f (filter (fun x => negb (f x)) l) = None.
Proof.
  induction l as [|x l IH]; simpl; [reflexivity|].
  destruct (f x) eqn:E; simpl; [exact IH|]. now rewrite E.
Qed.

Lemma find_filter_other {A} (f g : A -> bool) (l : list A) :
  (forall x, f x = true -> g x = true -> False) ->
  find g (filter (fun x => negb (f x)) l) = find g l.
Proof.
  intros H. induction l as [|x l IH]; simpl; [reflexivity|].
  destruct (f x) eqn:E; simpl.
  - destruct (g x) eqn:G; [destruct (H x E G)|exact IH].
  - now rewrite IH.
Qed.

Lemma filter_none {A} (f : A -> bool) (l : list A) :
  find f l = None -> filter (fun x => negb (f x)) l = l.
Proof.
  induction l as [|x l IH]; simpl; [reflexivity|].
  destruct (f x); simpl; [discriminate|]. intros H. now rewrite IH.
Qed.

Lemma init_database_same_columns (db : database) (rows' : list (list cell)) :
  init_database (Some (Table (columns (init_database db)) rows'))
  = Table (columns (init_database db)) rows'.
Proof.
  apply init_database_fixed. intros c Hc.
  exact (init_database_has_required db c Hc).
Qed.

Lemma get_project_select (id : string) (db : database) :
  fst (get_project id db)
  = (found <- select_by_id (init_database db) id ;;
     match found with
     | None | Some [] => Ok None
     | Some row => brd_project <- rebuild (names (init_database db)) row ;; Ok (Some brd_project)
     end).
Proof. reflexivity. Qed.

Lemma get_project_none (id : string) (db : database) :
  fst (get_project id db) = Ok None ->
  exists pid, index_of "project_id" (names (init_database db)) = Some pid
              /\ find (matches pid id) (rows (init_database db)) = None.
Proof.
  rewrite get_project_select. unfold select_by_id.
  destruct (index_of "project_id" (names (init_database db))) as [pid|]; [|discriminate].
  simpl. intros H. exists pid. split; [reflexivity|].
  destruct (find (matches pid id) (rows (init_database db))) as [row|] eqn:F; [|reflexivity].
  destruct row as [|c row].
  - apply find_holds in F. unfold matches in F. now destruct pid.
  - destruct (rebuild (names (init_database db)) (c :: row)); discriminate.
Qed.

(** X2.  [delete_project] of an id that [get_project] does not find returns
    [True] and leaves the store as it is. *)
Theorem delete_project_of_absent_id (id : string) (db : database) :
  fst (get_project id db) = Ok None ->
  delete_project id db = (Ok true, Some (init_database db)).
Proof.
  intros H. destruct (get_project_none id db H) as (pid & Hpid & F).
  unfold delete_project, delete. rewrite Hpid, (filter_none _ _ F).
  now destruct (init_database db).
Qed.

(** X1.  After [delete_project] has returned, [get_project] does not find the
    id, and finds under every other id what it found before. *)
Theorem delete_project_then_get_project (id other : string) (db : database) :
  fst (delete_project id db) = Ok true ->
  fst (get_project id (snd (delete_project id db))) = Ok None
  /\ (other <> id ->
      fst (get_project other (snd (delete_project id db)))
      = fst (get_project other db)).
Proof.
  unfold delete_project, delete.
  destruct (index_of "project_id" (names (init_database db))) as [pid|] eqn:Hpid;
    [|discriminate].
  intros _. cbn [snd]. rewrite !get_project_select, init_database_same_columns.
  unfold select_by_id, names. cbn [columns rows]. fold (names (init_database db)).
  rewrite Hpid. split.
  - now rewrite find_filter_same.
  - intros Hne. rewrite find_filter_other; [reflexivity|].
    intros row Ha Hb. apply Hne. exact (matches_same_id pid other id row Hb Ha).
Qed.

Lemma insert_desc_perm (key : list cell -> cell) (r : list cell) (l : list (list cell)) :
  Permutation (insert_desc key r l) (r :: l).
Proof.
  induction l as [|r' l IH]; simpl; [apply Permutation_refl|].
  destruct (sql_le (key r') (key r)); [apply Permutation_refl|].
  eapply perm_trans; [apply perm_skip, IH|apply perm_swap].
Qed.

Lemma order_by_desc_perm (key : list cell -> cell) (l : list (list cell)) :
  Permutation (order_by_desc key l) l.
Proof.
  induction l as [|r l IH]; simpl; [apply perm_nil|].
  eapply perm_trans; [apply insert_desc_perm|now apply perm_skip].
Qed.

Lemma sql_le_total (a b : cell) : sql_le a b = true \/ sql_le b a = true.
Proof.
  destruct a as [|x], b as [|y]; simpl; auto. apply String.leb_total.
Qed.

Lemma insert_desc_sorted (key : list cell -> cell) (r : list cell) (l : list (list cell)) :
  Sorted (fun a b => sql_le (key b) (key a) = true) l ->
  Sorted (fun a b => sql_le (key b) (key a) = true) (insert_desc key r l).
Proof.
  induction 1 as [|r' l Hs IH Hd]; simpl; [repeat constructor|].
  destruct (sql_le (key r') (key r)) eqn:E.
  - constructor; [now constructor|now constructor].
  - constructor; [exact IH|].
    destruct l as [|r'' l]; simpl.
    + constructor. destruct (sql_le_total (key r) (key r')) as [T|T]; congruence.
    + destruct (sql_le (key r'') (key r)).
      * constructor. destruct (sql_le_total (key r) (key r')) as [T|T]; congruence.
      * constructor. now inversion Hd.
Qed.

Lemma order_by_desc_sorted (key : list cell -> cell) (l : list (list cell)) :
  Sorted (fun a b => sql_le (key b) (key a) = true) (order_by_desc key l).
Proof.
  induction l as [|r l IH]; simpl; [constructor|now apply insert_desc_sorted].
Qed.

Lemma has_column_index (t : table) (n : string) :
  has_column t n = true -> exists i, index_of n (names t) = Some i.
Proof. apply index_of_found. Qed.

Lemma cell_or_null_nth (cols : list string) (row : list cell) (n : string) (i : nat) :
  index_of n cols = Some i -> cell_or_null cols row n = nth i row Null.
Proof.
  intros H. unfold cell_or_null, cell_at. rewrite H. clear H.
  revert i. induction row as [|c row IH]; intros [|i]; simpl; auto.
Qed.

(** X3.  [list_projects] gives one summary for every row of the table, the
    five cells of the row under their column names, and a row that was
    updated later comes first; their number is what
    [get_project_count] returns. *)
Theorem list_projects_newest_first (db : database) :
  forallb (has_column (init_database db))
    ["project_id"; "project_name"; "created_at"; "updated_at"] = true ->
  exists sorted,
    Permutation sorted (rows (init_database db))
    /\ Sorted (not_newer (names (init_database db))) sorted
    /\ fst (list_projects db) = map (summary_of (names (init_database db))) sorted
    /\ length (fst (list_projects db)) = fst (get_project_count db).
Proof.
  intros H. cbn [forallb] in H. rewrite !andb_true_iff in H.
  destruct H as (Ha & Hb & Hd & He & _).
  assert (Hc : has_column (init_database db) "template_type" = true).
  { apply (init_database_has_required db (Column "template_type" (Text (Chars "Normal")))).
    now left. }
  apply has_column_index in Ha, Hb, Hc, Hd, He.
  destruct Ha as (a & Ha), Hb as (b & Hb), Hc as (c & Hc), Hd as (d & Hd), He as (e & He).
  set (t := init_database db) in *.
  exists (order_by_desc (fun r => nth e r Null) (rows t)).
  assert (L : fst (list_projects db)
              = map (summary_of (names t)) (order_by_desc (fun r => nth e r Null) (rows t))).
  { unfold list_projects, select_summaries. fold t. cbn [fst].
    rewrite Ha, Hb, Hc, Hd, He, map_map. apply map_ext. intros r.
    unfold summary_of, project_summary.
    rewrite (cell_or_null_nth _ r _ _ Ha), (cell_or_null_nth _ r _ _ Hb),
      (cell_or_null_nth _ r _ _ Hc), (cell_or_null_nth _ r _ _ Hd),
      (cell_or_null_nth _ r _ _ He). reflexivity. }
  split; [apply order_by_desc_perm|]. split; [|split; [exact L|]].
  - generalize (order_by_desc_sorted (fun r => nth e r Null) (rows t)).
    apply Sorted_ind; [constructor|]. intros r l Hs IH Hd'. constructor; [exact IH|].
    destruct Hd' as [|r' l Hr]; constructor. unfold not_newer.
    now rewrite !(cell_or_null_nth _ _ _ _ He).
  - rewrite L, length_map. unfold get_project_count. fold t. cbn [fst].
    apply Permutation_length, order_by_desc_perm.
Qed.

(** X4.  [list_projects] swallows the error of its query: on a table that
    lacks one of the columns it selects or orders by, the result is the
    empty list, as for a store without projects, however many rows
    [get_project_count] counts. *)
Theorem list_projects_hides_errors (db : database) (n : string) :
  In n ["project_id"; "project_name"; "created_at"; "updated_at"] ->
  has_column (init_database db) n = false ->
  list_projects db = ([], Some (init_database db)).
Proof.
  intros Hin H. apply index_of_absent in H.
  unfold list_projects, select_summaries. f_equal.
  destruct Hin as [<-|[<-|[<-|[<-|[]]]]]; rewrite H;
    repeat match goal with
           | |- context [match index_of ?x ?l with _ => _ end] =>
               destruct (index_of x l)
           end; reflexivity.
Qed.

(** ** What a save leaves in the store *)

Lemma find_app_one {A} (f : A -> bool) (l : list A) (x : A) :
  find f (l ++ [x])
  = match find f l with
    | Some y => Some y
    | None => if f x then Some x else None
    end.
Proof.
  induction l as [|y l IH]; simpl; [reflexivity|]. now destruct (f y).
Qed.

Lemma create_project_stores brd_project stamp now db id db' :
  create_project brd_project stamp now db = (Ok id, db') ->
  id = ("proj-" ++ stamp)%string
  /\ exists pid row,
       db' = Some (Table (columns (init_database db)) (rows (init_database db) ++ [row]))
       /\ index_of "project_id" (names (init_database db)) = Some pid
       /\ existsb (matches pid id) (rows (init_database db)) = false
       /\ nth_error row pid = Some (Text (Chars id))
       /\ (forall n v,
             assoc n (("project_id", Text (Chars id)) :: content_values brd_project now
                      ++ [("created_at", Text (Chars now))]) = Some v ->
             cell_at (names (init_database db)) row n = Some v).
Proof.
  unfold create_project. set (t := init_database db).
  set (values := _ :: _ ++ _).
  destruct (insert t values) as [t'|e] eqn:Hi; [|discriminate].
  intros [= <- <-]. split; [reflexivity|].
  unfold insert in Hi.
  destruct (forallb _ values) eqn:Hcols; simpl in Hi; [|discriminate].
  destruct (primary_key_taken t values) eqn:Hpk; [discriminate|].
  injection Hi as <-.
  assert (Hp : has_column t "project_id" = true).
  { exact (assoc_has_column t values "project_id" _ Hcols eq_refl). }
  destruct (index_of_found _ _ Hp) as (pid & Hpid).
  exists pid, (new_row (columns t) values).
  split; [reflexivity|]. split; [exact Hpid|]. split; [|split].
  - unfold primary_key_taken in Hpk. rewrite Hpid in Hpk. exact Hpk.
  - exact (nth_new_row (columns t) values "project_id" pid _ Hpid eq_refl).
  - intros n v Hv. now apply cell_at_inserted.
Qed.

(** X5.  A [create_project] that returns adds one row: the count grows by
    one, and the projects that were there are found as before. *)
Theorem create_project_adds_one_project brd_project stamp now db id db' other :
  create_project brd_project stamp now db = (Ok id, db') ->
  fst (get_project_count db') = S (fst (get_project_count db))
  /\ fst (get_project id db) = Ok None
  /\ (other <> id -> fst (get_project other db') = fst (get_project other db)).
Proof.
  intros H. destruct (create_project_stores _ _ _ _ _ _ H)
    as (_ & pid & row & -> & Hpid & Hnew & Hrow & _).
  split; [|split].
  - unfold get_project_count. cbn [fst]. rewrite init_database_same_columns.
    cbn [rows]. rewrite length_app. simpl. lia.
  - rewrite get_project_select. unfold select_by_id. rewrite Hpid. simpl.
    destruct (find (matches pid id) (rows (init_database db))) eqn:F; [|reflexivity].
    apply find_some in F. destruct F as [Hin Hm].
    assert (existsb (matches pid id) (rows (init_database db)) = true)
      by (apply existsb_exists; eauto).
    congruence.
  - intros Hne. rewrite !get_project_select, init_database_same_columns.
    unfold select_by_id, names. cbn [columns rows]. fold (names (init_database db)).
    rewrite Hpid, find_app_one.
    destruct (find (matches pid other) (rows (init_database db))); [reflexivity|].
    unfold matches. rewrite Hrow. simpl.
    destruct (String.eqb_spec id other); [congruence|reflexivity].
Qed.

(** X6.  Two [create_project] within one second of the clock: the id is made
    of the time to the second, so the second call raises
    [IntegrityError] and stores nothing. *)
Theorem create_project_twice_in_a_second brd_project another stamp now later db id db' :
  create_project brd_project stamp now db = (Ok id, db') ->
  create_project another stamp later db' = (Raise IntegrityError, db').
Proof.
  intros H. pose proof H as H0. unfold create_project in H0.
  destruct (create_project_stores _ _ _ _ _ _ H)
    as (-> & pid & row & -> & Hpid & Hnew & Hrow & _).
  unfold create_project. rewrite init_database_same_columns.
  set (t := init_database db) in *.
  unfold insert in *.
  match type of H0 with
  | context [forallb ?f ?l] => destruct (forallb f l) eqn:Hcols; [|discriminate]
  end.
  cbn [forallb app fst content_values] in Hcols |- *.
  unfold has_column, names in *. cbn [columns] in *. rewrite Hcols. cbn [negb].
  unfold primary_key_taken, names. cbn [columns rows assoc String.eqb Ascii.eqb Bool.eqb].
  rewrite Hpid. cbn [str].
  rewrite existsb_app. cbn [existsb]. unfold matches at 2. rewrite Hrow. cbn [str].
  now rewrite String.eqb_refl, orb_true_r.
Qed.

(** X7.  [update_project] neither adds nor removes a row, and touches no
    project but the one whose id the aggregate carries. *)
Theorem update_project_keeps_other_projects brd_project now db :
  fst (get_project_count (snd (update_project brd_project now db)))
  = fst (get_project_count db)
  /\ forall other,
       BRDProjectModel.project_id brd_project <> Some other ->
       fst (get_project other (snd (update_project brd_project now db)))
       = fst (get_project other db).
Proof.
  unfold update_project, update, get_project_count.
  set (t := init_database db).
  assert (Same : forall other,
            fst (get_project other (Some t)) = fst (get_project other db)).
  { intros other. rewrite !get_project_select. unfold t. now rewrite init_database_twice. }
  assert (Count : length (rows (init_database (Some t))) = length (rows t)).
  { unfold t. now rewrite init_database_twice. }
  destruct (negb (forallb _ (content_values brd_project now))); cbn [snd fst];
    [split; [exact Count|intros other _; apply Same]|].
  destruct (index_of "project_id" (names t)) as [pid|] eqn:Hpid; cbn [snd fst];
    [|split; [exact Count|intros other _; apply Same]].
  destruct (BRDProjectModel.project_id brd_project) as [id|]; cbn [snd fst];
    [|split; [exact Count|intros other _; apply Same]].
  unfold t. rewrite init_database_same_columns. fold t. split.
  - cbn [rows]. apply length_map.
  - intros other Hne. rewrite !get_project_select. unfold t.
    rewrite init_database_same_columns. fold t.
    unfold select_by_id, names. cbn [columns rows]. fold (names t). rewrite Hpid.
    rewrite find_map_same.
    + destruct (find (matches pid other) (rows t)) as [row|] eqn:F; [|reflexivity].
      cbn [option_map]. apply find_holds in F.
      destruct (matches pid id row) eqn:M; [|reflexivity].
      exfalso. apply Hne. f_equal. exact (matches_same_id pid id other row M F).
    + intros row. destruct (matches pid id row); [|reflexivity].
      now apply matches_assign.
Qed.

(** ** What a load returns *)

Lemma call_satisfies (m : model) (v : pyval) (r : record m) :
  model_ok m -> defaults_within (fields m) = true ->
  call m v = Ok r -> satisfies m r = true.
Proof.
  intros Hm Hd. unfold call. destruct v; try discriminate.
  destruct (construct m d) as [r'|errs] eqn:C; [|discriminate].
  intros [= <-]. exact (construct_satisfies m d r' Hm Hd C).
Qed.

Lemma comprehension_call_satisfies (m : model) (items : list pyval) (rs : list (record m)) :
  model_ok m -> defaults_within (fields m) = true ->
  comprehension (call m) items = Ok rs -> forallb (satisfies m) rs = true.
Proof.
  intros Hm Hd. revert rs. induction items as [|v items IH]; simpl; intros rs.
  - now intros [= <-].
  - destruct (call m v) as [r|] eqn:C; [|discriminate]. simpl.
    destruct (comprehension (call m) items) as [rs'|]; [|discriminate]. simpl.
    intros [= <-]. simpl. rewrite (call_satisfies m v r Hm Hd C). now apply IH.
Qed.

Lemma model_of_defaults_within (k : kind) : defaults_within (fields (model_of k)) = true.
Proof. destruct k; reflexivity. Qed.

Lemma load_collection_satisfies (k : kind) (cols : list string) (row : list cell) (n : string) :
  forallb (satisfies (model_of k)) (load_collection (model_of k) cols row n) = true.
Proof.
  unfold load_collection.
  destruct (index_of n cols) as [i|]; [|reflexivity].
  destruct (nth_error row i) as [c|]; [|reflexivity].
  destruct (truthy c); [|reflexivity].
  destruct (decode_records (model_of k) c) as [rs|] eqn:D; [|reflexivity].
  unfold decode_records in D.
  destruct (json_loads c) as [v|]; [|discriminate]. simpl in D.
  destruct (iterate v) as [items|]; [|discriminate]. simpl in D.
  exact (comprehension_call_satisfies _ items rs (model_of_ok k) (model_of_defaults_within k) D).
Qed.

Lemma rebuild_inv (cols : list string) (row : list cell) (p : BRDProjectModel.t) :
  rebuild cols row = Ok p ->
  satisfies OverviewModel (BRDProjectModel.overview p) = true
  /\ (forall k, collection k p = load_collection (model_of k) cols row (column_of k))
  /\ (forall x, nth_error row 0 = Some (Text x) -> BRDProjectModel.project_id p = Some (str x)).
Proof.
  unfold rebuild.
  destruct (item row (or_default (index_of "overview_json" cols) 3)) as [c|]; [|discriminate].
  simpl. destruct (json_loads c) as [v|]; [|discriminate]. simpl.
  destruct (call OverviewModel v) as [ov|] eqn:C; [|discriminate]. simpl.
  destruct (item row 0) as [c0|] eqn:I0; [|discriminate]. simpl.
  intros [= <-]. cbn [BRDProjectModel.overview BRDProjectModel.project_id].
  split; [|split].
  - exact (call_satisfies OverviewModel v ov OverviewModel_ok eq_refl C).
  - intros k. destruct k; reflexivity.
  - intros x Hx. unfold item in I0. destruct row as [|c1 row]; [discriminate|].
    simpl in Hx, I0. injection I0 as <-. injection Hx as ->. reflexivity.
Qed.

Lemma get_project_rebuilt (id : string) (db : database) (p : BRDProjectModel.t) :
  fst (get_project id db) = Ok (Some p) ->
  exists pid row,
    index_of "project_id" (names (init_database db)) = Some pid
    /\ find (matches pid id) (rows (init_database db)) = Some row
    /\ rebuild (names (init_database db)) row = Ok p.
Proof.
  rewrite get_project_select. unfold select_by_id.
  destruct (index_of "project_id" (names (init_database db))) as [pid|]; [|discriminate].
  simpl. destruct (find (matches pid id) (rows (init_database db))) as [row|] eqn:F;
    [|discriminate].
  destruct row as [|c row]; [discriminate|].
  destruct (rebuild (names (init_database db)) (c :: row)) as [p'|] eqn:R; [|discriminate].
  simpl. intros [= <-]. now exists pid, (c :: row).
Qed.

Lemma rebuild_content_ok (cols : list string) (row : list cell) (p : BRDProjectModel.t) :
  rebuild cols row = Ok p -> content_ok p.
Proof.
  intros R. destruct (rebuild_inv _ _ _ R) as (Ho & Hc & _). split; [exact Ho|].
  intros k. rewrite Hc. apply load_collection_satisfies.
Qed.

Lemma rebuild_project_id (cols : list string) (row : list cell) (p : BRDProjectModel.t)
    (id : string) :
  matches 0 id row = true -> rebuild cols row = Ok p ->
  BRDProjectModel.project_id p = Some id.
Proof.
  intros M R. destruct (rebuild_inv _ _ _ R) as (_ & _ & Hi).
  unfold matches in M. destruct row as [|[|x] row]; try discriminate.
  simpl in M. apply String.eqb_eq in M. rewrite (Hi x eq_refl). now f_equal.
Qed.

(** X8.  Whatever [get_project] returns satisfies the constraints of the
    classes: the overview and every record of every collection; and in a
    table whose first column is [project_id] it carries the id asked
    for. *)
Theorem get_project_returns_valid_content (id : string) (db : database) (p : BRDProjectModel.t) :
  fst (get_project id db) = Ok (Some p) ->
  content_ok p
  /\ (index_of "project_id" (names (init_database db)) = Some 0 ->
      BRDProjectModel.project_id p = Some id).
Proof.
  intros G. destruct (get_project_rebuilt id db p G) as (pid & row & Hpid & F & R).
  split.
  - exact (rebuild_content_ok _ _ _ R).
  - intros H0. rewrite H0 in Hpid. injection Hpid as <-.
    apply find_holds in F. exact (rebuild_project_id _ _ _ _ F R).
Qed.

Lemma comprehension_call_dumps_any (m : model) (rs : list (record m)) :
  model_ok m ->
  match comprehension (call m) (map (fun r => PDict (model_dump m r)) rs) with
  | Ok rs' => forallb (satisfies m) rs = true /\ rs' = rs
  | Raise _ => forallb (satisfies m) rs = false
  end.
Proof.
  intros Hm. induction rs as [|r rs IH]; simpl; [now split|].
  pose proof (is_valid_construct_model_dump m r Hm) as V.
  destruct (satisfies m r) eqn:S.
  - rewrite (construct_model_dump m r Hm S). simpl.
    destruct (comprehension _ _); simpl; [|exact IH].
    destruct IH as [-> ->]. now split.
  - destruct (construct m (model_dump m r)); [discriminate|reflexivity].
Qed.

Lemma load_collection_dumps_any (m : model) (cols : list string) (row : list cell)
    (n : string) (rs : list (record m)) :
  model_ok m ->
  cell_at cols row n = Some (json_dumps_all m rs) ->
  load_collection m cols row n = if forallb (satisfies m) rs then rs else [].
Proof.
  intros Hm Hc. rewrite (load_collection_at m cols row n _ Hc).
  unfold json_dumps_all, decode_records. simpl.
  pose proof (comprehension_call_dumps_any m rs Hm) as H.
  destruct (comprehension _ _).
  - destruct H as [-> ->]. reflexivity.
  - now rewrite H.
Qed.

(** X9.  Saving and loading, collection by collection: a collection whose
    records all satisfy their constraints is read back as it was, and a
    collection that holds one record that does not is read back empty;
    the others are not affected. *)
Theorem create_project_then_get_project_by_collection brd_project stamp now db id db' :
  create_project brd_project stamp now db = (Ok id, db') ->
  satisfies OverviewModel (BRDProjectModel.overview brd_project) = true ->
  exists p',
    get_project id db' = (Ok (Some p'), db')
    /\ BRDProjectModel.overview p' = BRDProjectModel.overview brd_project
    /\ forall k,
         collection k p'
         = if forallb (satisfies (model_of k)) (collection k brd_project)
           then collection k brd_project else [].
Proof.
  intros H Hov.
  destruct (create_project_stores _ _ _ _ _ _ H)
    as (-> & pid & row & -> & Hpid & Hnew & Hrow & Hcells).
  set (t := init_database db) in *.
  destruct (rebuild_ok (names t) row _ _ (Hcells "overview_json" _ eq_refl)
              (decode_overview_dump _ Hov)) as (p' & E & Eo & Ec & _).
  exists p'. split; [|split; [exact Eo|]].
  - rewrite (get_project_found_pair _ _ row); unfold t;
      rewrite init_database_same_columns; fold t.
    + change (names (Table (columns t) (rows t ++ [row]))) with (names t). now rewrite E.
    + unfold select_by_id. change (names (Table (columns t) (rows t ++ [row]))) with (names t).
      rewrite Hpid. cbn [rows]. f_equal. apply find_app_last; [exact Hnew|].
      unfold matches. rewrite Hrow. simpl. apply String.eqb_refl.
  - intros k. rewrite Ec. apply load_collection_dumps_any; [apply model_of_ok|].
    apply Hcells. destruct k; reflexivity.
Qed.

(** ** The migration *)

Lemma fold_migrate_filter (existing : list string) (cs : list column) (t : table) :
  distinct (map col_name cs) = true ->
  (forall c, In c cs ->
     has_column t (col_name c) = existsb (String.eqb (col_name c)) existing) ->
  fold_left (migrate_step existing) cs t
  = Table (columns t
           ++ filter (fun c => negb (existsb (String.eqb (col_name c)) existing)) cs)
      (map (fun r => r ++ map col_default
                           (filter (fun c => negb (existsb (String.eqb (col_name c)) existing)) cs))
           (rows t)).
Proof.
  revert t. induction cs as [|c cs IH]; intros t Hd Hc.
  - simpl. rewrite app_nil_r. destruct t as [cols rws]. simpl. f_equal.
    rewrite <- (map_id rws) at 1. apply map_ext. intros r. now rewrite app_nil_r.
  - simpl in Hd. apply andb_true_iff in Hd. destruct Hd as [Hn Hd].
    apply negb_true_iff in Hn. cbn [fold_left filter].
    destruct (existsb (String.eqb (col_name c)) existing) eqn:E; cbn [negb].
    + assert (M : migrate_step existing t c = t) by (unfold migrate_step; now rewrite E).
      rewrite M. apply IH; [exact Hd|]. intros c' Hc'. apply Hc. now right.
    + rewrite (migrate_step_adds existing t c E).
      2:{ rewrite (Hc c); [exact E|now left]. }
      rewrite IH; [|exact Hd|].
      * cbn [columns rows]. rewrite <- app_assoc. cbn [app]. f_equal.
        rewrite map_map. apply map_ext. intros r. now rewrite <- app_assoc.
      * intros c' Hc'. rewrite has_column_add, (Hc c') by now right.
        destruct (String.eqb_spec (col_name c') (col_name c)) as [Q|Q];
          [|apply orb_false_r].
        exfalso. assert (X : existsb (String.eqb (col_name c)) (map col_name cs) = true).
        { apply existsb_exists. exists (col_name c'). split; [now apply in_map|].
          rewrite Q. apply String.eqb_refl. }
        congruence.
Qed.

(** X11.  [init_database] on a table that exists only appends: the columns of
    the migration that the table lacks are added after its own, in the
    order of the dict, every row is extended by their defaults, and no
    cell that was there is changed. *)
Theorem init_database_only_appends (t : table) :
  init_database (Some t)
  = Table (columns t ++ missing_columns t)
      (map (fun r => r ++ map col_default (missing_columns t)) (rows t))
  /\ forall r n c,
       cell_at (names t) r n = Some c ->
       cell_at (names (init_database (Some t)))
         (r ++ map col_default (missing_columns t)) n = Some c.
Proof.
  assert (E : init_database (Some t)
              = Table (columns t ++ missing_columns t)
                  (map (fun r => r ++ map col_default (missing_columns t)) (rows t))).
  { rewrite init_database_some. apply fold_migrate_filter; reflexivity. }
  split; [exact E|]. intros r n c H. rewrite E. unfold names. cbn [columns].
  rewrite map_app. now apply cell_at_kept.
Qed.

(** ** Loading, then saving *)

(** X10.  A project that was loaded and is saved as it is reads back the
    same.  The save writes every block from what was loaded: the block of
    a collection that did not decode, and was loaded empty, is replaced
    by the empty list. *)
Theorem get_project_then_update_project (id : string) (db : database)
    (p : BRDProjectModel.t) (now : string) (db' : database) :
  index_of "project_id" (names (init_database db)) = Some 0 ->
  rows_aligned (init_database db) ->
  fst (get_project id db) = Ok (Some p) ->
  update_project p now db = (Ok true, db') ->
  exists row' p',
    select_by_id (init_database db') id = Ok (Some row')
    /\ (forall k, cell_at (names (init_database db)) row' (column_of k)
                  = Some (json_dumps_all (model_of k) (collection k p)))
    /\ get_project id db' = (Ok (Some p'), db')
    /\ BRDProjectModel.overview p' = BRDProjectModel.overview p
    /\ (forall k, collection k p' = collection k p).
Proof.
  intros Hpid Hal Hg Hu.
  destruct (get_project_rebuilt id db p Hg) as (pid & row0 & Hpid0 & F0 & R0).
  pose proof (rebuild_content_ok _ _ _ R0) as OK.
  rewrite Hpid in Hpid0. injection Hpid0 as <-.
  pose proof (rebuild_project_id _ _ _ _ (find_holds _ _ _ F0) R0) as Hid.
  assert (Hsel : exists row, select_by_id (init_database db) id = Ok (Some row)).
  { rewrite get_project_select in Hg.
    destruct (select_by_id (init_database db) id) as [[row|]|]; try discriminate.
    now exists row. }
  destruct Hsel as (row & Hsel).
  assert (Hlen : length row = length (columns (init_database db))).
  { unfold select_by_id in Hsel. rewrite Hpid in Hsel. injection Hsel as F.
    apply find_some in F. destruct F as [Hin _].
    unfold rows_aligned in Hal. rewrite Forall_forall in Hal. now apply Hal. }
  destruct (update_project_then_get p now db id row db' Hid Hsel Hlen Hu OK)
    as (row' & p' & S' & Hset & _ & G & Ho & Hc & _).
  exists row', p'. split; [exact S'|]. split; [|split; [exact G|split; [exact Ho|exact Hc]]].
  intros k. apply Hset. destruct k; reflexivity.
Qed.

(** ** Export and import of the data of a project *)

Lemma imported_of_dumps (project_id : pyval) (p : BRDProjectModel.t) :
  content_ok p ->
  imported
    [ ("project_id", project_id);
      ("template_type", PStr (BRDProjectModel.template_type p));
      ("overview", PDict (model_dump OverviewModel (BRDProjectModel.overview p)));
      ("ui_specifications",
       dump_all UISpecificationModel (BRDProjectModel.ui_specifications p));
      ("api_specifications",
       dump_all APISpecificationModel (BRDProjectModel.api_specifications p));
      ("llm_prompts", dump_all LLMPromptModel (BRDProjectModel.llm_prompts p));
      ("database_schema",
       dump_all DatabaseSchemaModel (BRDProjectModel.database_schema p));
      ("tech_stack", dump_all TechStackModel (BRDProjectModel.tech_stack p));
      ("traceability_matrix",
       dump_all TraceabilityModel (BRDProjectModel.traceability_matrix p));
      ("agent_architectures",
       dump_all AgentArchitectureModel (BRDProjectModel.agent_architectures p));
      ("agent_configurations",
       dump_all AgentConfigurationModel (BRDProjectModel.agent_configurations p));
      ("agent_tasks", dump_all AgentTaskModel (BRDProjectModel.agent_tasks p)) ]
  = inl (BRDProjectModel.mk None
           (BRDProjectModel.template_type p)
           (BRDProjectModel.overview p)
           (BRDProjectModel.ui_specifications p)
           (BRDProjectModel.api_specifications p)
           (BRDProjectModel.llm_prompts p)
           (BRDProjectModel.database_schema p)
           (BRDProjectModel.tech_stack p)
           (BRDProjectModel.traceability_matrix p)
           (BRDProjectModel.agent_architectures p)
           (BRDProjectModel.agent_configurations p)
           (BRDProjectModel.agent_tasks p)).
Proof.
  intros [Hov Hk].
  pose proof (Hk ui_specs) as H1. pose proof (Hk api_specs) as H2.
  pose proof (Hk llm_prompts) as H3. pose proof (Hk db_schema) as H4.
  pose proof (Hk tech_stack) as H5. pose proof (Hk traceability) as H6.
  pose proof (Hk agent_architectures) as H7. pose proof (Hk agent_configurations) as H8.
  pose proof (Hk agent_tasks) as H9.
  cbn [collection model_of] in H1, H2, H3, H4, H5, H6, H7, H8, H9.
  unfold imported, records_at, dump_all.
  cbn [get String.eqb Ascii.eqb Bool.eqb iterate bind].
  unfold call at 1.
  rewrite (construct_model_dump OverviewModel _ OverviewModel_ok Hov). cbn [bind].
  rewrite (comprehension_call_dumps UISpecificationModel _ (model_of_ok ui_specs) H1). cbn [bind].
  rewrite (comprehension_call_dumps APISpecificationModel _ (model_of_ok api_specs) H2). cbn [bind].
  rewrite (comprehension_call_dumps LLMPromptModel _ (model_of_ok llm_prompts) H3). cbn [bind].
  rewrite (comprehension_call_dumps DatabaseSchemaModel _ (model_of_ok db_schema) H4). cbn [bind].
  rewrite (comprehension_call_dumps TechStackModel _ (model_of_ok tech_stack) H5). cbn [bind].
  rewrite (comprehension_call_dumps TraceabilityModel _ (model_of_ok traceability) H6). cbn [bind].
  rewrite (comprehension_call_dumps AgentArchitectureModel _ (model_of_ok agent_architectures) H7). cbn [bind].
  rewrite (comprehension_call_dumps AgentConfigurationModel _ (model_of_ok agent_configurations) H8). cbn [bind].
  rewrite (comprehension_call_dumps AgentTaskModel _ (model_of_ok agent_tasks) H9). cbn [bind].
  reflexivity.
Qed.

(** X12.  What [export_project_data] returns for a project, [import_project_data]
    accepts, and stores as a new project with the same overview, the
    same records in every collection and the same template type. *)
Theorem export_project_data_then_import (id : string) (db : database) (data : dict) :
  fst (export_project_data id db) = Ok (Some data) ->
  exists p,
    fst (get_project id db) = Ok (Some p)
    /\ (exists q, imported data = inl q)
    /\ forall stamp now store new_id store',
         import_project_data data stamp now store = (inl new_id, store') ->
         exists p',
           get_project new_id store' = (Ok (Some p'), store')
           /\ BRDProjectModel.overview p' = BRDProjectModel.overview p
           /\ (forall k, collection k p' = collection k p)
           /\ BRDProjectModel.template_type p'
              = template_type_read (BRDProjectModel.template_type p).
Proof.
  unfold export_project_data.
  destruct (get_project id db) as [[[p|]|e] db1] eqn:G; cbn [fst]; try discriminate.
  intros [= <-]. exists p. split; [reflexivity|].
  assert (OK : content_ok p).
  { destruct (get_project_rebuilt id db p) as (pid & row & _ & _ & R);
      [now rewrite G|exact (rebuild_content_ok _ _ _ R)]. }
  pose proof (imported_of_dumps
                match BRDProjectModel.project_id p with Some i => PStr i | None => PNone end
                p OK) as I.
  split; [eexists; exact I|].
  intros stamp now store new_id store'. unfold import_project_data. rewrite I.
  destruct (create_project _ stamp now store) as [[i|e] s] eqn:C; [|discriminate].
  intros [= <- <-].
  destruct (create_project_then_get _ _ _ _ _ _ C) as (_ & p' & Hg & Ho & Hc & Ht).
  - destruct OK as [Hov Hk]. split; [exact Hov|]. intros k. specialize (Hk k).
    destruct k; exact Hk.
  - exists p'. split; [exact Hg|]. split; [exact Ho|]. split; [|exact Ht].
    intros k. rewrite Hc. destruct k; reflexivity.
Qed.

Lemma imported_inv (data : dict) (q : BRDProjectModel.t) :
  imported data = inl q ->
  (exists o, get data "overview" = Some o
             /\ call OverviewModel o = Ok (BRDProjectModel.overview q))
  /\ forall k, records_at (model_of k) data (attribute_of k) = Ok (collection k q).
Proof.
  unfold imported. destruct (get data "overview") as [o|]; [|discriminate].
  destruct (call OverviewModel o) as [ov|] eqn:C; cbn [bind]; [|discriminate].
  destruct (records_at UISpecificationModel data "ui_specifications") as [r1|] eqn:R1;
    cbn [bind]; [|discriminate].
  destruct (records_at APISpecificationModel data "api_specifications") as [r2|] eqn:R2;
    cbn [bind]; [|discriminate].
  destruct (records_at LLMPromptModel data "llm_prompts") as [r3|] eqn:R3;
    cbn [bind]; [|discriminate].
  destruct (records_at DatabaseSchemaModel data "database_schema") as [r4|] eqn:R4;
    cbn [bind]; [|discriminate].
  destruct (records_at TechStackModel data "tech_stack") as [r5|] eqn:R5;
    cbn [bind]; [|discriminate].
  destruct (records_at TraceabilityModel data "traceability_matrix") as [r6|] eqn:R6;
    cbn [bind]; [|discriminate].
  destruct (records_at AgentArchitectureModel data "agent_architectures") as [r7|] eqn:R7;
    cbn [bind]; [|discriminate].
  destruct (records_at AgentConfigurationModel data "agent_configurations") as [r8|] eqn:R8;
    cbn [bind]; [|discriminate].
  destruct (records_at AgentTaskModel data "agent_tasks") as [r9|] eqn:R9;
    cbn [bind]; [|discriminate].
  destruct (match get data "template_type" with
            | Some (PStr s) => Ok s
            | Some _ => Raise (ValidationError [Error "template_type" string_type])
            | None => Ok "Normal"
            end) as [tt|]; cbn [bind]; [|discriminate].
  intros [= <-]. split; [now exists o|]. intros k. destruct k; assumption.
Qed.

(** X13.  [import_project_data] stores all or nothing: without an overview it
    raises [KeyError]; when the overview is refused by its class it
    raises what the class raised; and when one collection is not
    iterable, or holds one item that its class refuses, the import
    raises as well.  In each case the store is left as it was, where
    [get_project] drops such a collection and goes on. *)
Theorem import_project_data_stores_all_or_nothing (data : dict) (stamp now : string)
    (db : database) :
  (get data "overview" = None ->
   import_project_data data stamp now db = (inr (KeyError "overview"), db))
  /\ (forall o e,
        get data "overview" = Some o -> call OverviewModel o = Raise e ->
        import_project_data data stamp now db = (inr (Raised e), db))
  /\ (forall k e,
        records_at (model_of k) data (attribute_of k) = Raise e ->
        exists e', import_project_data data stamp now db = (inr e', db)).
Proof.
  split; [|split].
  - intros H. unfold import_project_data, imported. now rewrite H.
  - intros o e H C. unfold import_project_data, imported. now rewrite H, C.
  - intros k e H. unfold import_project_data.
    destruct (imported data) as [q|e'] eqn:I; [|now exists e'].
    destruct (imported_inv data q I) as [_ Hk]. specialize (Hk k). congruence.
Qed.

(** ** More on the workbook *)

Lemma export_to_excel_content (p q : BRDProjectModel.t) (now stamp : string) :
  BRDProjectModel.overview p = BRDProjectModel.overview q ->
  (forall k, collection k p = collection k q) ->
  export_to_excel p now stamp = export_to_excel q now stamp.
Proof.
  intros Ho Hk.
  pose proof (Hk ui_specs) as H1. pose proof (Hk api_specs) as H2.
  pose proof (Hk llm_prompts) as H3. pose proof (Hk db_schema) as H4.
  pose proof (Hk tech_stack) as H5. pose proof (Hk traceability) as H6.
  pose proof (Hk agent_architectures) as H7. pose proof (Hk agent_configurations) as H8.
  pose proof (Hk agent_tasks) as H9.
  cbn [collection model_of] in H1, H2, H3, H4, H5, H6, H7, H8, H9.
  unfold export_to_excel, create_overview_sheet, create_ui_spec_sheet, create_api_spec_sheet,
    create_llm_prompt_sheet, create_database_schema_sheet, create_tech_stack_sheet,
    create_traceability_sheet, create_agent_architecture_sheet,
    create_agent_configuration_sheet, create_agent_task_sheet.
  now rewrite Ho, H1, H2, H3, H4, H5, H6, H7, H8, H9.
Qed.

(** X14.  The workbook of a project that was saved and loaded again is the
    workbook of the project as it was saved, and is written under the
    same file name. *)
Theorem export_to_excel_after_reload brd_project saved_stamp saved_now db id db' :
  create_project brd_project saved_stamp saved_now db = (Ok id, db') ->
  content_ok brd_project ->
  exists p',
    get_project id db' = (Ok (Some p'), db')
    /\ forall now stamp, export_to_excel p' now stamp = export_to_excel brd_project now stamp.
Proof.
  intros H OK.
  destruct (create_project_then_get _ _ _ _ _ _ H OK) as (_ & p' & Hg & Ho & Hc & _).
  exists p'. split; [exact Hg|]. intros now stamp. now apply export_to_excel_content.
Qed.

Lemma Forall_map_length {A} (f : A -> list value) (n : nat) (l : list A) :
  (forall x, length (f x) = n) -> Forall (fun row => length row = n) (map f l).
Proof. intros H. induction l; simpl; constructor; auto. Qed.

(** X15.  Every sheet of the workbook is a table: a header row, and under it
    rows that have as many cells as the header. *)
Theorem export_to_excel_sheets_are_tables brd_project now stamp :
  Forall (fun s => exists header data,
                     cells s = header :: data
                     /\ Forall (fun row => length row = length header) data)
         (snd (export_to_excel brd_project now stamp)).
Proof.
  unfold export_to_excel, create_overview_sheet, create_ui_spec_sheet, create_api_spec_sheet,
    create_llm_prompt_sheet, create_database_schema_sheet, create_tech_stack_sheet,
    create_traceability_sheet, create_agent_architecture_sheet,
    create_agent_configuration_sheet, create_agent_task_sheet, create_sheet.
  cbn [snd list_insert].
  destruct (BRDProjectModel.agent_architectures brd_project) as [|a1 l1];
    destruct (BRDProjectModel.agent_configurations brd_project) as [|a2 l2];
    destruct (BRDProjectModel.agent_tasks brd_project) as [|a3 l3];
    cbn [list_insert];
    repeat (apply Forall_cons || apply Forall_nil);
    (eexists; eexists; split; [reflexivity|]);
    try (apply Forall_map_length; intros; reflexivity);
    repeat (apply Forall_cons; [reflexivity|]);
    try apply Forall_nil;
    try (apply Forall_map_length; intros; reflexivity).
Qed.


(** ** More on the gateway *)

Lemma iter_lines_app (type_error_message : pyval -> string)
    (before after : list text) (broken : option failure) :
  iter_lines type_error_message (before ++ after) broken
  = match iter_lines type_error_message before None with
    | (ys, Some e) => (ys, Some e)
    | (ys, None) =>
        let (zs, e) := iter_lines type_error_message after broken in (ys ++ zs, e)
    end.
Proof.
  induction before as [|line before IH]; simpl.
  - now destruct (iter_lines type_error_message after broken).
  - destruct (on_line type_error_message line); [exact IH| |reflexivity].
    rewrite IH. destruct (iter_lines type_error_message before None) as [ys [e|]];
      [reflexivity|].
    now destruct (iter_lines type_error_message after broken).
Qed.


(** X18.  A line that is JSON but neither an object, a list nor a string (a
    number, [true], [null]) ends the stream: the chunks read so far are
    followed by the text of the [TypeError], and the lines after it are
    not read. *)
Theorem stream_ollama_response_ends_at_a_scalar_line (type_error_message : pyval -> string)
    (vs : list pyval) (line : text) (v : pyval) (after : list text)
    (broken : option failure) :
  truthy (Text line) = true ->
  json_loads (Text line) = Ok v ->
  match v with PNone | PBool _ | PInt _ | PFloat _ => True | _ => False end ->
  respond type_error_message
    (Replied None (map (fun v => Dumped (PDict [("response", v)])) vs ++ line :: after) broken)
  = vs ++ [PStr ("Error: " ++ type_error_message v)].
Proof.
  intros T L V. unfold respond. rewrite iter_lines_app, iter_lines_responses.
  cbn [iter_lines]. unfold on_line. rewrite T, L.
  destruct v; try destruct V; now rewrite app_nil_r.
Qed.

Lemma iter_lines_yields (type_error_message : pyval -> string)
    (lines : list text) (broken : option failure) :
  Forall (fun y => exists line d,
            In line lines /\ json_loads (Text line) = Ok (PDict d)
            /\ get d "response" = Some y)
         (fst (iter_lines type_error_message lines broken)).
Proof.
  induction lines as [|line lines IH]; simpl; [constructor|].
  assert (IH' : Forall (fun y => exists l d,
                          (line = l \/ In l lines) /\ json_loads (Text l) = Ok (PDict d)
                          /\ get d "response" = Some y)
                       (fst (iter_lines type_error_message lines broken))).
  { eapply Forall_impl; [|exact IH]. intros y (l & d & Hl & Hd). exists l, d.
    split; [now right|exact Hd]. }
  destruct (on_line type_error_message line) as [|v|e] eqn:O; [exact IH'| |constructor].
  destruct (iter_lines type_error_message lines broken) as [ys e]. simpl in *.
  constructor; [|exact IH'].
  unfold on_line in O. destruct (truthy (Text line)); [|discriminate].
  destruct (json_loads (Text line)) as [data|] eqn:J; [|discriminate].
  destruct data; try discriminate.
  - destruct (String.index 0 "response" s); discriminate.
  - destruct (existsb is_response l); discriminate.
  - destruct (get d "response") as [w|] eqn:G; [|discriminate].
    injection O as <-. exists line, d. split; [now left|now split].
Qed.

(** X19.  The stream of a call is made of values found under "response" in
    lines that are JSON objects, followed by at most one text of an
    error; when the POST fails, or on a status that [raise_for_status]
    refuses, no line is read and the stream is the text of the error. *)
Theorem stream_ollama_response_shape (type_error_message : pyval -> string) (r : reply) :
  exists ys tail,
    respond type_error_message r = ys ++ tail
    /\ (tail = [] \/ exists e, tail = [PStr (error_text e)])
    /\ match r with
       | Failed e => ys = [] /\ tail = [PStr (error_text e)]
       | Replied (Some message) _ _ =>
           ys = [] /\ tail = [PStr (error_text (OtherException message))]
       | Replied None lines _ =>
           Forall (fun y => exists line d,
                     In line lines /\ json_loads (Text line) = Ok (PDict d)
                     /\ get d "response" = Some y) ys
       end.
Proof.
  unfold respond. destruct r as [e|[message|] lines broken].
  - exists [], [PStr (error_text e)].
    split; [reflexivity|]. split; [right; now exists e|now split].
  - exists [], [PStr (error_text (OtherException message))].
    split; [reflexivity|]. split; [right; now eexists|now split].
  - pose proof (iter_lines_yields type_error_message lines broken) as Y.
    destruct (iter_lines type_error_message lines broken) as [ys [e|]]; cbn [fst] in Y.
    + exists ys, [PStr (error_text e)].
      split; [reflexivity|]. split; [right; now exists e|exact Y].
    + exists ys, []. split; [reflexivity|]. split; [now left|exact Y].
Qed.

(** ** The forms of [app.py] *)

Lemma rstrip_idempotent (s : string) : rstrip (rstrip s) = rstrip s.
Proof.
  induction s as [|a s IH]; [reflexivity|]. simpl.
  destruct (rstrip s) as [|b r] eqn:E.
  - destruct (isspace a) eqn:A; [reflexivity|]. simpl. now rewrite A.
  - simpl. simpl in IH. now rewrite IH.
Qed.

Lemma lstrip_head (s : string) :
  lstrip s = "" \/ exists a r, lstrip s = String a r /\ isspace a = false.
Proof.
  induction s as [|a s IH]; simpl; [now left|].
  destruct (isspace a) eqn:A; [exact IH|]. right. now exists a, s.
Qed.

Lemma rstrip_head (a : ascii) (s : string) :
  isspace a = false -> exists r, rstrip (String a s) = String a r.
Proof.
  intros A. simpl. destruct (rstrip s); [rewrite A|]; eauto.
Qed.

Lemma strip_idempotent (s : string) : strip (strip s) = strip s.
Proof.
  unfold strip. destruct (lstrip_head s) as [E|(a & r & E & A)]; rewrite E; [reflexivity|].
  destruct (rstrip_head a r A) as (r' & R). rewrite R at 1. simpl lstrip. rewrite A.
  rewrite <- R. apply rstrip_idempotent.
Qed.

Lemma lstrip_blank (s : string) :
  lstrip s = "" <-> forallb isspace (list_ascii_of_string s) = true.
Proof.
  induction s as [|a s IH]; simpl; [split; reflexivity|].
  destruct (isspace a); simpl; [exact IH|]. split; discriminate.
Qed.

Lemma strip_blank (s : string) :
  strip s = "" <-> forallb isspace (list_ascii_of_string s) = true.
Proof.
  rewrite <- lstrip_blank. unfold strip.
  destruct (lstrip_head s) as [E|(a & r & E & A)]; rewrite E; [split; reflexivity|].
  destruct (rstrip_head a r A) as (r' & R). rewrite R. split; discriminate.
Qed.

(** X20.  [validate_required_field] raises [ValueError], with the name of the
    field in the message, exactly for a value that is empty or all white
    space; every other value is returned stripped, which leaves it
    non-empty and without white space at either end. *)
Theorem validate_required_field_strips (value field_name : string) :
  (forallb isspace (list_ascii_of_string value) = true ->
   validate_required_field value field_name
   = inr (ValueError (field_name ++ " is required")))
  /\ (forallb isspace (list_ascii_of_string value) = false ->
      validate_required_field value field_name = inl (strip value)
      /\ strip value <> ""
      /\ strip (strip value) = strip value).
Proof.
  unfold validate_required_field. split; intros H.
  - apply strip_blank in H. rewrite H. now rewrite orb_true_r.
  - assert (N : strip value <> "").
    { intros E. apply strip_blank in E. congruence. }
    split; [|split; [exact N|apply strip_idempotent]].
    destruct (String.eqb_spec value "") as [->|_]; [now elim N|].
    destruct (String.eqb_spec (strip value) ""); [contradiction|reflexivity].
Qed.

Lemma validate_required_field_inl (value field_name s : string) :
  validate_required_field value field_name = inl s ->
  s = strip value /\ s <> "".
Proof.
  unfold validate_required_field.
  destruct (String.eqb value ""); [discriminate|].
  destruct (String.eqb_spec (strip value) ""); [discriminate|].
  simpl. intros [= <-]. now split.
Qed.

Lemma fmap_valid_inv {A B} (f : A -> B) (v : validation A) (r : B) :
  fmap f v = Valid r -> exists t, v = Valid t /\ r = f t.
Proof. destruct v; [|discriminate]. intros [= <-]. eauto. Qed.

Lemma both_valid_inv {A B} (a : validation A) (b : validation B) (x : A) (y : B) :
  both a b = Valid (x, y) -> a = Valid x /\ b = Valid y.
Proof. destruct a, b; try discriminate. now intros [= <- <-]. Qed.

Lemma validate_field_str (kw : dict) (n : string) (lo : nat) (hi : option nat)
    (d : option string) (s x : string) :
  get kw n = Some (PStr s) ->
  validate_field kw (Field n (Str lo hi) d) = Valid x -> x = s.
Proof.
  unfold validate_field. cbn [name ty]. intros ->. cbn [validate_value validate_str].
  destruct (Nat.ltb (String.length s) lo); [discriminate|].
  destruct hi as [h|]; [destruct (Nat.ltb h (String.length s)); [discriminate|]|];
    now intros [= <-].
Qed.

Lemma validate_field_optstr (kw : dict) (n : string) (d : option (option string))
    (o x : option string) :
  get kw n = Some (match o with Some s => PStr s | None => PNone end) ->
  validate_field kw (Field n OptStr d) = Valid x -> x = o.
Proof.
  unfold validate_field. cbn [name ty]. intros ->. destruct o; now intros [= <-].
Qed.

(** X21.  The Create Project button, when it shows an id: the project is in
    the store under that id, with the texts of the form stripped, the
    defaults in place of what was left empty, no record in any
    collection, and the template type chosen. *)
Theorem show_create_project_then_get_project
    template_type project_name project_description business_goal
    document_version prepared_by approved_by target_release_date stamp now db id db' :
  show_create_project template_type project_name project_description business_goal
    document_version prepared_by approved_by target_release_date stamp now db
  = (inl id, db') ->
  exists p,
    get_project id db' = (Ok (Some p), db')
    /\ BRDProjectModel.overview p
       = OverviewModel.mk (strip project_name) (strip project_description)
           (strip business_goal) (strip_or document_version "1.0")
           (strip_or prepared_by "Local AI") (strip_or approved_by "")
           target_release_date
    /\ (forall k, collection k p = [])
    /\ BRDProjectModel.template_type p = template_type_read template_type.
Proof.
  unfold show_create_project.
  destruct (validate_required_field project_name _) as [n|] eqn:V1; [|discriminate].
  destruct (validate_required_field project_description _) as [d|] eqn:V2; [|discriminate].
  destruct (validate_required_field business_goal _) as [g|] eqn:V3; [|discriminate].
  apply validate_required_field_inl in V1, V2, V3.
  destruct V1 as [-> _], V2 as [-> _], V3 as [-> _].
  match goal with |- context [construct OverviewModel ?kw] =>
    set (kwargs := kw); destruct (construct OverviewModel kwargs) as [ov|] eqn:C
  end; [|discriminate].
  match goal with |- context [create_project ?q stamp now db] =>
    set (brd_project := q);
    destruct (create_project brd_project stamp now db) as [[i|] s] eqn:Cr
  end; [|discriminate].
  intros [= <- <-].
  assert (OK : content_ok brd_project).
  { split; [|intros k; destruct k; reflexivity].
    exact (construct_satisfies OverviewModel kwargs ov OverviewModel_ok eq_refl C). }
  destruct (create_project_then_get _ _ _ _ _ _ Cr OK) as (_ & p & Hg & Ho & Hc & Ht).
  exists p. split; [exact Hg|]. split; [|split; [|exact Ht]].
  - rewrite Ho. cbn [brd_project BRDProjectModel.overview].
    unfold construct in C. apply fmap_valid_inv in C. destruct C as (t & Hv & ->).
    cbn [fields OverviewModel OverviewModel_fields validate] in Hv.
    destruct t as (x0 & x1 & x2 & x3 & x4 & x5 & x6 & []).
    apply both_valid_inv in Hv. destruct Hv as [H0 Hv].
    apply both_valid_inv in Hv. destruct Hv as [H1 Hv].
    apply both_valid_inv in Hv. destruct Hv as [H2 Hv].
    apply both_valid_inv in Hv. destruct Hv as [H3 Hv].
    apply both_valid_inv in Hv. destruct Hv as [H4 Hv].
    apply both_valid_inv in Hv. destruct Hv as [H5 Hv].
    apply both_valid_inv in Hv. destruct Hv as [H6 _].
    unfold required_field, default_field in H0, H1, H2, H3, H4, H5, H6.
    apply (validate_field_str kwargs "project_name" _ _ _ (strip project_name) _ eq_refl) in H0.
    apply (validate_field_str kwargs "project_description" _ _ _
             (strip project_description) _ eq_refl) in H1.
    apply (validate_field_str kwargs "business_goal" _ _ _ (strip business_goal) _ eq_refl) in H2.
    apply (validate_field_str kwargs "document_version" _ _ _
             (strip_or document_version "1.0") _ eq_refl) in H3.
    apply (validate_field_str kwargs "prepared_by" _ _ _
             (strip_or prepared_by "Local AI") _ eq_refl) in H4.
    apply (validate_field_str kwargs "approved_by" _ _ _ (strip_or approved_by "") _ eq_refl) in H5.
    apply (validate_field_optstr kwargs "target_release_date" _ target_release_date _ eq_refl) in H6.
    now subst.
  - intros k. rewrite Hc. destruct k; reflexivity.
Qed.

Lemma errors_construct_loc (m : model) (kw : dict) (errs : list error) (f : field) :
  construct m kw = Invalid errs ->
  In f (fields m) -> violated kw f = true -> In (name f) (map loc errs).
Proof.
  intros C Hf Hv.
  assert (E : errs = errors (validate (fields m) kw)).
  { unfold construct in C. destruct (validate (fields m) kw); [discriminate|].
    simpl in C. now injection C as <-. }
  rewrite E, loc_errors_validate. apply in_map, filter_In. now split.
Qed.

Lemma violated_short (kw : dict) (n : string) (lo : nat) (hi : option nat)
    (d : option string) (s : string) :
  get kw n = Some (PStr s) -> String.length s < lo ->
  violated kw (Field n (Str lo hi) d) = true.
Proof.
  intros G L. unfold violated, validate_field. cbn [name ty]. rewrite G.
  cbn [validate_value validate_str].
  apply Nat.ltb_lt in L. now rewrite L.
Qed.

(** X22.  The Create Project button, when it shows an error: a required text
    that is empty or all white space is named in a [ValueError], the
    first of them in the order name, description, goal; a description
    shorter than ten characters passes that check and is refused by the
    class.  In each case nothing is stored. *)
Theorem show_create_project_refuses
    template_type project_name project_description business_goal
    document_version prepared_by approved_by target_release_date stamp now db :
  (strip project_name = "" ->
   show_create_project template_type project_name project_description business_goal
     document_version prepared_by approved_by target_release_date stamp now db
   = (inr (ValueError "Project Name is required"), db))
  /\ (strip project_name <> "" -> strip project_description = "" ->
      show_create_project template_type project_name project_description business_goal
        document_version prepared_by approved_by target_release_date stamp now db
      = (inr (ValueError "Project Description is required"), db))
  /\ (strip project_name <> "" -> strip project_description <> "" ->
      strip business_goal = "" ->
      show_create_project template_type project_name project_description business_goal
        document_version prepared_by approved_by target_release_date stamp now db
      = (inr (ValueError "Business Goal is required"), db))
  /\ (strip project_name <> "" -> strip project_description <> "" ->
      strip business_goal <> "" ->
      String.length (strip project_description) < 10 ->
      exists errs,
        show_create_project template_type project_name project_description business_goal
          document_version prepared_by approved_by target_release_date stamp now db
        = (inr (Raised (ValidationError errs)), db)
        /\ In "project_description" (map loc errs)).
Proof.
  assert (V : forall value field_name,
            validate_required_field value field_name
            = if String.eqb (strip value) "" then inr (ValueError (field_name ++ " is required"))
              else inl (strip value)).
  { intros value field_name. unfold validate_required_field.
    destruct (String.eqb_spec value "") as [->|]; reflexivity. }
  unfold show_create_project. rewrite !V.
  split; [|split; [|split]].
  - intros ->. reflexivity.
  - intros N ->. destruct (String.eqb_spec (strip project_name) ""); [contradiction|].
    reflexivity.
  - intros N D ->. destruct (String.eqb_spec (strip project_name) ""); [contradiction|].
    destruct (String.eqb_spec (strip project_description) ""); [contradiction|].
    reflexivity.
  - intros N D G L. destruct (String.eqb_spec (strip project_name) ""); [contradiction|].
    destruct (String.eqb_spec (strip project_description) ""); [contradiction|].
    destruct (String.eqb_spec (strip business_goal) ""); [contradiction|].
    match goal with |- context [construct OverviewModel ?kw] =>
      set (kwargs := kw);
      assert (Hv : violated kwargs (Field "project_description" (Str 10 (Some 2000)) None) = true)
        by (apply (violated_short kwargs "project_description" _ _ _
                     (strip project_description) eq_refl L));
      destruct (construct OverviewModel kwargs) as [ov|errs] eqn:C
    end.
    + exfalso. pose proof (is_valid_validate (fields OverviewModel) kwargs) as I.
      unfold construct in C. destruct (validate (fields OverviewModel) kwargs); [|discriminate].
      cbn [is_valid] in I. symmetry in I.
      cbn [fields OverviewModel OverviewModel_fields forallb] in I.
      unfold required_field in I at 2. rewrite Hv in I. cbn [negb] in I.
      rewrite andb_false_r in I. discriminate.
    + exists errs. split; [reflexivity|].
      apply (errors_construct_loc OverviewModel kwargs errs
               (Field "project_description" (Str 10 (Some 2000)) None) C); [|exact Hv].
      right. now left.
Qed.





End Store.

(** ** Examples: the claims at concrete inputs *)



(** C2, witness: a row whose UI block holds a record without its
    description and whose API block holds one sound record. *)
Lemma corrupt_ui_block_is_isolated :
  (forall lax_float lax_bool json_parse,
     decode_records lax_float lax_bool json_parse UISpecificationModel
       ui_block_without_description
     = Raise (ValidationError [Error "requirement_description" missing]))
  /\ forall lax_float lax_bool json_parse json_print,
       exists p,
         fst (get_project lax_float lax_bool json_parse json_print "proj-1"
                (Some (table_with_corrupt_ui_block order_tracker_overview)))
         = Ok (Some p)
         /\ BRDProjectModel.ui_specifications p = []
         /\ BRDProjectModel.api_specifications p = [submit_feedback].
Proof.
  split; [reflexivity|]. intros lf lb jp pr.
  destruct (get_project_isolates_collection_blocks lf lb jp pr
              (Some (table_with_corrupt_ui_block order_tracker_overview)) "proj-1"
              (row_with_corrupt_ui_block order_tracker_overview) _
              order_tracker_overview eq_refl eq_refl eq_refl) as (p & G & _ & Ek).
  exists p. split; [exact G|]. split.
  - exact (proj1 (Ek ui_specs _ eq_refl) _ eq_refl).
  - exact (proj2 (proj2 (Ek api_specs _ eq_refl)) [submit_feedback] eq_refl eq_refl).
Defined.

(** C2, counterexample: the same row with the UI block as the one
    corrupt collection block, every other collection block decoding, and
    an overview that lost its project name: the load raises. *)
Lemma corrupt_overview_fails_the_load :
  (forall lax_float lax_bool json_parse,
     decode_records lax_float lax_bool json_parse UISpecificationModel
       ui_block_without_description
     = Raise (ValidationError [Error "requirement_description" missing]))
  /\ (forall lax_float lax_bool json_parse k,
        k <> ui_specs ->
        exists b rs,
          cell_at (map col_name projects_columns)
            (row_with_corrupt_ui_block cleared_overview) (column_of k) = Some b
          /\ truthy b = true
          /\ decode_records lax_float lax_bool json_parse (model_of k) b = Ok rs)
  /\ forall lax_float lax_bool json_parse json_print,
       fst (get_project lax_float lax_bool json_parse json_print "proj-1"
              (Some (table_with_corrupt_ui_block cleared_overview)))
       = Raise (ValidationError [Error "project_name" string_too_short]).
Proof.
  split; [reflexivity|]. split; [|reflexivity].
  intros lf lb jp k Hk.
  destruct k; [contradiction| | | | | | | |];
    eexists; eexists; (split; [reflexivity|split; reflexivity]).
Qed.

(** C3, witness: a table of eleven columns with one row. *)
Lemma legacy_order_tracker_loads :
  forallb (fun c => negb (has_column (legacy_table order_tracker_overview) (col_name c)))
    required_columns = true
  /\ rows_aligned (legacy_table order_tracker_overview)
  /\ forall lax_float lax_bool json_parse json_print,
       exists p,
         fst (get_project lax_float lax_bool json_parse json_print "proj-0"
                (Some (legacy_table order_tracker_overview)))
         = Ok (Some p)
         /\ BRDProjectModel.template_type p = "Normal"
         /\ BRDProjectModel.agent_architectures p = []
         /\ BRDProjectModel.agent_configurations p = []
         /\ BRDProjectModel.agent_tasks p = [].
Proof.
  assert (A : rows_aligned (legacy_table order_tracker_overview)).
  { repeat constructor. }
  split; [reflexivity|]. split; [exact A|]. intros lf lb jp pr.
  exact (proj2 (proj2 (legacy_rows_load_with_defaults lf lb jp pr))
           (legacy_table order_tracker_overview) "proj-0"
           (legacy_row order_tracker_overview) _ order_tracker_overview
           eq_refl A eq_refl eq_refl eq_refl).
Defined.

(** C3, counterexample: a row of the eleven-column table whose overview
    lost its project name: the load raises after the migration. *)
Lemma legacy_row_with_cleared_overview_fails :
  forallb (fun c => negb (has_column (legacy_table cleared_overview) (col_name c)))
    required_columns = true
  /\ rows_aligned (legacy_table cleared_overview)
  /\ forall lax_float lax_bool json_parse json_print,
       fst (get_project lax_float lax_bool json_parse json_print "proj-0"
              (Some (legacy_table cleared_overview)))
       = Raise (ValidationError [Error "project_name" string_too_short]).
Proof.
  split; [reflexivity|]. split; [repeat constructor|]. reflexivity.
Qed.



(** C10, witness: the overview block of the row is an object without
    a project name. *)
Lemma cleared_overview_raises :
  cell_at (map col_name projects_columns) (row_with_corrupt_ui_block cleared_overview)
    "overview_json"
  = Some (model_dump_json OverviewModel cleared_overview)
  /\ forall lax_float lax_bool json_parse json_print,
       fst (get_project lax_float lax_bool json_parse json_print "proj-1"
              (Some (table_with_corrupt_ui_block cleared_overview)))
       = Raise (ValidationError [Error "project_name" string_too_short]).
Proof.
  split; [reflexivity|]. intros lf lb jp pr.
  exact (get_project_raises_on_corrupt_overview lf lb jp pr
           (Some (table_with_corrupt_ui_block cleared_overview)) "proj-1"
           (row_with_corrupt_ui_block cleared_overview) _ _
           eq_refl eq_refl eq_refl).
Defined.


(** C8, counterexample: an API specification with empty payload
    descriptions and a method outside the five is constructed. *)
Lemma api_specification_with_empty_payloads :
  (forall lax_float lax_bool,
     construct lax_float lax_bool APISpecificationModel fetch_api_kwargs = Valid fetch_api)
  /\ APISpecificationModel.request_payload fetch_api = ""
  /\ APISpecificationModel.response_payload fetch_api = ""
  /\ ~ In (APISpecificationModel.method fetch_api) ["GET"; "POST"; "PUT"; "DELETE"; "PATCH"].
Proof.
  repeat split; try reflexivity.
  simpl. intuition discriminate.
Qed.

(** C8, witness: keyword arguments without [api_name]. *)
Lemma api_specification_witness :
  In "api_name" ["api_id"; "api_name"; "method"; "endpoint"]
  /\ get nameless_api_kwargs "api_name" = None
  /\ forall lax_float lax_bool,
       is_valid (construct lax_float lax_bool APISpecificationModel
                   nameless_api_kwargs) = false.
Proof.
  assert (I : In "api_name" ["api_id"; "api_name"; "method"; "endpoint"]).
  { simpl. auto. }
  split; [exact I|]. split; [reflexivity|]. intros lf lb.
  exact (proj1 (proj2 (api_specification_constraints lf lb))
           nameless_api_kwargs "api_name" I eq_refl).
Defined.

(** C9, counterexample: a prompt for a model outside the fixed set is
    constructed. *)
Lemma llm_prompt_with_unlisted_model :
  (forall lax_float lax_bool,
     construct lax_float lax_bool LLMPromptModel gpt4_prompt_kwargs = Valid gpt4_prompt)
  /\ ~ In (LLMPromptModel.model_name gpt4_prompt) AVAILABLE_MODELS.
Proof.
  split; [reflexivity|]. simpl. intuition discriminate.
Qed.

(** C9, witness: a prompt with temperature 0.2. *)
Lemma llm_prompt_witness :
  (forall lax_float lax_bool,
     construct lax_float lax_bool LLMPromptModel gpt4_prompt_kwargs = Valid gpt4_prompt)
  /\ PrimFloat.leb 0 (LLMPromptModel.temperature gpt4_prompt) = true
  /\ PrimFloat.leb (LLMPromptModel.temperature gpt4_prompt) 2 = true.
Proof.
  split; [reflexivity|].
  exact (proj1 (llm_prompt_constraints (fun _ => None) (fun _ => None))
           gpt4_prompt_kwargs gpt4_prompt eq_refl).
Defined.

(** C4, witness: an empty use case together with a temperature of 3.0;
    the error names both fields. *)
Lemma two_violations_are_both_named :
  get bad_prompt_kwargs "use_case" = Some (PStr "")
  /\ get bad_prompt_kwargs "temperature" = Some (PFloat 3)
  /\ forall lax_float lax_bool,
       exists errs,
         call lax_float lax_bool LLMPromptModel (PDict bad_prompt_kwargs)
         = Raise (ValidationError errs)
         /\ map loc errs = ["use_case"; "temperature"].
Proof.
  split; [reflexivity|]. split; [reflexivity|]. intros lf lb.
  exact (proj2 (proj2 (validation_error_names_every_violated_field lf lb
                         LLMPromptModel bad_prompt_kwargs)) eq_refl).
Defined.

(** ** Examples: the further properties at concrete inputs *)

(** X2 at work.  Deleting from an empty store. *)
Lemma delete_project_of_absent_id_example :
  (forall lax_float lax_bool json_parse json_print,
     fst (get_project lax_float lax_bool json_parse json_print "proj-20250101120000" None)
     = Ok None)
  /\ (forall json_print,
        delete_project json_print "proj-20250101120000" None
        = (Ok true, Some (Table projects_columns []))).
Proof.
  split; [reflexivity|]. intros pr.
  exact (delete_project_of_absent_id (fun _ => None) (fun _ => None) (fun _ => None) pr
           "proj-20250101120000" None eq_refl).
Defined.

(** X1 at work.  The project is created twice, a second apart, and the copy is
    deleted. *)
Lemma delete_project_then_get_project_example :
  (forall json_print,
     fst (delete_project json_print "proj-20250101120001" (order_tracker_twice json_print))
     = Ok true)
  /\ forall lax_float lax_bool json_parse json_print,
      let db' := snd (delete_project json_print "proj-20250101120001"
                        (order_tracker_twice json_print)) in
      fst (get_project lax_float lax_bool json_parse json_print "proj-20250101120001" db')
      = Ok None
      /\ fst (get_project lax_float lax_bool json_parse json_print "proj-20250101120000" db')
         = Ok (Some order_tracker_stored).
Proof.
  split; [reflexivity|]. intros lf lb jp pr db'.
  destruct (delete_project_then_get_project lf lb jp pr
              "proj-20250101120001" "proj-20250101120000" (order_tracker_twice pr) eq_refl)
    as [H1 H2].
  split; [exact H1|]. unfold db'. rewrite H2; [reflexivity|discriminate].
Defined.

(** X3 at work.  The two projects are listed, the later one first. *)
Lemma list_projects_newest_first_example :
  (forall json_print,
     map (fun d => get d "updated_at") (fst (list_projects json_print (order_tracker_twice json_print)))
     = [Some (PStr "2025-01-01T12:00:01"); Some (PStr "2025-01-01T12:00:00")])
  /\ forall json_print,
      exists sorted,
        Permutation sorted (rows (init_database (order_tracker_twice json_print)))
        /\ Sorted (not_newer json_print (names (init_database (order_tracker_twice json_print))))
             sorted
        /\ fst (list_projects json_print (order_tracker_twice json_print))
           = map (summary_of json_print (names (init_database (order_tracker_twice json_print))))
               sorted
        /\ length (fst (list_projects json_print (order_tracker_twice json_print)))
           = fst (get_project_count (order_tracker_twice json_print)).
Proof.
  split; [reflexivity|]. intros pr.
  exact (list_projects_newest_first pr (order_tracker_twice pr) eq_refl).
Defined.

(** X4 at work.  A table without the dates holds a project, and lists none. *)
Lemma list_projects_hides_errors_example :
  has_column (init_database (Some undated_table)) "created_at" = false
  /\ fst (get_project_count (Some undated_table)) = 1
  /\ forall json_print, fst (list_projects json_print (Some undated_table)) = [].
Proof.
  split; [reflexivity|]. split; [reflexivity|]. intros pr.
  exact (f_equal fst (list_projects_hides_errors pr (Some undated_table) "created_at"
                        (or_intror (or_intror (or_introl eq_refl))) eq_refl)).
Defined.

(** X5 at work.  Creating the Order Tracker in an empty store. *)
Lemma create_project_adds_one_project_example :
  (forall json_print,
     create_project json_print order_tracker "20250101120000" "2025-01-01T12:00:00" None
     = (Ok "proj-20250101120000", order_tracker_once json_print))
  /\ forall lax_float lax_bool json_parse json_print,
      fst (get_project_count (order_tracker_once json_print)) = S (fst (get_project_count None))
      /\ fst (get_project lax_float lax_bool json_parse json_print "proj-20250101120000" None)
         = Ok None
      /\ ("proj-20240101000000" <> "proj-20250101120000" ->
          fst (get_project lax_float lax_bool json_parse json_print "proj-20240101000000"
                 (order_tracker_once json_print))
          = fst (get_project lax_float lax_bool json_parse json_print "proj-20240101000000"
                   None)).
Proof.
  split; [reflexivity|]. intros lf lb jp pr.
  exact (create_project_adds_one_project lf lb jp pr order_tracker
           "20250101120000" "2025-01-01T12:00:00" None "proj-20250101120000"
           (order_tracker_once pr) "proj-20240101000000" eq_refl).
Defined.

(** X6 at work.  A second project is created within the second of the first. *)
Lemma create_project_twice_in_a_second_example :
  (forall json_print,
     create_project json_print order_tracker "20250101120000" "2025-01-01T12:00:00" None
     = (Ok "proj-20250101120000", order_tracker_once json_print))
  /\ forall json_print,
      create_project json_print order_tracker_with_prompt "20250101120000"
        "2025-01-01T12:00:00.700000" (order_tracker_once json_print)
      = (Raise IntegrityError, order_tracker_once json_print).
Proof.
  split; [reflexivity|]. intros pr.
  exact (create_project_twice_in_a_second pr order_tracker order_tracker_with_prompt
           "20250101120000" "2025-01-01T12:00:00" "2025-01-01T12:00:00.700000" None
           "proj-20250101120000" (order_tracker_once pr) eq_refl).
Defined.

(** X7 at work.  The first of the two projects is updated with a second screen; the
    other is found as before. *)
Lemma update_project_keeps_other_projects_example :
  BRDProjectModel.project_id order_tracker_edited <> Some "proj-20250101120001"
  /\ forall lax_float lax_bool json_parse json_print,
      fst (get_project lax_float lax_bool json_parse json_print "proj-20250101120001"
             (snd (update_project json_print order_tracker_edited "2025-01-02T08:00:00"
                     (order_tracker_twice json_print))))
      = fst (get_project lax_float lax_bool json_parse json_print "proj-20250101120001"
               (order_tracker_twice json_print)).
Proof.
  assert (N : BRDProjectModel.project_id order_tracker_edited <> Some "proj-20250101120001")
    by discriminate.
  split; [exact N|]. intros lf lb jp pr.
  exact (proj2 (update_project_keeps_other_projects lf lb jp pr order_tracker_edited
                  "2025-01-02T08:00:00" (order_tracker_twice pr))
           "proj-20250101120001" N).
Defined.

(** X8 at work.  What is loaded for the Order Tracker satisfies the constraints. *)
Lemma get_project_returns_valid_content_example :
  (forall lax_float lax_bool json_parse json_print,
     fst (get_project lax_float lax_bool json_parse json_print "proj-20250101120000"
            (order_tracker_once json_print))
     = Ok (Some order_tracker_stored))
  /\ content_ok order_tracker_stored
  /\ BRDProjectModel.project_id order_tracker_stored = Some "proj-20250101120000".
Proof.
  split; [reflexivity|].
  destruct (get_project_returns_valid_content (fun _ => None) (fun _ => None) (fun _ => None)
              (fun _ => "") "proj-20250101120000" (order_tracker_once (fun _ => ""))
              order_tracker_stored eq_refl) as [H1 H2].
  split; [exact H1|exact (H2 eq_refl)].
Defined.

(** X9 at work.  A project with a screen whose component was cleared: the screens
    are lost on the way through the store, the API is not. *)
Lemma create_project_then_get_project_by_collection_example :
  satisfies OverviewModel (BRDProjectModel.overview project_with_untitled_screen) = true
  /\ forall lax_float lax_bool json_parse json_print,
      exists p',
        fst (get_project lax_float lax_bool json_parse json_print "proj-20250101120000"
               (snd (create_project json_print project_with_untitled_screen
                       "20250101120000" "2025-01-01T12:00:00" None)))
        = Ok (Some p')
        /\ BRDProjectModel.ui_specifications p' = []
        /\ BRDProjectModel.api_specifications p' = [submit_feedback].
Proof.
  split; [reflexivity|]. intros lf lb jp pr.
  destruct (create_project_then_get_project_by_collection lf lb jp pr
              project_with_untitled_screen "20250101120000" "2025-01-01T12:00:00" None
              "proj-20250101120000" _ eq_refl eq_refl) as (p' & G & _ & C).
  exists p'. split; [exact (f_equal fst G)|].
  split; [exact (C ui_specs)|exact (C api_specs)].
Defined.

(** X10 at work.  The Order Tracker is loaded and saved as it is. *)
Lemma get_project_then_update_project_example :
  rows_aligned (init_database (order_tracker_once (fun _ => "")))
  /\ forall lax_float lax_bool json_parse json_print,
      exists p',
        fst (get_project lax_float lax_bool json_parse json_print "proj-20250101120000"
               (snd (update_project json_print order_tracker_stored "2025-01-02T08:00:00"
                       (order_tracker_once json_print))))
        = Ok (Some p')
        /\ BRDProjectModel.overview p' = order_tracker_overview
        /\ BRDProjectModel.ui_specifications p' = [order_list].
Proof.
  assert (A : forall pr, rows_aligned (init_database (order_tracker_once pr))).
  { intros pr. repeat constructor. }
  split; [apply A|]. intros lf lb jp pr.
  destruct (get_project_then_update_project lf lb jp pr "proj-20250101120000"
              (order_tracker_once pr) order_tracker_stored "2025-01-02T08:00:00" _
              eq_refl (A pr) eq_refl eq_refl) as (row' & p' & _ & _ & G & Ho & Hc).
  exists p'. split; [exact (f_equal fst G)|]. split; [exact Ho|exact (Hc ui_specs)].
Defined.

(** X12 at work.  The Order Tracker is exported, and imported a day later. *)
Lemma export_project_data_then_import_example :
  (forall lax_float lax_bool json_parse json_print,
     fst (export_project_data lax_float lax_bool json_parse json_print
            "proj-20250101120000" (order_tracker_once json_print))
     = Ok (Some order_tracker_data))
  /\ forall lax_float lax_bool json_parse json_print,
      exists p',
        fst (get_project lax_float lax_bool json_parse json_print "proj-20250102090000"
               (snd (import_project_data lax_float lax_bool json_print order_tracker_data
                       "20250102090000" "2025-01-02T09:00:00"
                       (order_tracker_once json_print))))
        = Ok (Some p')
        /\ BRDProjectModel.overview p' = order_tracker_overview
        /\ BRDProjectModel.ui_specifications p' = [order_list].
Proof.
  split; [reflexivity|]. intros lf lb jp pr.
  destruct (export_project_data_then_import lf lb jp pr "proj-20250101120000"
              (order_tracker_once pr) order_tracker_data eq_refl) as (p & G & _ & I).
  injection G as <-.
  destruct (I "20250102090000" "2025-01-02T09:00:00" (order_tracker_once pr)
              "proj-20250102090000" _ eq_refl) as (p' & G' & Ho & Hc & _).
  exists p'. split; [exact (f_equal fst G')|]. split; [exact Ho|exact (Hc ui_specs)].
Defined.

(** X14 at work.  The workbook of the Order Tracker, before and after the store. *)
Lemma export_to_excel_after_reload_example :
  content_ok order_tracker
  /\ forall lax_float lax_bool json_parse json_print,
      exists p',
        fst (get_project lax_float lax_bool json_parse json_print "proj-20250101120000"
               (order_tracker_once json_print))
        = Ok (Some p')
        /\ export_to_excel p' "2025-01-03 10:00:00.000000" "20250103_100000"
           = export_to_excel order_tracker "2025-01-03 10:00:00.000000" "20250103_100000".
Proof.
  assert (OK : content_ok order_tracker).
  { split; [reflexivity|intros k; destruct k; reflexivity]. }
  split; [exact OK|]. intros lf lb jp pr.
  destruct (export_to_excel_after_reload lf lb jp pr order_tracker
              "20250101120000" "2025-01-01T12:00:00" None "proj-20250101120000"
              (order_tracker_once pr) eq_refl OK) as (p' & G & E).
  exists p'. split; [exact (f_equal fst G)|apply E].
Defined.



(** X18 at work.  A stream with a number between two chunks. *)
Lemma stream_ollama_response_ends_at_a_scalar_line_example :
  truthy (Text number_line) = true
  /\ forall json_parse type_error_message,
      respond json_parse type_error_message
        (Replied None
           [Dumped (PDict [("response", PStr "Hel")]); number_line;
            Dumped (PDict [("response", PStr "lo")])] None)
      = [PStr "Hel"; PStr ("Error: " ++ type_error_message (PInt 42))].
Proof.
  split; [reflexivity|]. intros jp tem.
  exact (stream_ollama_response_ends_at_a_scalar_line jp tem [PStr "Hel"] number_line (PInt 42)
           [Dumped (PDict [("response", PStr "lo")])] None eq_refl eq_refl I).
Defined.

(** X21 at work.  The Create Project form, filled in for the Order Tracker with
    blanks around the name. *)
Lemma show_create_project_then_get_project_example :
  strip "  Order Tracker " = "Order Tracker"
  /\ forall lax_float lax_bool json_parse json_print,
      exists p,
        fst (get_project lax_float lax_bool json_parse json_print "proj-20250101120000"
               (snd (show_create_project lax_float lax_bool json_print
                       "Normal" "  Order Tracker " "Tracks customer orders end to end"
                       "Reduce order-status inquiries by 40%" "1.0" "" ""
                       (Some "2025-06-30") "20250101120000" "2025-01-01T12:00:00" None)))
        = Ok (Some p)
        /\ BRDProjectModel.overview p
           = OverviewModel.mk "Order Tracker" "Tracks customer orders end to end"
               "Reduce order-status inquiries by 40%" "1.0" "Local AI" ""
               (Some "2025-06-30").
Proof.
  split; [reflexivity|]. intros lf lb jp pr.
  destruct (show_create_project_then_get_project lf lb jp pr
              "Normal" "  Order Tracker " "Tracks customer orders end to end"
              "Reduce order-status inquiries by 40%" "1.0" "" ""
              (Some "2025-06-30") "20250101120000" "2025-01-01T12:00:00" None
              "proj-20250101120000" _ eq_refl) as (p & G & Ho & _).
  exists p. split; [exact (f_equal fst G)|exact Ho].
Defined.



